(** * Order / quote workflow of the dental-prosthesis platform

    A shallow embedding of the server side of the repository: the access
    middleware ([server/middleware/auth.js]), the pricing-factor resolver
    ([server/models/PricingFactor.js]), the quote hooks
    ([server/models/Quote.js]) and the order, quote and chat routers.

    Conventions of the embedding.
    - Primary keys (UUIDs) are natural numbers; tables looked up by primary
      key are finite maps, tables that are filtered, ordered or updated in
      bulk are lists in insertion order.
    - Dates are integers (milliseconds since the epoch); the clock reading of
      a request is an explicit argument [now].
    - Amounts are exact rationals. A value written into a DECIMAL(p, 2)
      column is rounded to two decimals, half away from zero, and refused
      when the rounded value does not fit the column; the arithmetic of the
      hooks is exact. Rounding of IEEE doubles is not modelled.
    - Request bodies are the bodies that passed the express-validator chain of
      their route, so they are typed records. A store holds rows of the
      database: every value it holds fits its column.
    - The refusals of the ORM and of the store that a route meets are
      modelled, and they end in the [catch] block of the route: a required
      column that is left empty ([totalPrice] of a new quote, [orderNumber]
      of a new order), a label that the ENUM of its column does not declare
      (the notices of the routes, the labels of an order in the queries of
      the resolver), a number that does not fit its column, a handler that
      reads the order of a quote that has none. Nothing is rolled back: what
      a route wrote before the refusal stays written.
    - Query operators are read with the meaning their names have in the ORM
      ([Op.lte], [Op.gte], [Op.or], [Op.ne]), [findByPk(undefined)] as "no
      row", and ENUM columns are ordered by the position of the label in the
      declaration, as the PostgreSQL database of the project orders them.
    - [instance.changed(key)] looks its argument up as one key of the flags
      of the instance; the array that the hooks of the quote model pass is
      read as its elements joined by commas, which is the name of no column.
    - The [createdAt] / [updatedAt] columns are kept only where a modelled
      query reads or a modelled update writes them. *)

From Stdlib Require Import ZArith QArith String List Bool Lia.
From stdpp Require Import base option list gmap strings pretty.

Open Scope string_scope.

Abbreviation Id := nat.

#[global] Instance Q_eq_dec : EqDecision Q.
Proof. solve_decision. Defined.

(** ** HTTP answers and the middleware monad *)

Record Response := mkResponse { status_code : Z; message : string }.

#[global] Instance Response_eq_dec : EqDecision Response.
Proof. solve_decision. Defined.

(** A middleware either answers by itself or calls [next()] with a value. *)
Definition Mw (A : Type) : Type := (Response + A)%type.

Definition respond {A} (code : Z) (msg : string) : Mw A :=
  inl (mkResponse code msg).

Definition next {A} (a : A) : Mw A := inr a.

Definition mw_bind {A B} (m : Mw A) (k : A -> Mw B) : Mw B :=
  match m with
  | inl r => inl r
  | inr a => k a
  end.

Notation "'do' x <- m ; k" := (mw_bind m (fun x => k))
  (at level 10, x name, m at level 100, k at level 200).

(** ** Users and credentials *)

Inductive Role := admin | dentist | supplier.

#[global] Instance Role_eq_dec : EqDecision Role.
Proof. solve_decision. Defined.

Definition role_label (r : Role) : string :=
  match r with
  | admin => "admin"
  | dentist => "dentist"
  | supplier => "supplier"
  end.

Inductive Language := fr | en | zh.

Module User.
Record t := mk {
  id : Id;
  role : Role;
  isActive : bool;
  preferredLanguage : option Language
}.
End User.

(** What the bearer header of a request amounts to: no token, a token that
    [jwt.verify] rejects, or a token whose user id resolves (or not) to a
    user row. *)
Inductive Credential :=
| NoToken
| InvalidToken
| ExpiredToken
| TokenOf (u : option User.t).

Definition authenticateToken (c : Credential) : Mw User.t :=
  match c with
  | NoToken => respond 401 "Access token required"
  | InvalidToken => respond 401 "Invalid token"
  | ExpiredToken => respond 401 "Token expired"
  | TokenOf None => respond 401 "Invalid or inactive user"
  | TokenOf (Some u) =>
      if User.isActive u then next u
      else respond 401 "Invalid or inactive user"
  end.

Definition requireRole (roles : list Role) (u : User.t) : Mw User.t :=
  if bool_decide (User.role u ∈ roles) then next u
  else respond 403
         ("Access denied. Required role: "
          +:+ String.concat " or " (map role_label roles)).

Definition requireAdmin := requireRole [admin].
Definition requireDentistOrAdmin := requireRole [dentist; admin].
Definition requireSupplierOrAdmin := requireRole [supplier; admin].

(** ** Orders *)

Inductive OrderStatus :=
| quote_asked
| quote_sent
| quote_validated
| in_production
| in_shipping
| delivered
| cancelled.

#[global] Instance OrderStatus_eq_dec : EqDecision OrderStatus.
Proof. solve_decision. Defined.

Definition status_label (s : OrderStatus) : string :=
  match s with
  | quote_asked => "quote_asked"
  | quote_sent => "quote_sent"
  | quote_validated => "quote_validated"
  | in_production => "in_production"
  | in_shipping => "in_shipping"
  | delivered => "delivered"
  | cancelled => "cancelled"
  end.

Inductive ProsthesisType :=
| pt_crown | pt_bridge | pt_implant | pt_denture | pt_veneer | pt_inlay
| pt_onlay | pt_other.

Inductive OrderMaterial :=
| om_ceramic | om_porcelain | om_metal | om_zirconia | om_composite
| om_acrylic | om_other.

Inductive OrderUrgency := ou_low | ou_medium | ou_high | ou_urgent.

Inductive Gender := male | female | other_gender.

#[global] Instance ProsthesisType_eq_dec : EqDecision ProsthesisType.
Proof. solve_decision. Defined.
#[global] Instance OrderMaterial_eq_dec : EqDecision OrderMaterial.
Proof. solve_decision. Defined.
#[global] Instance OrderUrgency_eq_dec : EqDecision OrderUrgency.
Proof. solve_decision. Defined.
#[global] Instance Gender_eq_dec : EqDecision Gender.
Proof. solve_decision. Defined.

Definition prosthesis_label (p : ProsthesisType) : string :=
  match p with
  | pt_crown => "crown" | pt_bridge => "bridge" | pt_implant => "implant"
  | pt_denture => "denture" | pt_veneer => "veneer" | pt_inlay => "inlay"
  | pt_onlay => "onlay" | pt_other => "other"
  end.

Definition order_material_label (m : OrderMaterial) : string :=
  match m with
  | om_ceramic => "ceramic" | om_porcelain => "porcelain" | om_metal => "metal"
  | om_zirconia => "zirconia" | om_composite => "composite"
  | om_acrylic => "acrylic" | om_other => "other"
  end.

Definition order_urgency_label (u : OrderUrgency) : string :=
  match u with
  | ou_low => "low" | ou_medium => "medium" | ou_high => "high"
  | ou_urgent => "urgent"
  end.

(** Writing the keys of a JavaScript object into a row: a present key
    overwrites a required column ... *)
Definition put {A} (new : option A) (old : A) : A :=
  match new with Some v => v | None => old end.

(** ... and a nullable one. *)
Definition put_opt {A} (new : option A) (old : option A) : option A :=
  match new with Some v => Some v | None => old end.

Module Order.
Record t := mk {
  id : Id;
  orderNumber : string;
  dentistId : Id;
  supplierId : Id;
  status : OrderStatus;
  title : string;
  description : option string;
  patientName : option string;
  patientAge : option Z;
  patientGender : option Gender;
  toothNumbers : list Z;
  prosthesisType : ProsthesisType;
  material : OrderMaterial;
  color : option string;
  urgency : OrderUrgency;
  expectedDelivery : option Z;
  actualDelivery : option Z;
  originalQuote : option Q;
  adjustedQuote : option Q;
  pricingFactor : option Q;
  notes : option string;
  trackingNumber : option string;
  shippingCompany : option string
}.

(** The object handed to [order.update(...)]: a key that is absent from
    the JavaScript object is [None] here. *)
Record patch := mkPatch {
  p_status : option OrderStatus;
  p_title : option string;
  p_description : option string;
  p_patientName : option string;
  p_patientAge : option Z;
  p_patientGender : option Gender;
  p_toothNumbers : option (list Z);
  p_prosthesisType : option ProsthesisType;
  p_material : option OrderMaterial;
  p_color : option string;
  p_urgency : option OrderUrgency;
  p_expectedDelivery : option Z;
  p_actualDelivery : option Z;
  p_originalQuote : option Q;
  p_adjustedQuote : option Q;
  p_pricingFactor : option Q;
  p_notes : option string;
  p_trackingNumber : option string;
  p_shippingCompany : option string
}.

Definition update (p : patch) (o : t) : t :=
  {| id := id o;
     orderNumber := orderNumber o;
     dentistId := dentistId o;
     supplierId := supplierId o;
     status := put (p_status p) (status o);
     title := put (p_title p) (title o);
     description := put_opt (p_description p) (description o);
     patientName := put_opt (p_patientName p) (patientName o);
     patientAge := put_opt (p_patientAge p) (patientAge o);
     patientGender := put_opt (p_patientGender p) (patientGender o);
     toothNumbers := put (p_toothNumbers p) (toothNumbers o);
     prosthesisType := put (p_prosthesisType p) (prosthesisType o);
     material := put (p_material p) (material o);
     color := put_opt (p_color p) (color o);
     urgency := put (p_urgency p) (urgency o);
     expectedDelivery := put_opt (p_expectedDelivery p) (expectedDelivery o);
     actualDelivery := put_opt (p_actualDelivery p) (actualDelivery o);
     originalQuote := put_opt (p_originalQuote p) (originalQuote o);
     adjustedQuote := put_opt (p_adjustedQuote p) (adjustedQuote o);
     pricingFactor := put_opt (p_pricingFactor p) (pricingFactor o);
     notes := put_opt (p_notes p) (notes o);
     trackingNumber := put_opt (p_trackingNumber p) (trackingNumber o);
     shippingCompany := put_opt (p_shippingCompany p) (shippingCompany o) |}.
End Order.

(** ** Values as the store takes them *)

(** A call that can throw. *)
Inductive Outcome (A : Type) :=
| Thrown
| Returned (a : A).

Arguments Thrown {A}.
Arguments Returned {A} a.

(** A value as a DECIMAL(p, 2) column keeps it: two decimals, half away
    from zero. *)
Definition round2 (v : Q) : Q :=
  let d := Z.pos (Qden v) in
  (Z.sgn (Qnum v) * ((Z.abs (Qnum v) * 200 + d) / (2 * d))) # 100.

(** The rounded value has at most [p - 2] digits before the point. *)
Definition fits_decimal (p : Z) (v : Q) : bool :=
  (Z.abs (Qnum (round2 v)) <? 10 ^ p)%Z.

(** An INTEGER column holds 32 bits. *)
Definition fits_integer (n : Z) : bool :=
  (-2147483648 <=? n)%Z && (n <=? 2147483647)%Z.

Definition all_fit {A} (fits : A -> bool) (vs : list (option A)) : bool :=
  forallb (fun v => match v with Some x => fits x | None => true end) vs.

(** ** Quotes *)

(** [parseFloat(x) || d]: a missing value, and the number zero, give [d]. *)
Definition num_or (d : Q) (x : option Q) : Q :=
  match x with
  | Some v => if Qeq_bool v 0 then d else v
  | None => d
  end.

Module Quote.
Inductive status_t := draft | sent | accepted | rejected | modified.

#[global] Instance status_eq_dec : EqDecision status_t.
Proof. solve_decision. Defined.

Record t := mk {
  id : Id;
  orderId : Id;
  supplierId : Id;
  status : status_t;
  basePrice : Q;
  materialCost : option Q;
  laborCost : option Q;
  shippingCost : option Q;
  taxAmount : option Q;
  totalPrice : option Q;
  adjustedPrice : option Q;
  pricingFactor : option Q;
  validUntil : option Z;
  productionTime : option Z;
  shippingTime : option Z;
  notes : option string;
  specifications : string;
  revisionNumber : Z;
  parentQuoteId : option Id;
  acceptedAt : option Z;
  acceptedBy : option Id;
  rejectionReason : option string
}.

(** The object handed to [quote.update(...)]. *)
Record patch := mkPatch {
  p_status : option status_t;
  p_basePrice : option Q;
  p_materialCost : option Q;
  p_laborCost : option Q;
  p_shippingCost : option Q;
  p_taxAmount : option Q;
  p_productionTime : option Z;
  p_shippingTime : option Z;
  p_notes : option string;
  p_specifications : option string;
  p_revisionNumber : option Z;
  p_acceptedAt : option Z;
  p_acceptedBy : option Id;
  p_rejectionReason : option string
}.

(** A model instance: its values and the keys the ORM has flagged as
    changed since the row was loaded. *)
Record instance := mkInstance {
  dataValues : t;
  changed_keys : list string
}.

Definition loaded (q : t) : instance := mkInstance q [].

(** [quote.changed(key)]: the argument is looked up as one key of the
    flags. Given an array, the ORM finds it among the flags only under the
    name its elements spell when joined by commas, and under no name at all
    in the versions that keep the flags in a set; the arrays of the two hooks
    have several elements, so both readings give the same answer for
    them. *)
Definition changed (keys : list string) (i : instance) : bool :=
  bool_decide (String.concat "," keys ∈ changed_keys i).

(** A key is flagged when the value written differs from the current one. *)
Definition flag {A} `{EqDecision A} (key : string) (old new : A)
    : list string :=
  if bool_decide (old = new) then [] else [key].

Definition flag_put {A} `{EqDecision A} (key : string) (old : A)
    (new : option A) : list string :=
  match new with Some v => flag key old v | None => [] end.

Definition flag_put_opt {A} `{EqDecision A} (key : string) (old : option A)
    (new : option A) : list string :=
  match new with Some v => flag key old (Some v) | None => [] end.

(** [instance.set(patch)] *)
Definition set (p : patch) (i : instance) : instance :=
  let q := dataValues i in
  {| dataValues :=
       {| id := id q;
          orderId := orderId q;
          supplierId := supplierId q;
          status := put (p_status p) (status q);
          basePrice := put (p_basePrice p) (basePrice q);
          materialCost := put_opt (p_materialCost p) (materialCost q);
          laborCost := put_opt (p_laborCost p) (laborCost q);
          shippingCost := put_opt (p_shippingCost p) (shippingCost q);
          taxAmount := put_opt (p_taxAmount p) (taxAmount q);
          totalPrice := totalPrice q;
          adjustedPrice := adjustedPrice q;
          pricingFactor := pricingFactor q;
          validUntil := validUntil q;
          productionTime :=
            put_opt (p_productionTime p) (productionTime q);
          shippingTime := put_opt (p_shippingTime p) (shippingTime q);
          notes := put_opt (p_notes p) (notes q);
          specifications :=
            put (p_specifications p) (specifications q);
          revisionNumber :=
            put (p_revisionNumber p) (revisionNumber q);
          parentQuoteId := parentQuoteId q;
          acceptedAt := put_opt (p_acceptedAt p) (acceptedAt q);
          acceptedBy := put_opt (p_acceptedBy p) (acceptedBy q);
          rejectionReason :=
            put_opt (p_rejectionReason p) (rejectionReason q) |};
     changed_keys :=
       changed_keys i
       ++ flag_put "status" (status q) (p_status p)
       ++ flag_put "basePrice" (basePrice q) (p_basePrice p)
       ++ flag_put_opt "materialCost" (materialCost q) (p_materialCost p)
       ++ flag_put_opt "laborCost" (laborCost q) (p_laborCost p)
       ++ flag_put_opt "shippingCost" (shippingCost q) (p_shippingCost p)
       ++ flag_put_opt "taxAmount" (taxAmount q) (p_taxAmount p)
       ++ flag_put_opt "productionTime" (productionTime q)
            (p_productionTime p)
       ++ flag_put_opt "shippingTime" (shippingTime q) (p_shippingTime p)
       ++ flag_put_opt "notes" (notes q) (p_notes p)
       ++ flag_put "specifications" (specifications q) (p_specifications p)
       ++ flag_put "revisionNumber" (revisionNumber q) (p_revisionNumber p)
       ++ flag_put_opt "acceptedAt" (acceptedAt q) (p_acceptedAt p)
       ++ flag_put_opt "acceptedBy" (acceptedBy q) (p_acceptedBy p)
       ++ flag_put_opt "rejectionReason" (rejectionReason q)
            (p_rejectionReason p) |}.

(** [quote.totalPrice = v] *)
Definition assign_totalPrice (v : Q) (i : instance) : instance :=
  let q := dataValues i in
  {| dataValues :=
       mk (id q) (orderId q) (supplierId q) (status q) (basePrice q)
          (materialCost q) (laborCost q) (shippingCost q) (taxAmount q)
          (Some v) (adjustedPrice q) (pricingFactor q) (validUntil q)
          (productionTime q) (shippingTime q) (notes q) (specifications q)
          (revisionNumber q) (parentQuoteId q) (acceptedAt q) (acceptedBy q)
          (rejectionReason q);
     changed_keys :=
       changed_keys i ++ flag "totalPrice" (totalPrice q) (Some v) |}.

(** [quote.adjustedPrice = v] *)
Definition assign_adjustedPrice (v : Q) (i : instance) : instance :=
  let q := dataValues i in
  {| dataValues :=
       mk (id q) (orderId q) (supplierId q) (status q) (basePrice q)
          (materialCost q) (laborCost q) (shippingCost q) (taxAmount q)
          (totalPrice q) (Some v) (pricingFactor q) (validUntil q)
          (productionTime q) (shippingTime q) (notes q) (specifications q)
          (revisionNumber q) (parentQuoteId q) (acceptedAt q) (acceptedBy q)
          (rejectionReason q);
     changed_keys :=
       changed_keys i ++ flag "adjustedPrice" (adjustedPrice q) (Some v) |}.

(** The sum the first hook computes. *)
Definition components_sum (q : t) : Q :=
  num_or 0 (Some (basePrice q)) + num_or 0 (materialCost q)
  + num_or 0 (laborCost q) + num_or 0 (shippingCost q)
  + num_or 0 (taxAmount q).

(** First [beforeSave] hook: "Calculate total price before save". *)
Definition hook_totalPrice (i : instance) : instance :=
  if changed ["basePrice"; "materialCost"; "laborCost"; "shippingCost";
              "taxAmount"] i
  then assign_totalPrice (components_sum (dataValues i)) i
  else i.

(** Second [beforeSave] hook: "Calculate adjusted price with pricing
    factor". *)
Definition hook_adjustedPrice (i : instance) : instance :=
  if changed ["totalPrice"; "pricingFactor"] i
  then
    let q := dataValues i in
    assign_adjustedPrice
      (num_or 0 (totalPrice q) * num_or 1 (pricingFactor q)) i
  else i.

(** The hooks run in the order of their registration. *)
Definition beforeSave (i : instance) : instance :=
  hook_adjustedPrice (hook_totalPrice i).

(** [instance.save()]: the values of the instance once the hooks have
    run. *)
Definition save (i : instance) : t := dataValues (beforeSave i).

(** The numbers of a patch fit their columns: DECIMAL(10, 2) for the price
    components, INTEGER for the two delays and the revision number. *)
Definition fits (p : patch) : bool :=
  all_fit (fits_decimal 10)
    [p_basePrice p; p_materialCost p; p_laborCost p; p_shippingCost p;
     p_taxAmount p]
  && all_fit fits_integer
       [p_productionTime p; p_shippingTime p; p_revisionNumber p].

(** The row as the table keeps it after the UPDATE: the price components
    that the patch carries are rounded. *)
Definition persist (p : patch) (q : t) : t :=
  let kept {A} (new : option A) (f : Q -> Q) (v : Q) : Q :=
    match new with Some _ => f v | None => v end in
  {| id := id q;
     orderId := orderId q;
     supplierId := supplierId q;
     status := status q;
     basePrice := kept (p_basePrice p) round2 (basePrice q);
     materialCost := kept (p_materialCost p) round2 <$> materialCost q;
     laborCost := kept (p_laborCost p) round2 <$> laborCost q;
     shippingCost := kept (p_shippingCost p) round2 <$> shippingCost q;
     taxAmount := kept (p_taxAmount p) round2 <$> taxAmount q;
     totalPrice := totalPrice q;
     adjustedPrice := adjustedPrice q;
     pricingFactor := pricingFactor q;
     validUntil := validUntil q;
     productionTime := productionTime q;
     shippingTime := shippingTime q;
     notes := notes q;
     specifications := specifications q;
     revisionNumber := revisionNumber q;
     parentQuoteId := parentQuoteId q;
     acceptedAt := acceptedAt q;
     acceptedBy := acceptedBy q;
     rejectionReason := rejectionReason q |}.

(** [quote.update(patch)] on a loaded row: the row the table holds
    afterwards, or [None] when the store refuses the values. *)
Definition update (p : patch) (q : t) : option t :=
  if fits p then Some (persist p (save (set p (loaded q)))) else None.

(** The [quoteData] object of the create route. *)
Record data := mkData {
  d_orderId : Id;
  d_supplierId : Id;
  d_basePrice : Q;
  d_materialCost : Q;
  d_laborCost : Q;
  d_shippingCost : Q;
  d_taxAmount : Q;
  d_productionTime : option Z;
  d_shippingTime : option Z;
  d_notes : option string;
  d_specifications : string;
  d_pricingFactor : Q;
  d_validUntil : Z
}.

(** [Quote.build(quoteData)]: the column defaults, overlaid by the data;
    every key of the data counts as changed on a new record. *)
Definition build (new_id : Id) (d : data) : instance :=
  {| dataValues :=
       {| id := new_id;
          orderId := d_orderId d;
          supplierId := d_supplierId d;
          status := draft;
          basePrice := d_basePrice d;
          materialCost := Some (d_materialCost d);
          laborCost := Some (d_laborCost d);
          shippingCost := Some (d_shippingCost d);
          taxAmount := Some (d_taxAmount d);
          totalPrice := None;
          adjustedPrice := None;
          pricingFactor := Some (d_pricingFactor d);
          validUntil := Some (d_validUntil d);
          productionTime := d_productionTime d;
          shippingTime := d_shippingTime d;
          notes := d_notes d;
          specifications := d_specifications d;
          revisionNumber := 1;
          parentQuoteId := None;
          acceptedAt := None;
          acceptedBy := None;
          rejectionReason := None |};
     changed_keys :=
       ["orderId"; "supplierId"; "basePrice"; "materialCost"; "laborCost";
        "shippingCost"; "taxAmount"; "productionTime"; "shippingTime";
        "notes"; "specifications"; "pricingFactor"; "validUntil"] |}.

(** The validation of a new row: [totalPrice] is declared
    [allowNull: false] and has no default. The other required columns are
    always given by the route. *)
Definition validate (i : instance) : bool :=
  bool_decide (is_Some (totalPrice (dataValues i))).

(** The numbers of a new row fit their columns; the factor is a
    DECIMAL(5, 2). *)
Definition row_fits (q : t) : bool :=
  all_fit (fits_decimal 10)
    [Some (basePrice q); materialCost q; laborCost q; shippingCost q;
     taxAmount q; totalPrice q; adjustedPrice q]
  && all_fit (fits_decimal 5) [pricingFactor q]
  && all_fit fits_integer
       [productionTime q; shippingTime q; Some (revisionNumber q)].

(** The row as the table keeps it after the INSERT. *)
Definition inserted (q : t) : t :=
  {| id := id q;
     orderId := orderId q;
     supplierId := supplierId q;
     status := status q;
     basePrice := round2 (basePrice q);
     materialCost := round2 <$> materialCost q;
     laborCost := round2 <$> laborCost q;
     shippingCost := round2 <$> shippingCost q;
     taxAmount := round2 <$> taxAmount q;
     totalPrice := round2 <$> totalPrice q;
     adjustedPrice := round2 <$> adjustedPrice q;
     pricingFactor := round2 <$> pricingFactor q;
     validUntil := validUntil q;
     productionTime := productionTime q;
     shippingTime := shippingTime q;
     notes := notes q;
     specifications := specifications q;
     revisionNumber := revisionNumber q;
     parentQuoteId := parentQuoteId q;
     acceptedAt := acceptedAt q;
     acceptedBy := acceptedBy q;
     rejectionReason := rejectionReason q |}.

(** [Quote.create(quoteData)]: the new row is validated, the hooks run,
    the row is inserted; [None] when the ORM or the store refuses it. *)
Definition create (new_id : Id) (d : data) : option t :=
  let i := build new_id d in
  if validate i
  then
    let q := save i in
    if row_fits q then Some (inserted q) else None
  else None.

End Quote.

(** ** Pricing factors *)

Module PricingFactor.
Inductive category_t :=
| crown | bridge | implant | denture | veneer | inlay | onlay
| general_category.

Inductive material_t :=
| ceramic | porcelain | metal | zirconia | composite | acrylic
| general_material.

Inductive urgency_t := low | medium | high | urgent | general_urgency.

Definition category_label (c : category_t) : string :=
  match c with
  | crown => "crown" | bridge => "bridge" | implant => "implant"
  | denture => "denture" | veneer => "veneer" | inlay => "inlay"
  | onlay => "onlay" | general_category => "general"
  end.

Definition material_label (m : material_t) : string :=
  match m with
  | ceramic => "ceramic" | porcelain => "porcelain" | metal => "metal"
  | zirconia => "zirconia" | composite => "composite" | acrylic => "acrylic"
  | general_material => "general"
  end.

Definition urgency_label (u : urgency_t) : string :=
  match u with
  | low => "low" | medium => "medium" | high => "high" | urgent => "urgent"
  | general_urgency => "general"
  end.

(** Position of a label in its ENUM declaration: the order the database
    sorts the column by. *)
Definition category_index (c : category_t) : Z :=
  match c with
  | crown => 0 | bridge => 1 | implant => 2 | denture => 3 | veneer => 4
  | inlay => 5 | onlay => 6 | general_category => 7
  end.

Definition material_index (m : material_t) : Z :=
  match m with
  | ceramic => 0 | porcelain => 1 | metal => 2 | zirconia => 3
  | composite => 4 | acrylic => 5 | general_material => 6
  end.

Definition urgency_index (u : urgency_t) : Z :=
  match u with
  | low => 0 | medium => 1 | high => 2 | urgent => 3 | general_urgency => 4
  end.

Record t := mk {
  id : Id;
  supplierId : option Id;
  isDefault : bool;
  factor : Q;
  name : string;
  description : option string;
  validFrom : Z;
  validUntil : option Z;
  category : category_t;
  material : material_t;
  urgency : urgency_t;
  minOrderValue : option Q;
  maxOrderValue : option Q;
  isActive : bool;
  createdBy : Id;
  createdAt : Z
}.

(** [validate: { min: 1.0, max: 10.0 }] on the factor column. *)
Definition factor_valid (r : t) : Prop := (1 <= factor r /\ factor r <= 10)%Q.

(** The argument of [getApplicableFactor]. *)
Record orderData := mkOrderData {
  od_supplierId : Id;
  od_category : ProsthesisType;
  od_material : OrderMaterial;
  od_urgency : OrderUrgency;
  od_orderValue : Q
}.

(** [column: [v, 'general']], an SQL [IN] over labels. *)
Definition label_in (l : string) (vs : list string) : bool :=
  bool_decide (l ∈ vs).

(** The labels that the ENUMs of the three scope columns declare. *)
Definition category_labels : list string :=
  ["crown"; "bridge"; "implant"; "denture"; "veneer"; "inlay"; "onlay";
   "general"].

Definition material_labels : list string :=
  ["ceramic"; "porcelain"; "metal"; "zirconia"; "composite"; "acrylic";
   "general"].

Definition urgency_labels : list string :=
  ["low"; "medium"; "high"; "urgent"; "general"].

(** The store compares an ENUM column with labels of that ENUM only: a
    query that names another label is refused. *)
Definition comparable (d : orderData) : bool :=
  label_in (prosthesis_label (od_category d)) category_labels
  && label_in (order_material_label (od_material d)) material_labels
  && label_in (order_urgency_label (od_urgency d)) urgency_labels.

(** The conditions the two queries share. *)
Definition common_where (d : orderData) (now : Z) (r : t) : bool :=
  isActive r
  && (validFrom r <=? now)%Z
  && match validUntil r with None => true | Some u => (now <=? u)%Z end
  && label_in (category_label (category r))
       [prosthesis_label (od_category d); "general"]
  && label_in (material_label (material r))
       [order_material_label (od_material d); "general"]
  && label_in (urgency_label (urgency r))
       [order_urgency_label (od_urgency d); "general"]
  && match minOrderValue r with
     | None => true
     | Some m => Qle_bool m (od_orderValue d)
     end
  && match maxOrderValue r with
     | None => true
     | Some m => Qle_bool (od_orderValue d) m
     end.

Definition supplier_where (d : orderData) (now : Z) (r : t) : bool :=
  bool_decide (supplierId r = Some (od_supplierId d)) && common_where d now r.

Definition default_where (d : orderData) (now : Z) (r : t) : bool :=
  isDefault r && common_where d now r.

(** [order: [['category','DESC'], ['material','DESC'], ['urgency','DESC'],
    ['createdAt','DESC']]] *)
Definition sort_key (r : t) : list Z :=
  [category_index (category r); material_index (material r);
   urgency_index (urgency r); createdAt r].

(** [desc_before ka kb]: a row with key [ka] comes strictly before a row
    with key [kb] when every column is sorted in descending order. *)
Fixpoint desc_before (ka kb : list Z) : bool :=
  match ka, kb with
  | a :: ka', b :: kb' =>
      if (b <? a)%Z then true
      else if (a <? b)%Z then false
      else desc_before ka' kb'
  | _, _ => false
  end.

(** First row of a list in a given order; among rows the order does not
    separate, the one met first in the table. *)
Fixpoint first_in_order {A} (before : A -> A -> bool) (l : list A)
    : option A :=
  match l with
  | [] => None
  | x :: l' =>
      match first_in_order before l' with
      | Some y => if before y x then Some y else Some x
      | None => Some x
      end
  end.

(** [findOne({ where, order })] *)
Definition findOne (where_ : t -> bool) (rows : list t) : option t :=
  first_in_order (fun a b => desc_before (sort_key a) (sort_key b))
                 (filter (fun r => where_ r = true) rows).

(** The two queries, on labels the store can compare. *)
Definition search (d : orderData) (now : Z) (rows : list t) : option t :=
  match findOne (supplier_where d now) rows with
  | Some f => Some f
  | None => findOne (default_where d now) rows
  end.

(** [getApplicableFactor(orderData)]: the first query throws when the store
    refuses a label of the order. *)
Definition getApplicableFactor (d : orderData) (now : Z) (rows : list t)
    : Outcome (option t) :=
  if comparable d then Returned (search d now rows) else Thrown.
End PricingFactor.

(** ** Chat messages *)

Module ChatMessage.
(** [messageType] and [systemAction] are kept as the labels the routes
    write; the store takes the labels that the ENUMs of the two columns
    declare. *)
Record t := mk {
  orderId : Id;
  userId : Id;
  message : string;
  originalLanguage : Language;
  messageType : string;
  systemAction : option string;
  isSystemMessage : bool;
  isRead : bool;
  readAt : option Z;
  updatedAt : Z
}.

(** A system notice as the routes create it. *)
Definition system (order_id : Id) (u : User.t) (text action : string)
    (now : Z) : t :=
  {| orderId := order_id;
     userId := User.id u;
     message := text;
     originalLanguage := default fr (User.preferredLanguage u);
     messageType := "system";
     systemAction := Some action;
     isSystemMessage := true;
     isRead := false;
     readAt := None;
     updatedAt := now |}.

(** The labels of the ENUM of [messageType] ... *)
Definition messageTypes : list string :=
  ["text"; "file"; "image"; "quote_update"; "status_change"].

(** ... and of [systemAction]. *)
Definition systemActions : list string :=
  ["order_created"; "quote_sent"; "quote_accepted"; "quote_rejected";
   "status_changed"; "file_uploaded"; "user_joined"; "user_left"].

(** A new row that the store takes. *)
Definition storable (m : t) : bool :=
  bool_decide (messageType m ∈ messageTypes)
  && match systemAction m with
     | Some a => bool_decide (a ∈ systemActions)
     | None => true
     end.

(** The rows a [markRead] request selects. *)
Definition unread_from_others (order_id reader : Id) (m : t) : bool :=
  bool_decide (orderId m = order_id)
  && negb (bool_decide (userId m = reader))
  && negb (isRead m).

(** [ChatMessage.update({ isRead: true, readAt: now }, { where })] *)
Definition mark (now : Z) (m : t) : t :=
  {| orderId := orderId m;
     userId := userId m;
     message := message m;
     originalLanguage := originalLanguage m;
     messageType := messageType m;
     systemAction := systemAction m;
     isSystemMessage := isSystemMessage m;
     isRead := true;
     readAt := Some now;
     updatedAt := now |}.

Definition markRead (order_id reader : Id) (now : Z) (ms : list t)
    : list t :=
  (fun m => if unread_from_others order_id reader m then mark now m else m)
    <$> ms.
End ChatMessage.

(** ** The store *)

Record DB := mkDB {
  orders : gmap nat Order.t;
  quotes : gmap nat Quote.t;
  chat_messages : list ChatMessage.t;
  pricing_factors : list PricingFactor.t
}.

(** [Model.findByPk(id)]: an undefined identifier finds no row. *)
Definition findByPk {A} (pk : option Id) (table : gmap nat A) : option A :=
  match pk with
  | Some k => table !! k
  | None => None
  end.

Definition save_order (o : Order.t) (db : DB) : DB :=
  mkDB (<[Order.id o := o]> (orders db)) (quotes db) (chat_messages db)
       (pricing_factors db).

Definition save_quote (q : Quote.t) (db : DB) : DB :=
  mkDB (orders db) (<[Quote.id q := q]> (quotes db)) (chat_messages db)
       (pricing_factors db).

Definition log_message (m : ChatMessage.t) (db : DB) : DB :=
  mkDB (orders db) (quotes db) (chat_messages db ++ [m])
       (pricing_factors db).

Definition set_messages (ms : list ChatMessage.t) (db : DB) : DB :=
  mkDB (orders db) (quotes db) ms (pricing_factors db).

(** [ChatMessage.create(m)]: the store with the new row, or [None] when
    the store refuses it. *)
Definition create_message (m : ChatMessage.t) (db : DB) : option DB :=
  if ChatMessage.storable m then Some (log_message m db) else None.

(** ** Access to an order *)

(** The three grants of [canAccessOrder], on an order that was found. *)
Definition order_access (u : User.t) (order : Order.t) : Mw Order.t :=
  if bool_decide (User.role u = admin) then next order
  else if bool_decide (User.role u = dentist)
          && bool_decide (Order.dentistId order = User.id u)
  then next order
  else if bool_decide (User.role u = supplier)
          && bool_decide (Order.supplierId order = User.id u)
  then next order
  else respond 403 "Access denied to this order".

(** [canAccessOrder]: the order is looked up under the route parameter
    named [orderId]; on success it is attached to the request. *)
Definition canAccessOrder (params : gmap string nat) (u : User.t) (db : DB)
    : Mw Order.t :=
  let orderId := params !! "orderId" in
  match findByPk orderId (orders db) with
  | None => respond 404 "Order not found"
  | Some order => order_access u order
  end.

(** The ownership tests written inline in the quote and file routes. *)
Definition dentist_owner_check (msg : string) (u : User.t) (order : Order.t)
    : Mw unit :=
  if bool_decide (User.role u = dentist)
     && negb (bool_decide (Order.dentistId order = User.id u))
  then respond 403 msg else next tt.

Definition supplier_owner_check (msg : string) (u : User.t) (owner : Id)
    : Mw unit :=
  if bool_decide (User.role u = supplier)
     && negb (bool_decide (owner = User.id u))
  then respond 403 msg else next tt.

Definition owner_checks (msg : string) (u : User.t) (order : Order.t)
    : Mw unit :=
  do _ <- dentist_owner_check msg u order;
  supplier_owner_check msg u (Order.supplierId order).

Definition dentist_or_admin_only (msg : string) (u : User.t) : Mw unit :=
  if negb (bool_decide (User.role u = dentist))
     && negb (bool_decide (User.role u = admin))
  then respond 403 msg else next tt.

(** ** The orders router *)

Definition validTransitions (s : OrderStatus) : list OrderStatus :=
  match s with
  | quote_asked => [quote_sent; cancelled]
  | quote_sent => [quote_validated; cancelled]
  | quote_validated => [in_production; cancelled]
  | in_production => [in_shipping; cancelled]
  | in_shipping => [delivered; cancelled]
  | delivered => []
  | cancelled => []
  end.

Definition days (n : Z) : Z := (n * 24 * 60 * 60 * 1000)%Z.

(** [if (s) ...] on a string that may be missing. *)
Definition truthy (s : option string) : option string :=
  match s with
  | Some v => if bool_decide (v = "") then None else Some v
  | None => None
  end.

Record StatusBody := mkStatusBody {
  sb_status : OrderStatus;
  sb_notes : option string;
  sb_trackingNumber : option string;
  sb_shippingCompany : option string
}.

Definition status_updateData (b : StatusBody) (now : Z) : Order.patch :=
  {| Order.p_status := Some (sb_status b);
     Order.p_title := None;
     Order.p_description := None;
     Order.p_patientName := None;
     Order.p_patientAge := None;
     Order.p_patientGender := None;
     Order.p_toothNumbers := None;
     Order.p_prosthesisType := None;
     Order.p_material := None;
     Order.p_color := None;
     Order.p_urgency := None;
     Order.p_expectedDelivery :=
       if bool_decide (sb_status b = in_production)
       then Some (now + days 14)%Z else None;
     Order.p_actualDelivery :=
       if bool_decide (sb_status b = in_production) then None
       else if bool_decide (sb_status b = delivered) then Some now else None;
     Order.p_originalQuote := None;
     Order.p_adjustedQuote := None;
     Order.p_pricingFactor := None;
     Order.p_notes := truthy (sb_notes b);
     Order.p_trackingNumber := truthy (sb_trackingNumber b);
     Order.p_shippingCompany := truthy (sb_shippingCompany b) |}.

(** Body of the status route, run on the order [req.order] that the access
    middleware attached. *)
Definition update_status_handler (u : User.t) (order : Order.t)
    (b : StatusBody) (now : Z) (db : DB) : Response * DB :=
  if negb (bool_decide (sb_status b ∈ validTransitions (Order.status order)))
  then
    (mkResponse 400
       ("Invalid status transition from " +:+ status_label (Order.status order)
        +:+ " to " +:+ status_label (sb_status b)), db)
  else
    let db1 := save_order (Order.update (status_updateData b now) order) db in
    match
      create_message
        (ChatMessage.system (Order.id order) u
           ("Order status changed to: " +:+ status_label (sb_status b))
           "status_changed" now) db1
    with
    | Some db2 => (mkResponse 200 "Order status updated successfully", db2)
    | None => (mkResponse 500 "Failed to update order status", db1)
    end.

Record DetailsBody := mkDetailsBody {
  db_title : option string;
  db_description : option string;
  db_patientName : option string;
  db_patientAge : option Z;
  db_patientGender : option Gender;
  db_toothNumbers : option (list Z);
  db_prosthesisType : option ProsthesisType;
  db_material : option OrderMaterial;
  db_color : option string;
  db_urgency : option OrderUrgency;
  db_expectedDelivery : option Z;
  db_notes : option string
}.

(** The [allowedFields] that are present in the body. *)
Definition details_updateData (b : DetailsBody) : Order.patch :=
  {| Order.p_status := None;
     Order.p_title := db_title b;
     Order.p_description := db_description b;
     Order.p_patientName := db_patientName b;
     Order.p_patientAge := db_patientAge b;
     Order.p_patientGender := db_patientGender b;
     Order.p_toothNumbers := db_toothNumbers b;
     Order.p_prosthesisType := db_prosthesisType b;
     Order.p_material := db_material b;
     Order.p_color := db_color b;
     Order.p_urgency := db_urgency b;
     Order.p_expectedDelivery := db_expectedDelivery b;
     Order.p_actualDelivery := None;
     Order.p_originalQuote := None;
     Order.p_adjustedQuote := None;
     Order.p_pricingFactor := None;
     Order.p_notes := db_notes b;
     Order.p_trackingNumber := None;
     Order.p_shippingCompany := None |}.

(** Body of the details route, run on [req.order]. *)
Definition update_details_handler (order : Order.t) (b : DetailsBody)
    (db : DB) : Response * DB :=
  if bool_decide (Order.status order ∈ [in_production; in_shipping; delivered])
  then
    (mkResponse 400 "Cannot update order that is in production or beyond", db)
  else
    (mkResponse 200 "Order updated successfully",
     save_order (Order.update (details_updateData b) order) db).

(** Body of the read route: the order is read again under [req.params.id]
    and returned. *)
Definition get_order_handler (db : DB) : Response * DB :=
  (mkResponse 200 "", db).

(** The three routes bind the identifier of the path to the parameter
    [id]. *)
Definition id_params (order_id : Id) : gmap string nat :=
  {[ "id" := order_id ]}.

Definition orderId_params (order_id : Id) : gmap string nat :=
  {[ "orderId" := order_id ]}.

(** [GET /:id] *)
Definition route_get_order (c : Credential) (order_id : Id) (db : DB)
    : Response * DB :=
  match (do u <- authenticateToken c;
         canAccessOrder (id_params order_id) u db) with
  | inl r => (r, db)
  | inr _ => get_order_handler db
  end.

(** [PUT /:id/status] *)
Definition route_update_order_status (c : Credential) (order_id : Id)
    (b : StatusBody) (now : Z) (db : DB) : Response * DB :=
  match (do u <- authenticateToken c;
         do u <- requireSupplierOrAdmin u;
         do order <- canAccessOrder (id_params order_id) u db;
         next (u, order)) with
  | inl r => (r, db)
  | inr (u, order) => update_status_handler u order b now db
  end.

(** [PUT /:id] *)
Definition route_update_order_details (c : Credential) (order_id : Id)
    (b : DetailsBody) (db : DB) : Response * DB :=
  match (do u <- authenticateToken c;
         do u <- requireDentistOrAdmin u;
         canAccessOrder (id_params order_id) u db) with
  | inl r => (r, db)
  | inr order => update_details_handler order b db
  end.

(** ** The quotes router *)

Record CreateQuoteBody := mkCreateQuoteBody {
  cq_orderId : Id;
  cq_basePrice : Q;
  cq_materialCost : option Q;
  cq_laborCost : option Q;
  cq_shippingCost : option Q;
  cq_taxAmount : option Q;
  cq_productionTime : option Z;
  cq_shippingTime : option Z;
  cq_notes : option string;
  cq_specifications : option string
}.

Definition status_only (s : OrderStatus) : Order.patch :=
  {| Order.p_status := Some s;
     Order.p_title := None;
     Order.p_description := None;
     Order.p_patientName := None;
     Order.p_patientAge := None;
     Order.p_patientGender := None;
     Order.p_toothNumbers := None;
     Order.p_prosthesisType := None;
     Order.p_material := None;
     Order.p_color := None;
     Order.p_urgency := None;
     Order.p_expectedDelivery := None;
     Order.p_actualDelivery := None;
     Order.p_originalQuote := None;
     Order.p_adjustedQuote := None;
     Order.p_pricingFactor := None;
     Order.p_notes := None;
     Order.p_trackingNumber := None;
     Order.p_shippingCompany := None |}.

Definition quoteData (order : Order.t) (b : CreateQuoteBody)
    (pricingFactor : option PricingFactor.t) (now : Z) : Quote.data :=
  {| Quote.d_orderId := cq_orderId b;
     Quote.d_supplierId := Order.supplierId order;
     Quote.d_basePrice := cq_basePrice b;
     Quote.d_materialCost := default 0%Q (cq_materialCost b);
     Quote.d_laborCost := default 0%Q (cq_laborCost b);
     Quote.d_shippingCost := default 0%Q (cq_shippingCost b);
     Quote.d_taxAmount := default 0%Q (cq_taxAmount b);
     Quote.d_productionTime := cq_productionTime b;
     Quote.d_shippingTime := cq_shippingTime b;
     Quote.d_notes := cq_notes b;
     Quote.d_specifications := default "{}" (cq_specifications b);
     Quote.d_pricingFactor :=
       match pricingFactor with
       | Some f => PricingFactor.factor f
       | None => 1%Q
       end;
     Quote.d_validUntil := (now + days 30)%Z |}.

(** [POST /] of the quotes router; [new_id] is the key the store gives the
    new row. *)
Definition route_create_quote (c : Credential) (b : CreateQuoteBody)
    (new_id : Id) (now : Z) (db : DB) : Response * DB :=
  match (do u <- authenticateToken c; requireSupplierOrAdmin u) with
  | inl r => (r, db)
  | inr u =>
      match findByPk (Some (cq_orderId b)) (orders db) with
      | None => (mkResponse 404 "Order not found", db)
      | Some order =>
          match supplier_owner_check "Access denied to this order" u
                  (Order.supplierId order) with
          | inl r => (r, db)
          | inr _ =>
              if negb (bool_decide (Order.status order = quote_asked))
              then
                (mkResponse 400 "Cannot create quote for order in this status",
                 db)
              else
                match
                  PricingFactor.getApplicableFactor
                    {| PricingFactor.od_supplierId := Order.supplierId order;
                       PricingFactor.od_category := Order.prosthesisType order;
                       PricingFactor.od_material := Order.material order;
                       PricingFactor.od_urgency := Order.urgency order;
                       PricingFactor.od_orderValue := cq_basePrice b |}
                    now (pricing_factors db)
                with
                | Thrown => (mkResponse 500 "Failed to create quote", db)
                | Returned pricingFactor =>
                    match
                      Quote.create new_id
                        (quoteData order b pricingFactor now)
                    with
                    | None => (mkResponse 500 "Failed to create quote", db)
                    | Some quote =>
                        let db1 := save_quote quote db in
                        let db2 :=
                          save_order
                            (Order.update (status_only quote_sent) order)
                            db1 in
                        match
                          create_message
                            (ChatMessage.system (Order.id order) u
                               ("Quote sent for " +:+ Order.title order)
                               "quote_sent" now) db2
                        with
                        | Some db3 =>
                            (mkResponse 201 "Quote created successfully",
                             db3)
                        | None =>
                            (mkResponse 500 "Failed to create quote", db2)
                        end
                    end
                end
          end
      end
  end.

Record UpdateQuoteBody := mkUpdateQuoteBody {
  uq_basePrice : option Q;
  uq_materialCost : option Q;
  uq_laborCost : option Q;
  uq_shippingCost : option Q;
  uq_taxAmount : option Q;
  uq_productionTime : option Z;
  uq_shippingTime : option Z;
  uq_notes : option string;
  uq_specifications : option string
}.

(** The [allowedFields] present in the body, the revision bump and the
    forced status. *)
Definition quote_updateData (quote : Quote.t) (b : UpdateQuoteBody)
    : Quote.patch :=
  {| Quote.p_status := Some Quote.modified;
     Quote.p_basePrice := uq_basePrice b;
     Quote.p_materialCost := uq_materialCost b;
     Quote.p_laborCost := uq_laborCost b;
     Quote.p_shippingCost := uq_shippingCost b;
     Quote.p_taxAmount := uq_taxAmount b;
     Quote.p_productionTime := uq_productionTime b;
     Quote.p_shippingTime := uq_shippingTime b;
     Quote.p_notes := uq_notes b;
     Quote.p_specifications := uq_specifications b;
     Quote.p_revisionNumber := Some (Quote.revisionNumber quote + 1)%Z;
     Quote.p_acceptedAt := None;
     Quote.p_acceptedBy := None;
     Quote.p_rejectionReason := None |}.

(** [PUT /:id] of the quotes router. *)
Definition route_update_quote (c : Credential) (quote_id : Id)
    (b : UpdateQuoteBody) (now : Z) (db : DB) : Response * DB :=
  match (do u <- authenticateToken c; requireSupplierOrAdmin u) with
  | inl r => (r, db)
  | inr u =>
      match findByPk (Some quote_id) (quotes db) with
      | None => (mkResponse 404 "Quote not found", db)
      | Some quote =>
          match supplier_owner_check "Access denied to this quote" u
                  (Quote.supplierId quote) with
          | inl r => (r, db)
          | inr _ =>
              if bool_decide (Quote.status quote = Quote.accepted)
              then (mkResponse 400 "Cannot update accepted quote", db)
              else
                let updateData := quote_updateData quote b in
                match Quote.update updateData quote with
                | None => (mkResponse 500 "Failed to update quote", db)
                | Some quote' =>
                    let db1 := save_quote quote' db in
                    match
                      create_message
                        (ChatMessage.system (Quote.orderId quote) u
                           ("Quote updated (Revision "
                            +:+ pretty (Quote.revisionNumber quote + 1)%Z
                            +:+ ")")
                           "quote_update" now) db1
                    with
                    | Some db2 =>
                        (mkResponse 200 "Quote updated successfully", db2)
                    | None => (mkResponse 500 "Failed to update quote", db1)
                    end
                end
          end
      end
  end.

Definition accept_patch (u : User.t) (now : Z) : Quote.patch :=
  {| Quote.p_status := Some Quote.accepted;
     Quote.p_basePrice := None;
     Quote.p_materialCost := None;
     Quote.p_laborCost := None;
     Quote.p_shippingCost := None;
     Quote.p_taxAmount := None;
     Quote.p_productionTime := None;
     Quote.p_shippingTime := None;
     Quote.p_notes := None;
     Quote.p_specifications := None;
     Quote.p_revisionNumber := None;
     Quote.p_acceptedAt := Some now;
     Quote.p_acceptedBy := Some (User.id u);
     Quote.p_rejectionReason := None |}.

Definition reject_patch (reason : option string) : Quote.patch :=
  {| Quote.p_status := Some Quote.rejected;
     Quote.p_basePrice := None;
     Quote.p_materialCost := None;
     Quote.p_laborCost := None;
     Quote.p_shippingCost := None;
     Quote.p_taxAmount := None;
     Quote.p_productionTime := None;
     Quote.p_shippingTime := None;
     Quote.p_notes := None;
     Quote.p_specifications := None;
     Quote.p_revisionNumber := None;
     Quote.p_acceptedAt := None;
     Quote.p_acceptedBy := None;
     Quote.p_rejectionReason := reason |}.

(** What acceptance copies onto the parent order. *)
Definition validated_by (quote : Quote.t) : Order.patch :=
  {| Order.p_status := Some quote_validated;
     Order.p_title := None;
     Order.p_description := None;
     Order.p_patientName := None;
     Order.p_patientAge := None;
     Order.p_patientGender := None;
     Order.p_toothNumbers := None;
     Order.p_prosthesisType := None;
     Order.p_material := None;
     Order.p_color := None;
     Order.p_urgency := None;
     Order.p_expectedDelivery := None;
     Order.p_actualDelivery := None;
     Order.p_originalQuote := Quote.totalPrice quote;
     Order.p_adjustedQuote := Quote.adjustedPrice quote;
     Order.p_pricingFactor := Quote.pricingFactor quote;
     Order.p_notes := None;
     Order.p_trackingNumber := None;
     Order.p_shippingCompany := None |}.

(** The gate both decisions of the dentist share:
    [status !== 'sent' && status !== 'modified']. *)
Definition not_sent_nor_modified (s : Quote.status_t) : bool :=
  negb (bool_decide (s = Quote.sent))
  && negb (bool_decide (s = Quote.modified)).

(** [POST /:id/accept]. The foreign key on [orderId] makes [quote.order]
    present; a quote without its order ends in the catch block. *)
Definition route_accept_quote (c : Credential) (quote_id : Id) (now : Z)
    (db : DB) : Response * DB :=
  match (do u <- authenticateToken c;
         do _ <- dentist_or_admin_only "Only dentists can accept quotes" u;
         next u) with
  | inl r => (r, db)
  | inr u =>
      match findByPk (Some quote_id) (quotes db) with
      | None => (mkResponse 404 "Quote not found", db)
      | Some quote =>
          match orders db !! Quote.orderId quote with
          | None => (mkResponse 500 "Failed to accept quote", db)
          | Some order =>
              match dentist_owner_check "Access denied to this quote" u
                      order with
              | inl r => (r, db)
              | inr _ =>
                  if not_sent_nor_modified (Quote.status quote)
                  then
                    (mkResponse 400
                       "Only sent or modified quotes can be accepted", db)
                  else
                    match Quote.update (accept_patch u now) quote with
                    | None => (mkResponse 500 "Failed to accept quote", db)
                    | Some quote' =>
                        let db1 := save_quote quote' db in
                        let db2 :=
                          save_order
                            (Order.update (validated_by quote') order) db1 in
                        match
                          create_message
                            (ChatMessage.system (Quote.orderId quote) u
                               ("Quote accepted for " +:+ Order.title order)
                               "quote_accepted" now) db2
                        with
                        | Some db3 =>
                            (mkResponse 200 "Quote accepted successfully",
                             db3)
                        | None =>
                            (mkResponse 500 "Failed to accept quote", db2)
                        end
                    end
              end
          end
      end
  end.

(** [POST /:id/reject] *)
Definition route_reject_quote (c : Credential) (quote_id : Id)
    (rejectionReason : option string) (now : Z) (db : DB) : Response * DB :=
  match (do u <- authenticateToken c;
         do _ <- dentist_or_admin_only "Only dentists can reject quotes" u;
         next u) with
  | inl r => (r, db)
  | inr u =>
      match findByPk (Some quote_id) (quotes db) with
      | None => (mkResponse 404 "Quote not found", db)
      | Some quote =>
          match orders db !! Quote.orderId quote with
          | None => (mkResponse 500 "Failed to reject quote", db)
          | Some order =>
              match dentist_owner_check "Access denied to this quote" u
                      order with
              | inl r => (r, db)
              | inr _ =>
                  if not_sent_nor_modified (Quote.status quote)
                  then
                    (mkResponse 400
                       "Only sent or modified quotes can be rejected", db)
                  else
                    match
                      Quote.update (reject_patch rejectionReason) quote
                    with
                    | None => (mkResponse 500 "Failed to reject quote", db)
                    | Some quote' =>
                        let db1 := save_quote quote' db in
                        let db2 :=
                          save_order
                            (Order.update (status_only quote_asked) order)
                            db1 in
                        match
                          create_message
                            (ChatMessage.system (Quote.orderId quote) u
                               ("Quote rejected for " +:+ Order.title order)
                               "quote_rejected" now) db2
                        with
                        | Some db3 =>
                            (mkResponse 200 "Quote rejected successfully",
                             db3)
                        | None =>
                            (mkResponse 500 "Failed to reject quote", db2)
                        end
                    end
              end
          end
      end
  end.

(** ** The chat router *)

(** [PUT /order/:orderId/read] *)
Definition route_mark_read (c : Credential) (order_id : Id) (now : Z)
    (db : DB) : Response * DB :=
  match (do u <- authenticateToken c;
         do _ <- canAccessOrder (orderId_params order_id) u db;
         next u) with
  | inl r => (r, db)
  | inr u =>
      (mkResponse 200 "Messages marked as read",
       set_messages
         (ChatMessage.markRead order_id (User.id u) now (chat_messages db))
         db)
  end.

(** ** The access gate of every operation on an order

    One entry per endpoint that reads or writes an order or one of its
    quotes, files or messages: the role and ownership tests a request of an
    authenticated user meets before the endpoint does its work. *)

Inductive Operation :=
| OrderGet | OrderUpdateStatus | OrderUpdateDetails | AdminOrderGet
| QuoteCreate | QuoteListForOrder | QuoteGet | QuoteUpdate | QuoteAccept
| QuoteReject
| FileUpload | FileListForOrder | FileDownload | FileInfo | FileDelete
| FileAccessToken | FileTokenDownload
| ChatList | ChatPost | ChatMarkRead | ChatDelete | ChatTranslate.

(** What an operation is aimed at: the order, the supplier recorded on the
    quote (quote operations) and the author of the message (message
    operations). *)
Record Target := mkTarget {
  tg_order : Order.t;
  tg_quoteSupplierId : Id;
  tg_messageAuthor : Id
}.

(** A store in which the targeted order exists. *)
Definition store_of (tg : Target) : DB :=
  mkDB {[ Order.id (tg_order tg) := tg_order tg ]} ∅ [] [].

Definition pass {A} (m : Mw A) : Mw unit := do _ <- m; next tt.

Definition access (op : Operation) (u : User.t) (tg : Target) : Mw unit :=
  let order := tg_order tg in
  let by_orderId :=
    pass (canAccessOrder (orderId_params (Order.id order)) u (store_of tg)) in
  let by_id :=
    pass (canAccessOrder (id_params (Order.id order)) u (store_of tg)) in
  match op with
  | OrderGet => by_id
  | OrderUpdateStatus => do _ <- requireSupplierOrAdmin u; by_id
  | OrderUpdateDetails => do _ <- requireDentistOrAdmin u; by_id
  | AdminOrderGet => pass (requireAdmin u)
  | QuoteCreate =>
      do _ <- requireSupplierOrAdmin u;
      supplier_owner_check "Access denied to this order" u
        (Order.supplierId order)
  | QuoteListForOrder => by_orderId
  | QuoteGet => owner_checks "Access denied to this quote" u order
  | QuoteUpdate =>
      do _ <- requireSupplierOrAdmin u;
      supplier_owner_check "Access denied to this quote" u
        (tg_quoteSupplierId tg)
  | QuoteAccept =>
      do _ <- dentist_or_admin_only "Only dentists can accept quotes" u;
      dentist_owner_check "Access denied to this quote" u order
  | QuoteReject =>
      do _ <- dentist_or_admin_only "Only dentists can reject quotes" u;
      dentist_owner_check "Access denied to this quote" u order
  | FileUpload | FileListForOrder => by_orderId
  | FileDownload | FileInfo | FileDelete | FileAccessToken =>
      owner_checks "Access denied to this file" u order
  | FileTokenDownload => next tt
  | ChatList | ChatPost | ChatMarkRead => by_orderId
  | ChatDelete =>
      if negb (bool_decide (tg_messageAuthor tg = User.id u))
      then respond 403 "Can only delete your own messages" else next tt
  | ChatTranslate => next tt
  end.

(** The operations whose gate is [canAccessOrder] on an [:orderId] route or
    an inline ownership test of the route. *)
Definition order_gated (op : Operation) : bool :=
  match op with
  | QuoteCreate | QuoteListForOrder | QuoteGet | QuoteUpdate | QuoteAccept
  | QuoteReject | FileUpload | FileListForOrder | FileDownload | FileInfo
  | FileDelete | FileAccessToken | ChatList | ChatPost | ChatMarkRead => true
  | _ => false
  end.

(** Among them, those open to the three parties of the order alike. *)
Definition three_party (op : Operation) : bool :=
  match op with
  | QuoteListForOrder | QuoteGet | FileUpload | FileListForOrder
  | FileDownload | FileInfo | FileDelete | FileAccessToken | ChatList
  | ChatPost | ChatMarkRead => true
  | _ => false
  end.

Definition forbidden {A} (m : Mw A) : Prop :=
  exists msg, m = inl (mkResponse 403 msg).

(** The parties of an order. *)
Definition party (u : User.t) (o : Order.t) : Prop :=
  User.role u = admin
  \/ (User.role u = dentist /\ Order.dentistId o = User.id u)
  \/ (User.role u = supplier /\ Order.supplierId o = User.id u).

(** ** Runs of the system *)

Inductive Action :=
| UpdateOrderStatus (c : Credential) (order_id : Id) (b : StatusBody)
| UpdateOrderDetails (c : Credential) (order_id : Id) (b : DetailsBody)
| CreateQuote (c : Credential) (b : CreateQuoteBody) (new_id : Id)
| UpdateQuote (c : Credential) (quote_id : Id) (b : UpdateQuoteBody)
| AcceptQuote (c : Credential) (quote_id : Id)
| RejectQuote (c : Credential) (quote_id : Id) (reason : option string)
| MarkRead (c : Credential) (order_id : Id).

Definition perform (a : Action) (now : Z) (db : DB) : Response * DB :=
  match a with
  | UpdateOrderStatus c i b => route_update_order_status c i b now db
  | UpdateOrderDetails c i b => route_update_order_details c i b db
  | CreateQuote c b new_id => route_create_quote c b new_id now db
  | UpdateQuote c i b => route_update_quote c i b now db
  | AcceptQuote c i => route_accept_quote c i now db
  | RejectQuote c i reason => route_reject_quote c i reason now db
  | MarkRead c i => route_mark_read c i now db
  end.

(** The workflow graph, in the words of the specification. *)
Definition workflow_next (s : OrderStatus) : option OrderStatus :=
  match s with
  | quote_asked => Some quote_sent
  | quote_sent => Some quote_validated
  | quote_validated => Some in_production
  | in_production => Some in_shipping
  | in_shipping => Some delivered
  | delivered => None
  | cancelled => None
  end.

Definition terminal (s : OrderStatus) : Prop := s = delivered \/ s = cancelled.

Definition graph_edge (a b : OrderStatus) : Prop :=
  workflow_next a = Some b \/ (~ terminal a /\ b = cancelled).

(** The derived fields of a quote, in the words of the specification:
    missing optional components count as 0. *)
Definition plain_sum (q : Quote.t) : Q :=
  Quote.basePrice q + default 0%Q (Quote.materialCost q)
  + default 0%Q (Quote.laborCost q) + default 0%Q (Quote.shippingCost q)
  + default 0%Q (Quote.taxAmount q).

Definition derived_fields_ok (q : Quote.t) : Prop :=
  exists t a f,
    Quote.totalPrice q = Some t /\ Quote.adjustedPrice q = Some a
    /\ Quote.pricingFactor q = Some f
    /\ (t == plain_sum q)%Q /\ (a == t * f)%Q /\ (1 <= f)%Q.

Definition factors_valid (db : DB) : Prop :=
  Forall PricingFactor.factor_valid (pricing_factors db).

(** The names of the columns of a quote: the keys an instance can flag. *)
Definition quote_columns : list string :=
  ["orderId"; "supplierId"; "status"; "basePrice"; "materialCost";
   "laborCost"; "shippingCost"; "taxAmount"; "totalPrice"; "adjustedPrice";
   "pricingFactor"; "validUntil"; "productionTime"; "shippingTime"; "notes";
   "specifications"; "revisionNumber"; "parentQuoteId"; "acceptedAt";
   "acceptedBy"; "rejectionReason"].

Definition flags_are_columns (i : Quote.instance) : Prop :=
  forall k, k ∈ Quote.changed_keys i -> k ∈ quote_columns.

(** Who may accept or reject a quote of an order: an active administrator
    or the active dentist of the order. *)
Definition may_decide (u : User.t) (o : Order.t) : Prop :=
  User.isActive u = true
  /\ (User.role u = admin
      \/ (User.role u = dentist /\ Order.dentistId o = User.id u)).

(** ** The seeded accounts and a first order

    The accounts and the default factor of the initialisation script, and an
    order as the dentist of the script places it. *)

Definition adminUser : User.t := User.mk 1 admin true (Some fr).
Definition dentistUser : User.t := User.mk 2 dentist true (Some fr).
Definition supplierUser : User.t := User.mk 3 supplier true (Some fr).

(** A second laboratory, assigned to no order. *)
Definition otherSupplier : User.t := User.mk 4 supplier true (Some en).

Definition defaultPricingFactor : PricingFactor.t :=
  {| PricingFactor.id := 1;
     PricingFactor.supplierId := None;
     PricingFactor.isDefault := true;
     PricingFactor.factor := 1.5%Q;
     PricingFactor.name := "Default Pricing Factor";
     PricingFactor.description := Some "Default pricing factor for all orders";
     PricingFactor.validFrom := 0;
     PricingFactor.validUntil := None;
     PricingFactor.category := PricingFactor.general_category;
     PricingFactor.material := PricingFactor.general_material;
     PricingFactor.urgency := PricingFactor.general_urgency;
     PricingFactor.minOrderValue := None;
     PricingFactor.maxOrderValue := None;
     PricingFactor.isActive := true;
     PricingFactor.createdBy := 1;
     PricingFactor.createdAt := 0 |}.

Definition order_in (s : OrderStatus) : Order.t :=
  {| Order.id := 10;
     Order.orderNumber := "ORD-000001";
     Order.dentistId := 2;
     Order.supplierId := 3;
     Order.status := s;
     Order.title := "Ceramic crown, central incisor";
     Order.description := None;
     Order.patientName := Some "Marie Dupont";
     Order.patientAge := Some 45%Z;
     Order.patientGender := Some female;
     Order.toothNumbers := [11%Z];
     Order.prosthesisType := pt_crown;
     Order.material := om_ceramic;
     Order.color := Some "A2";
     Order.urgency := ou_medium;
     Order.expectedDelivery := None;
     Order.actualDelivery := None;
     Order.originalQuote := None;
     Order.adjustedQuote := None;
     Order.pricingFactor := Some 1%Q;
     Order.notes := None;
     Order.trackingNumber := None;
     Order.shippingCompany := None |}.

Definition sampleOrder : Order.t := order_in quote_asked.

Definition store_with (o : Order.t) : DB :=
  mkDB {[ Order.id o := o ]} ∅ [] [defaultPricingFactor].

Definition scenario_db : DB := store_with sampleOrder.

(** The quote of the first scenario: a base price of 100, nothing else. *)
Definition scenario_body : CreateQuoteBody :=
  mkCreateQuoteBody 10 100%Q None None None None None None None None.

Definition no_quote_change : UpdateQuoteBody :=
  mkUpdateQuoteBody None None None None None None None None None.

Definition title_edit (t : string) : DetailsBody :=
  mkDetailsBody (Some t) None None None None None None None None None None
                None.

Definition to_status (s : OrderStatus) : StatusBody :=
  mkStatusBody s None None None.

(** The quote of the scenario as a row of the table, with key 20: a base
    price of 100 and no other cost, the factor 1.5 of the default rule, the
    total 100 and the adjusted price 150. *)
Definition quote_row (s : Quote.status_t) : Quote.t :=
  {| Quote.id := 20;
     Quote.orderId := 10;
     Quote.supplierId := 3;
     Quote.status := s;
     Quote.basePrice := 100;
     Quote.materialCost := Some 0%Q;
     Quote.laborCost := Some 0%Q;
     Quote.shippingCost := Some 0%Q;
     Quote.taxAmount := Some 0%Q;
     Quote.totalPrice := Some 100%Q;
     Quote.adjustedPrice := Some 150%Q;
     Quote.pricingFactor := Some 1.5%Q;
     Quote.validUntil := Some 2592001000%Z;
     Quote.productionTime := None;
     Quote.shippingTime := None;
     Quote.notes := None;
     Quote.specifications := "{}";
     Quote.revisionNumber := 1;
     Quote.parentQuoteId := None;
     Quote.acceptedAt := None;
     Quote.acceptedBy := None;
     Quote.rejectionReason := None |}.

Definition store_with_quote (o : Order.t) (q : Quote.t) : DB :=
  mkDB {[ Order.id o := o ]} {[ Quote.id q := q ]} [] [defaultPricingFactor].

(** A store in which the quote of the scenario is a row of the table in the
    state [draft], the default of the model, and its order is in
    [quote_sent]. *)
Definition quoted_db : DB :=
  store_with_quote (order_in quote_sent) (quote_row Quote.draft).

(** The same store with the quote in the state [sent]. *)
Definition sent_db : DB :=
  store_with_quote (order_in quote_sent) (quote_row Quote.sent).

(** The store after the request of the supplier to revise the draft
    without changing anything, at time 2000. *)
Definition revised_db : DB :=
  snd (route_update_quote (TokenOf (Some supplierUser)) 20 no_quote_change
         2000 quoted_db).

(** A revision that gives a new base price and nothing else. *)
Definition base_price_change (v : Q) : UpdateQuoteBody :=
  mkUpdateQuoteBody (Some v) None None None None None None None None.

(** Two rules of the laboratory of the scenario: one for crowns, one for
    everything, the second created after the first. *)
Definition crownRule (created : Z) : PricingFactor.t :=
  {| PricingFactor.id := 2;
     PricingFactor.supplierId := Some 3;
     PricingFactor.isDefault := false;
     PricingFactor.factor := 1.6%Q;
     PricingFactor.name := "Crown Pricing Factor";
     PricingFactor.description := Some "Pricing factor for crown prostheses";
     PricingFactor.validFrom := 0;
     PricingFactor.validUntil := None;
     PricingFactor.category := PricingFactor.crown;
     PricingFactor.material := PricingFactor.general_material;
     PricingFactor.urgency := PricingFactor.general_urgency;
     PricingFactor.minOrderValue := None;
     PricingFactor.maxOrderValue := None;
     PricingFactor.isActive := true;
     PricingFactor.createdBy := 1;
     PricingFactor.createdAt := created |}.

Definition generalRule (created : Z) : PricingFactor.t :=
  {| PricingFactor.id := 3;
     PricingFactor.supplierId := Some 3;
     PricingFactor.isDefault := false;
     PricingFactor.factor := 1.2%Q;
     PricingFactor.name := "Laboratory Pricing Factor";
     PricingFactor.description := None;
     PricingFactor.validFrom := 0;
     PricingFactor.validUntil := None;
     PricingFactor.category := PricingFactor.general_category;
     PricingFactor.material := PricingFactor.general_material;
     PricingFactor.urgency := PricingFactor.general_urgency;
     PricingFactor.minOrderValue := None;
     PricingFactor.maxOrderValue := None;
     PricingFactor.isActive := true;
     PricingFactor.createdBy := 1;
     PricingFactor.createdAt := created |}.

(** The order of the scenario, its quote and a message of its dentist. *)
Definition sampleTarget : Target := mkTarget sampleOrder 3 2.

Definition crownOrderData : PricingFactor.orderData :=
  PricingFactor.mkOrderData 3 pt_crown om_ceramic ou_medium 100%Q.

(** ** A tactic for the guards of the middlewares *)

Ltac split_guard :=
  match goal with
  | |- context [bool_decide ?P] => destruct (bool_decide_reflect P)
  | |- context [User.isActive ?u] => destruct (User.isActive u) eqn:?
  end.


(** * Further routes and models

    The rest of the routers and models that can be stated over the same
    store: accounts, the administration of pricing factors, files, the
    count of unread messages, the creation of an order and the deletion of a
    message.

    Further conventions.
    - The tables of users, of files and of messages with their keys are kept
      beside the store and passed to the routes that read them.
    - A [beforeCreate] hook fills its column of a new row that has none; it
      runs once the row has passed the validation of its model.
    - Where a route is modelled with a check of the table (the range of a
      factor, the foreign key of the dentist of an order, the unique order
      number), a row that the table refuses ends in the [catch] block of the
      route.
    - The clock is read once per request. *)

(** ** Accounts *)

(** The [Authorization] header of a request, as [jwt.verify] sees it: no
    token, a token it throws [JsonWebTokenError] or [TokenExpiredError] on,
    or a token signed for a user id. *)
Inductive Bearer :=
| NoHeader
| Malformed
| Expired
| SignedFor (userId : Id).

(** The first lines of [authenticateToken]: the user row of the token is
    read from the table of users. *)
Definition credential (b : Bearer) (users : gmap nat User.t) : Credential :=
  match b with
  | NoHeader => NoToken
  | Malformed => InvalidToken
  | Expired => ExpiredToken
  | SignedFor i => TokenOf (findByPk (Some i) users)
  end.

(** [user.update({ isActive: false })] *)
Definition deactivate (u : User.t) : User.t :=
  User.mk (User.id u) (User.role u) false (User.preferredLanguage u).

(** [DELETE /:id] of the users router: a soft delete. *)
Definition route_delete_user (b : Bearer) (user_id : Id)
    (users : gmap nat User.t) : Response * gmap nat User.t :=
  match (do u <- authenticateToken (credential b users); requireAdmin u) with
  | inl r => (r, users)
  | inr _ =>
      match findByPk (Some user_id) users with
      | None => (mkResponse 404 "User not found", users)
      | Some user =>
          (mkResponse 200 "User deactivated successfully",
           <[User.id user := deactivate user]> users)
      end
  end.

(** A table whose rows sit under their own primary key. *)
Definition users_keyed (users : gmap nat User.t) : Prop :=
  forall k u, users !! k = Some u -> User.id u = k.

(** The credential an action is sent with. *)
Definition credential_of (a : Action) : Credential :=
  match a with
  | UpdateOrderStatus c _ _ => c
  | UpdateOrderDetails c _ _ => c
  | CreateQuote c _ _ => c
  | UpdateQuote c _ _ => c
  | AcceptQuote c _ => c
  | RejectQuote c _ _ => c
  | MarkRead c _ => c
  end.

(** ** Administration of the pricing factors

    The routes of the admin router sit behind
    [router.use(authenticateToken, requireAdmin)]. *)

(** The body of the create route: the keys of the validation chain, and the
    columns [isActive], [validFrom] and [validUntil] that the spread of the
    body carries into the row when they are present. [pf_minOrderValue] and
    [pf_maxOrderValue] hold the parsed value of a key that is present and
    truthy. *)
Record PricingFactorBody := mkPricingFactorBody {
  pf_name : string;
  pf_factor : Q;
  pf_description : option string;
  pf_category : option PricingFactor.category_t;
  pf_material : option PricingFactor.material_t;
  pf_urgency : option PricingFactor.urgency_t;
  pf_supplierId : option Id;
  pf_isDefault : option bool;
  pf_minOrderValue : option Q;
  pf_maxOrderValue : option Q;
  pf_isActive : option bool;
  pf_validFrom : option Z;
  pf_validUntil : option Z
}.

(** [validate: { min: 1.0, max: 10.0 }], as a test. *)
Definition factor_in_range (f : Q) : bool := Qle_bool 1 f && Qle_bool f 10.

(** [PricingFactor.build(pricingFactorData)]: the column defaults, overlaid
    by the data. *)
Definition pricingFactorData (u : User.t) (b : PricingFactorBody)
    (new_id : Id) (now : Z) : PricingFactor.t :=
  {| PricingFactor.id := new_id;
     PricingFactor.supplierId := pf_supplierId b;
     PricingFactor.isDefault := default false (pf_isDefault b);
     PricingFactor.factor := pf_factor b;
     PricingFactor.name := pf_name b;
     PricingFactor.description := pf_description b;
     PricingFactor.validFrom := default now (pf_validFrom b);
     PricingFactor.validUntil := pf_validUntil b;
     PricingFactor.category :=
       default PricingFactor.general_category (pf_category b);
     PricingFactor.material :=
       default PricingFactor.general_material (pf_material b);
     PricingFactor.urgency :=
       default PricingFactor.general_urgency (pf_urgency b);
     PricingFactor.minOrderValue := pf_minOrderValue b;
     PricingFactor.maxOrderValue := pf_maxOrderValue b;
     PricingFactor.isActive := default true (pf_isActive b);
     PricingFactor.createdBy := User.id u;
     PricingFactor.createdAt := now |}.

Definition set_factors (rows : list PricingFactor.t) (db : DB) : DB :=
  mkDB (orders db) (quotes db) (chat_messages db) rows.

(** [POST /pricing-factors]: [isDecimal] of the chain checks the format of
    the factor only; a factor outside the range of the model fails the
    validation of the model and ends in the catch block. *)
Definition route_create_pricing_factor (c : Credential)
    (b : PricingFactorBody) (new_id : Id) (now : Z) (db : DB)
    : Response * DB :=
  match (do u <- authenticateToken c; requireAdmin u) with
  | inl r => (r, db)
  | inr u =>
      let row := pricingFactorData u b new_id now in
      if factor_in_range (PricingFactor.factor row)
      then
        (mkResponse 201 "Pricing factor created successfully",
         set_factors (pricing_factors db ++ [row]) db)
      else (mkResponse 500 "Failed to create pricing factor", db)
  end.

(** [PricingFactor.findByPk(id)] on the table of rules. *)
Definition find_factor (factor_id : Id) (rows : list PricingFactor.t)
    : option PricingFactor.t :=
  find (fun r => bool_decide (PricingFactor.id r = factor_id)) rows.

Record PricingFactorUpdate := mkPricingFactorUpdate {
  pu_name : option string;
  pu_factor : option Q;
  pu_description : option string;
  pu_isActive : option bool
}.

(** [pricingFactor.update(updateData)] with the four [allowedFields]. *)
Definition update_factor (p : PricingFactorUpdate) (r : PricingFactor.t)
    : PricingFactor.t :=
  {| PricingFactor.id := PricingFactor.id r;
     PricingFactor.supplierId := PricingFactor.supplierId r;
     PricingFactor.isDefault := PricingFactor.isDefault r;
     PricingFactor.factor := put (pu_factor p) (PricingFactor.factor r);
     PricingFactor.name := put (pu_name p) (PricingFactor.name r);
     PricingFactor.description :=
       put_opt (pu_description p) (PricingFactor.description r);
     PricingFactor.validFrom := PricingFactor.validFrom r;
     PricingFactor.validUntil := PricingFactor.validUntil r;
     PricingFactor.category := PricingFactor.category r;
     PricingFactor.material := PricingFactor.material r;
     PricingFactor.urgency := PricingFactor.urgency r;
     PricingFactor.minOrderValue := PricingFactor.minOrderValue r;
     PricingFactor.maxOrderValue := PricingFactor.maxOrderValue r;
     PricingFactor.isActive := put (pu_isActive p) (PricingFactor.isActive r);
     PricingFactor.createdBy := PricingFactor.createdBy r;
     PricingFactor.createdAt := PricingFactor.createdAt r |}.

(** The row is written back under its primary key. *)
Definition write_factor (r' : PricingFactor.t) (rows : list PricingFactor.t)
    : list PricingFactor.t :=
  (fun r => if bool_decide (PricingFactor.id r = PricingFactor.id r')
            then r' else r) <$> rows.

(** [PUT /pricing-factors/:id]: a new factor is validated by the model. *)
Definition route_update_pricing_factor (c : Credential) (factor_id : Id)
    (p : PricingFactorUpdate) (db : DB) : Response * DB :=
  match (do u <- authenticateToken c; requireAdmin u) with
  | inl r => (r, db)
  | inr _ =>
      match find_factor factor_id (pricing_factors db) with
      | None => (mkResponse 404 "Pricing factor not found", db)
      | Some pricingFactor =>
          if match pu_factor p with
             | Some f => factor_in_range f
             | None => true
             end
          then
            (mkResponse 200 "Pricing factor updated successfully",
             set_factors
               (write_factor (update_factor p pricingFactor)
                  (pricing_factors db)) db)
          else (mkResponse 500 "Failed to update pricing factor", db)
      end
  end.

(** [DELETE /pricing-factors/:id] *)
Definition route_delete_pricing_factor (c : Credential) (factor_id : Id)
    (db : DB) : Response * DB :=
  match (do u <- authenticateToken c; requireAdmin u) with
  | inl r => (r, db)
  | inr _ =>
      match find_factor factor_id (pricing_factors db) with
      | None => (mkResponse 404 "Pricing factor not found", db)
      | Some pricingFactor =>
          (mkResponse 200 "Pricing factor deleted successfully",
           set_factors
             (filter (fun r => PricingFactor.id r
                               <> PricingFactor.id pricingFactor)
                     (pricing_factors db)) db)
      end
  end.

Inductive FactorAction :=
| CreateFactor (c : Credential) (b : PricingFactorBody) (new_id : Id)
| UpdateFactor (c : Credential) (factor_id : Id) (p : PricingFactorUpdate)
| DeleteFactor (c : Credential) (factor_id : Id).

Definition administer (a : FactorAction) (now : Z) (db : DB)
    : Response * DB :=
  match a with
  | CreateFactor c b new_id => route_create_pricing_factor c b new_id now db
  | UpdateFactor c i p => route_update_pricing_factor c i p db
  | DeleteFactor c i => route_delete_pricing_factor c i db
  end.

(** Requests of the users of the platform and of its administration,
    interleaved. *)
Definition step (a : Action + FactorAction) (now : Z) (db : DB) : DB :=
  match a with
  | inl a => snd (perform a now db)
  | inr a => snd (administer a now db)
  end.

Definition history (acts : list ((Action + FactorAction) * Z)) (db : DB)
    : DB :=
  fold_left (fun d a => step (fst a) (snd a) d) acts db.

Definition quotes_keyed (db : DB) : Prop :=
  forall k q, quotes db !! k = Some q -> Quote.id q = k.

(** The requests that write a quote. *)
Definition quote_action (a : Action) : bool :=
  match a with
  | CreateQuote _ _ _ | UpdateQuote _ _ _ | AcceptQuote _ _
  | RejectQuote _ _ _ => true
  | _ => false
  end.

(** The key under which a request may insert a new quote. *)
Definition inserts_quote (a : Action + FactorAction) (i : Id) : Prop :=
  match a with
  | inl (CreateQuote _ _ new_id) => new_id = i
  | _ => False
  end.

Definition succeeded (r : Response) : Prop :=
  status_code r = 200%Z \/ status_code r = 201%Z.

(** The store after the request of the dentist to accept the revised quote
    of the scenario, at time 3000. *)
Definition accepted_db : DB :=
  snd (route_accept_quote (TokenOf (Some dentistUser)) 20 3000 revised_db).


(** Who may revise a quote: the active supplier recorded on it, or an
    active administrator. *)
Definition may_revise (u : User.t) (q : Quote.t) : Prop :=
  User.isActive u = true
  /\ (User.role u = admin
      \/ (User.role u = supplier /\ Quote.supplierId q = User.id u)).


(** A rule of the supplier of the scenario, as the administrator enters
    it: a markup of 2 on everything. *)
Definition supplierRuleBody : PricingFactorBody :=
  mkPricingFactorBody "Laboratory markup" 2%Q None None None None (Some 3)
    None None None None None None.

Definition factor_change (f : Q) : PricingFactorUpdate :=
  mkPricingFactorUpdate None (Some f) None None.

(** The administrator enters the rule, tries a factor of 12 and then sets
    3; the supplier raises the base price of the quote to 120; the dentist
    accepts it. *)
Definition mixed_history : list ((Action + FactorAction) * Z) :=
  [ (inr (CreateFactor (TokenOf (Some adminUser)) supplierRuleBody 2), 500%Z);
    (inr (UpdateFactor (TokenOf (Some adminUser)) 2 (factor_change 12)),
     1500%Z);
    (inr (UpdateFactor (TokenOf (Some adminUser)) 2 (factor_change 3)),
     1600%Z);
    (inl (UpdateQuote (TokenOf (Some supplierUser)) 20
            (base_price_change 120)), 2000%Z);
    (inl (AcceptQuote (TokenOf (Some dentistUser)) 20), 3000%Z) ].

(** No request of the history stores a new quote under the key [i]. *)
Definition never_inserts (i : Id) (acts : list ((Action + FactorAction) * Z))
    : Prop :=
  Forall (fun a => ~ inserts_quote (fst a) i) acts.

(** The administrator enters the rule of the supplier and raises it to 3,
    and the supplier asks to revise the quote. *)
Definition later_history : list ((Action + FactorAction) * Z) :=
  [ (inr (CreateFactor (TokenOf (Some adminUser)) supplierRuleBody 2),
     1500%Z);
    (inr (UpdateFactor (TokenOf (Some adminUser)) 2 (factor_change 3)),
     1600%Z);
    (inl (UpdateQuote (TokenOf (Some supplierUser)) 20 no_quote_change),
     2000%Z) ].

(** The table of the seeded accounts. *)
Definition seeded_users : gmap nat User.t :=
  <[User.id adminUser := adminUser]>
    (<[User.id dentistUser := dentistUser]>
       (<[User.id supplierUser := supplierUser]> ∅)).

(** The table after the administrator has deleted the account of the
    supplier. *)
Definition users_without_supplier : gmap nat User.t :=
  snd (route_delete_user (SignedFor 1) 3 seeded_users).

(** The credential a request of the administration is sent with. *)
Definition factor_credential (a : FactorAction) : Credential :=
  match a with
  | CreateFactor c _ _ => c
  | UpdateFactor c _ _ => c
  | DeleteFactor c _ => c
  end.


(** ** Files

    The model of a file and the routes of the files router that read and
    write its access columns. The table of files is kept beside the store,
    in the order of its rows; [findOne] without an [order] takes the first
    row that matches. A download is answered with the file itself, the
    token route with the token and its expiry. The clock is read once per
    request. *)

Module File.

Record t := mk {
  id : Id;
  orderId : Id;
  uploadedBy : Id;
  originalName : string;
  filePath : string;
  isPublic : bool;
  accessToken : option string;
  expiresAt : option Z;
  downloadCount : Z;
  lastDownloadedAt : option Z
}.

(** The [beforeCreate] hook: "Generate access token for private files";
    [random] is what [crypto.randomBytes(32).toString('hex')] returns. *)
Definition beforeCreate (random : string) (file : t) : t :=
  if negb (isPublic file)
     && negb (bool_decide (is_Some (truthy (accessToken file))))
  then mk (id file) (orderId file) (uploadedBy file) (originalName file)
          (filePath file) (isPublic file) (Some random) (expiresAt file)
          (downloadCount file) (lastDownloadedAt file)
  else file.

(** [incrementDownload] *)
Definition incrementDownload (now : Z) (file : t) : t :=
  mk (id file) (orderId file) (uploadedBy file) (originalName file)
     (filePath file) (isPublic file) (accessToken file) (expiresAt file)
     (downloadCount file + 1) (Some now).

(** [isAccessible] *)
Definition isAccessible (now : Z) (file : t) : bool :=
  if isPublic file then true
  else
    match expiresAt file with
    | Some e => if (e <? now)%Z then false else true
    | None => true
    end.

(** [file.update({ accessToken, expiresAt })] *)
Definition grant (token : string) (expiry : Z) (file : t) : t :=
  mk (id file) (orderId file) (uploadedBy file) (originalName file)
     (filePath file) (isPublic file) (Some token) (Some expiry)
     (downloadCount file) (lastDownloadedAt file).

(** [File.findByPk(fileId)] *)
Definition findByPk (file_id : Id) (files : list t) : option t :=
  find (fun f => bool_decide (id f = file_id)) files.

(** [File.findOne({ where: { accessToken } })] *)
Definition findByToken (token : string) (files : list t) : option t :=
  find (fun f => bool_decide (accessToken f = Some token)) files.

(** The row is written back under its primary key. *)
Definition write (file : t) (files : list t) : list t :=
  (fun f => if bool_decide (id f = id file) then file else f) <$> files.

(** [file.destroy()] *)
Definition destroy (file : t) (files : list t) : list t :=
  filter (fun f => id f <> id file) files.

End File.

(** What a route of the files router sends back. *)
Inductive FileReply :=
| Answer (r : Response)
| Attachment (filePath originalName : string)
| AccessGranted (accessToken : string) (expiresAt : Z).

(** The ownership tests of the file routes on [file.order]; reading
    [order.dentistId] or [order.supplierId] of a missing order throws, and
    the catch block answers with the failure message of the route. *)
Definition file_owner_checks (failure : string) (u : User.t)
    (order : option Order.t) : Mw unit :=
  match order with
  | Some order => owner_checks "Access denied to this file" u order
  | None =>
      if bool_decide (User.role u = dentist)
         || bool_decide (User.role u = supplier)
      then respond 500 failure
      else next tt
  end.

(** The lines the four authenticated file routes share. *)
Definition file_gate (failure : string) (c : Credential) (file_id : Id)
    (db : DB) (files : list File.t) : Mw File.t :=
  do u <- authenticateToken c;
  match File.findByPk file_id files with
  | None => respond 404 "File not found"
  | Some file =>
      do _ <- file_owner_checks failure u (orders db !! File.orderId file);
      next file
  end.

(** [GET /:fileId/download] *)
Definition route_download_file (c : Credential) (file_id : Id) (now : Z)
    (db : DB) (files : list File.t) : FileReply * list File.t :=
  match file_gate "File download failed" c file_id db files with
  | inl r => (Answer r, files)
  | inr file =>
      if File.isAccessible now file
      then
        (Attachment (File.filePath file) (File.originalName file),
         File.write (File.incrementDownload now file) files)
      else (Answer (mkResponse 403 "File access expired"), files)
  end.

(** [DELETE /:fileId] *)
Definition route_delete_file (c : Credential) (file_id : Id) (db : DB)
    (files : list File.t) : FileReply * list File.t :=
  match file_gate "Failed to delete file" c file_id db files with
  | inl r => (Answer r, files)
  | inr file =>
      (Answer (mkResponse 200 "File deleted successfully"),
       File.destroy file files)
  end.

(** [POST /:fileId/access-token]; [random] is the token drawn. *)
Definition route_access_token (c : Credential) (file_id : Id)
    (random : string) (now : Z) (db : DB) (files : list File.t)
    : FileReply * list File.t :=
  match file_gate "Failed to generate access token" c file_id db files with
  | inl r => (Answer r, files)
  | inr file =>
      let expiresAt := (now + 24 * 60 * 60 * 1000)%Z in
      (AccessGranted random expiresAt,
       File.write (File.grant random expiresAt file) files)
  end.

(** [GET /download/:accessToken]: no authentication. *)
Definition route_token_download (token : string) (now : Z)
    (files : list File.t) : FileReply * list File.t :=
  match File.findByToken token files with
  | None => (Answer (mkResponse 404 "File not found"), files)
  | Some file =>
      if File.isAccessible now file
      then
        (Attachment (File.filePath file) (File.originalName file),
         File.write (File.incrementDownload now file) files)
      else (Answer (mkResponse 403 "File access expired"), files)
  end.

(** The scan of the scenario, as the dentist uploaded it. *)
Definition sampleFile : File.t :=
  File.beforeCreate "c0ffee"
    (File.mk 30 10 2 "scan.stl" "uploads/7f3a.stl" false None None 0 None).

Definition sampleFiles : list File.t := [sampleFile].


(** ** Unread messages *)

(** [Order.findAll({ where, attributes: ['id'] })] mapped to the ids. *)
Definition order_ids (P : Order.t -> Prop) `{!forall o, Decision (P o)}
    (db : DB) : list Id :=
  Order.id <$> filter P (map_to_list (orders db)).*2.

(** The [whereClause] of the unread count: unread, in an order of the
    caller unless the caller is an administrator, and written by somebody
    else. *)
Definition unread_where (u : User.t) (db : DB) (m : ChatMessage.t) : bool :=
  negb (ChatMessage.isRead m)
  && match User.role u with
     | dentist =>
         bool_decide
           (ChatMessage.orderId m
            ∈ order_ids (fun o => Order.dentistId o = User.id u) db)
     | supplier =>
         bool_decide
           (ChatMessage.orderId m
            ∈ order_ids (fun o => Order.supplierId o = User.id u) db)
     | admin => true
     end
  && negb (bool_decide (ChatMessage.userId m = User.id u)).

Definition unreadCount (u : User.t) (db : DB) : nat :=
  length (filter (fun m => unread_where u db m = true) (chat_messages db)).

(** [GET /unread/count]: a refusal, or the count. *)
Definition route_unread_count (c : Credential) (db : DB) : Response + nat :=
  match authenticateToken c with
  | inl r => inl r
  | inr u => inr (unreadCount u db)
  end.

(** The store of the quote with two messages of the supplier in the
    conversation of the order: the notice that the upload route of the
    files router writes, and a question. *)
Definition upload_notice : ChatMessage.t :=
  ChatMessage.mk 10 3 "File uploaded: scan.stl" fr "file"
    (Some "file_uploaded") true false None 1100.

Definition chatting_db : DB :=
  log_message
    (ChatMessage.mk 10 3 "Which shade?" fr "text" None false false None 1200)
    (log_message upload_notice quoted_db).

(** ** Placing an order

    [POST /] of the orders router and the [beforeCreate] hook of the order
    model. The ORM validates a new row before it runs the hook; the foreign
    key of [dentistId] and the unique index of [orderNumber] are checked by
    the table; a row that is refused ends in the catch block. *)

Record CreateOrderBody := mkCreateOrderBody {
  co_title : string;
  co_description : option string;
  co_patientName : option string;
  co_patientAge : option Z;
  co_patientGender : option Gender;
  co_toothNumbers : option (list Z);
  co_prosthesisType : ProsthesisType;
  co_material : OrderMaterial;
  co_color : option string;
  co_urgency : option OrderUrgency;
  co_expectedDelivery : option Z;
  co_notes : option string;
  co_supplierId : Id;
  co_dentistId : option Id
}.

(** The first [k] characters of [rest] followed by [filler] over and
    over. *)
Fixpoint cycle (k : nat) (filler rest : string) : string :=
  match k with
  | O => ""
  | S k' =>
      match rest with
      | String c rest' => String c (cycle k' filler rest')
      | EmptyString =>
          match filler with
          | String c rest' => String c (cycle k' filler rest')
          | EmptyString => ""
          end
      end
  end.

(** [s.padStart(n, filler)] *)
Definition padStart (n : nat) (filler s : string) : string :=
  cycle (n - String.length s) filler filler +:+ s.

(** The number the [beforeCreate] hook generates. *)
Definition generated_orderNumber (db : DB) : string :=
  "ORD-" +:+ padStart 6 "0" (pretty (size (orders db) + 1)).

(** The new row of [Order.build(orderData)], as far as the validation reads
    it: the [orderData] of the route carries the keys of the body, the
    dentist and the status, and no order number. *)
Record NewOrder := mkNewOrder {
  no_orderNumber : option string;
  no_dentistId : option Id
}.

Definition built_order (dentistId : option Id) : NewOrder :=
  {| no_orderNumber := None; no_dentistId := dentistId |}.

(** The validation of the new row: [orderNumber] and [dentistId] are
    declared [allowNull: false] and have no default. *)
Definition order_validate (n : NewOrder) : bool :=
  bool_decide (is_Some (no_orderNumber n))
  && bool_decide (is_Some (no_dentistId n)).

(** The [beforeCreate] hook: "Generate order number", for a row that has
    none. *)
Definition order_beforeCreate (n : NewOrder) (db : DB) : string :=
  default (generated_orderNumber db) (truthy (no_orderNumber n)).

(** The row that is inserted: the column defaults, overlaid by the body,
    the dentist and the forced status. *)
Definition orderData (b : CreateOrderBody) (number : string) (dentist : Id)
    (new_id : Id) : Order.t :=
  {| Order.id := new_id;
     Order.orderNumber := number;
     Order.dentistId := dentist;
     Order.supplierId := co_supplierId b;
     Order.status := quote_asked;
     Order.title := co_title b;
     Order.description := co_description b;
     Order.patientName := co_patientName b;
     Order.patientAge := co_patientAge b;
     Order.patientGender := co_patientGender b;
     Order.toothNumbers := default [] (co_toothNumbers b);
     Order.prosthesisType := co_prosthesisType b;
     Order.material := co_material b;
     Order.color := co_color b;
     Order.urgency := default ou_medium (co_urgency b);
     Order.expectedDelivery := co_expectedDelivery b;
     Order.actualDelivery := None;
     Order.originalQuote := None;
     Order.adjustedQuote := None;
     Order.pricingFactor := Some 1%Q;
     Order.notes := co_notes b;
     Order.trackingNumber := None;
     Order.shippingCompany := None |}.

(** The order number is free. *)
Definition number_free (n : string) (db : DB) : bool :=
  bool_decide (map_Forall (fun _ o => Order.orderNumber o <> n) (orders db)).

(** "Verify supplier exists and is active" *)
Definition valid_supplier (supplier_row : option User.t) : bool :=
  match supplier_row with
  | Some s => bool_decide (User.role s = supplier) && User.isActive s
  | None => false
  end.

(** [POST /] of the orders router; [new_id] is the key the store gives the
    new row. *)
Definition route_create_order (bearer : Bearer) (b : CreateOrderBody)
    (new_id : Id) (now : Z) (users : gmap nat User.t) (db : DB)
    : Response * DB :=
  match (do u <- authenticateToken (credential bearer users);
         requireDentistOrAdmin u) with
  | inl r => (r, db)
  | inr u =>
      let dentistId :=
        if bool_decide (User.role u = admin) then co_dentistId b
        else Some (User.id u) in
      if valid_supplier (findByPk (Some (co_supplierId b)) users)
      then
        let new := built_order dentistId in
        match order_validate new, dentistId with
        | true, Some d =>
            let number := order_beforeCreate new db in
            if bool_decide (is_Some (users !! d)) && number_free number db
            then
              let order := orderData b number d new_id in
              let db1 := save_order order db in
              match
                create_message
                  (ChatMessage.system (Order.id order) u
                     ("New order created: " +:+ Order.title order)
                     "order_created" now) db1
              with
              | Some db2 => (mkResponse 201 "Order created successfully", db2)
              | None => (mkResponse 500 "Failed to create order", db1)
              end
            else (mkResponse 500 "Failed to create order", db)
        | _, _ => (mkResponse 500 "Failed to create order", db)
        end
      else (mkResponse 400 "Invalid supplier selected", db)
  end.

(** The order of a bridge, as the dentist of the scenario places it. *)
Definition bridge_body : CreateOrderBody :=
  mkCreateOrderBody "Zirconia bridge" None None None None None pt_bridge
    om_zirconia None None None None 3 None.

(** ** Deleting a message

    The table of messages with the primary key of each row. *)




(** The store of the scenario with a rule of the supplier for crowns beside
    the default rule, and the same store after the administrator has deleted
    the rule of the supplier. *)
Definition two_rule_db : DB :=
  set_factors [defaultPricingFactor; crownRule 10] scenario_db.

Definition db_without_crown_rule : DB :=
  snd (route_delete_pricing_factor (TokenOf (Some adminUser)) 2 two_rule_db).
(** * Properties *)

#[local] Set Warnings "-clear-no-such-hyp".

(** ** Small facts shared by the proofs *)

Lemma id_params_orderId (order_id : Id) :
  id_params order_id !! "orderId" = None.
Proof. unfold id_params. by rewrite lookup_singleton_ne. Qed.

Lemma orderId_params_orderId (order_id : Id) :
  orderId_params order_id !! "orderId" = Some order_id.
Proof. unfold orderId_params. by rewrite lookup_singleton_eq. Qed.

Lemma canAccessOrder_id_params (u : User.t) (order_id : Id) (db : DB) :
  canAccessOrder (id_params order_id) u db = respond 404 "Order not found".
Proof. unfold canAccessOrder. by rewrite id_params_orderId. Qed.

Lemma canAccessOrder_found (u : User.t) (order_id : Id) (db : DB)
    (o : Order.t) :
  orders db !! order_id = Some o ->
  canAccessOrder (orderId_params order_id) u db = order_access u o.
Proof.
  intros Ho. unfold canAccessOrder.
  rewrite orderId_params_orderId. cbn. by rewrite Ho.
Qed.

Lemma order_access_party (u : User.t) (o : Order.t) :
  (party u o -> order_access u o = next o)
  /\ (~ party u o ->
      order_access u o = respond 403 "Access denied to this order").
Proof.
  unfold order_access, party.
  destruct u as [i r act lang]; destruct r; cbn;
    repeat split_guard; cbn; split; intros H; try reflexivity;
    try (exfalso; naive_solver).
Qed.

(** ** What the ORM and the store refuse *)

(** The notices of the order and quote routes carry the type "system",
    which the column does not declare: the store takes none of them. *)
Lemma system_notice_refused (order_id : Id) (u : User.t)
    (text action : string) (now : Z) (db : DB) :
  create_message (ChatMessage.system order_id u text action now) db = None.
Proof. reflexivity. Qed.

Lemma flag_elem {A} `{EqDecision A} (k key : string) (old new : A) :
  k ∈ Quote.flag key old new -> k = key.
Proof.
  unfold Quote.flag. case_bool_decide.
  - intros Hk. by apply elem_of_nil in Hk.
  - by rewrite list_elem_of_singleton.
Qed.

Lemma flag_put_elem {A} `{EqDecision A} (k key : string) (old : A)
    (new : option A) :
  k ∈ Quote.flag_put key old new -> k = key.
Proof.
  unfold Quote.flag_put. destruct new as [v |]; [apply flag_elem |].
  intros Hk. by apply elem_of_nil in Hk.
Qed.

Lemma flag_put_opt_elem {A} `{EqDecision A} (k key : string)
    (old new : option A) :
  k ∈ Quote.flag_put_opt key old new -> k = key.
Proof.
  unfold Quote.flag_put_opt. destruct new as [v |]; [apply flag_elem |].
  intros Hk. by apply elem_of_nil in Hk.
Qed.

Lemma in_quote_columns (k : string) :
  bool_decide (k ∈ quote_columns) = true -> k ∈ quote_columns.
Proof. apply bool_decide_eq_true_1. Qed.

(** What [set] flags on a loaded row, and what a new record carries, are
    names of columns. *)
Lemma set_flags (p : Quote.patch) (q : Quote.t) :
  flags_are_columns (Quote.set p (Quote.loaded q)).
Proof.
  intros k. unfold Quote.set.
  cbn [Quote.changed_keys Quote.loaded Quote.dataValues].
  rewrite !elem_of_app, elem_of_nil. intros H.
  repeat match type of H with _ \/ _ => destruct H as [H | H] end;
    try done;
    first [apply flag_put_elem in H | apply flag_put_opt_elem in H];
    subst k; by apply in_quote_columns.
Qed.

Lemma build_flags (new_id : Id) (d : Quote.data) :
  flags_are_columns (Quote.build new_id d).
Proof.
  intros k. cbn. intros H.
  repeat (apply elem_of_cons in H as [-> | H];
          [by apply in_quote_columns |]).
  by apply elem_of_nil in H.
Qed.

(** The two hooks ask [changed] about an array of keys; no flag has the
    name such an array spells, so neither hook does anything. *)
Lemma hooks_never_fire (i : Quote.instance) :
  flags_are_columns i -> Quote.beforeSave i = i.
Proof.
  intros Hi.
  assert (H1 : Quote.hook_totalPrice i = i).
  { unfold Quote.hook_totalPrice, Quote.changed.
    rewrite bool_decide_eq_false_2; [done |].
    intros H. apply Hi in H. revert H.
    apply (bool_decide_eq_false_1 _). vm_compute. reflexivity. }
  unfold Quote.beforeSave. rewrite H1.
  unfold Quote.hook_adjustedPrice, Quote.changed.
  rewrite bool_decide_eq_false_2; [done |].
  intros H. apply Hi in H. revert H.
  apply (bool_decide_eq_false_1 _). vm_compute. reflexivity.
Qed.

Lemma save_set (p : Quote.patch) (q : Quote.t) :
  Quote.save (Quote.set p (Quote.loaded q))
  = Quote.dataValues (Quote.set p (Quote.loaded q)).
Proof. unfold Quote.save. by rewrite (hooks_never_fire _ (set_flags p q)). Qed.

(** A new quote has no total when it is validated: it is refused. *)
Lemma create_refused (new_id : Id) (d : Quote.data) :
  Quote.create new_id d = None.
Proof. reflexivity. Qed.

(** The derived prices of a row are the same after any update. *)
Lemma update_keeps_totals (p : Quote.patch) (q q' : Quote.t) :
  Quote.update p q = Some q' ->
  Quote.totalPrice q' = Quote.totalPrice q
  /\ Quote.adjustedPrice q' = Quote.adjustedPrice q
  /\ Quote.pricingFactor q' = Quote.pricingFactor q
  /\ Quote.id q' = Quote.id q
  /\ Quote.orderId q' = Quote.orderId q
  /\ Quote.supplierId q' = Quote.supplierId q
  /\ Quote.status q' = put (Quote.p_status p) (Quote.status q)
  /\ Quote.revisionNumber q'
     = put (Quote.p_revisionNumber p) (Quote.revisionNumber q)
  /\ Quote.acceptedAt q'
     = put_opt (Quote.p_acceptedAt p) (Quote.acceptedAt q)
  /\ Quote.acceptedBy q'
     = put_opt (Quote.p_acceptedBy p) (Quote.acceptedBy q)
  /\ Quote.rejectionReason q'
     = put_opt (Quote.p_rejectionReason p) (Quote.rejectionReason q).
Proof.
  unfold Quote.update. destruct (Quote.fits p); [| discriminate].
  intros [= <-]. rewrite save_set. repeat split.
Qed.

(** Without a number in it, a patch fits. *)
Lemma accept_patch_fits (u : User.t) (now : Z) :
  Quote.fits (accept_patch u now) = true.
Proof. reflexivity. Qed.

Lemma reject_patch_fits (reason : option string) :
  Quote.fits (reject_patch reason) = true.
Proof. reflexivity. Qed.

(** ** The order routes bound to [:id] *)

Ltac in_list := apply (bool_decide_unpack _); vm_compute; exact I.

(** What the gates in front of a handler answer with. *)
Lemma authenticate_code (c : Credential) (r : Response) :
  authenticateToken c = inl r -> status_code r = 401%Z.
Proof.
  destruct c as [| | | [u |]]; cbn; try (by intros [= <-]).
  destruct (User.isActive u); [discriminate | by intros [= <-]].
Qed.

Lemma requireRole_code (roles : list Role) (u : User.t) (r : Response) :
  requireRole roles u = inl r -> status_code r = 403%Z.
Proof.
  unfold requireRole. case_bool_decide; [discriminate | by intros [= <-]].
Qed.

(** C9, counterexample: a dentist who asks for a status change of an order
    that exists is turned away by the role gate with 403, not with 404. *)
Lemma status_route_forbidden_for_dentist :
  orders scenario_db !! 10 = Some sampleOrder
  /\ fst (route_update_order_status (TokenOf (Some dentistUser)) 10
            (to_status quote_sent) 0 scenario_db)
     = mkResponse 403 "Access denied. Required role: supplier or admin".
Proof. split; reflexivity. Qed.

(** C9, as amended: on the three routes bound to [:id] the access
    middleware answers 404 "Order not found" for every user and every store,
    whether or not the order exists; each route answers with the rejection
    of its authentication or role gate when there is one and with this 404
    otherwise, and never touches the store: the handler is not reached. *)
Theorem id_routes_stop_at_not_found (c : Credential) (order_id : Id)
    (sb : StatusBody) (det : DetailsBody) (now : Z) (db : DB) :
  (forall u, canAccessOrder (id_params order_id) u db
             = respond 404 "Order not found")
  /\ route_get_order c order_id db
     = (match authenticateToken c with
        | inl r => r
        | inr _ => mkResponse 404 "Order not found"
        end, db)
  /\ route_update_order_status c order_id sb now db
     = (match (do u <- authenticateToken c; requireSupplierOrAdmin u) with
        | inl r => r
        | inr _ => mkResponse 404 "Order not found"
        end, db)
  /\ route_update_order_details c order_id det db
     = (match (do u <- authenticateToken c; requireDentistOrAdmin u) with
        | inl r => r
        | inr _ => mkResponse 404 "Order not found"
        end, db).
Proof.
  split; [intros u; apply canAccessOrder_id_params |].
  unfold route_get_order, route_update_order_status,
    route_update_order_details.
  destruct (authenticateToken c) as [r | u]; cbn; [done |].
  rewrite !canAccessOrder_id_params.
  unfold requireSupplierOrAdmin, requireDentistOrAdmin, requireRole.
  repeat split; repeat split_guard; cbn;
    rewrite ?canAccessOrder_id_params; reflexivity.
Qed.

(** ** The status workflow *)

Lemma validTransitions_graph (a b : OrderStatus) :
  b ∈ validTransitions a <-> graph_edge a b.
Proof.
  unfold graph_edge, terminal. split.
  - intros H. destruct a; cbn in H;
      repeat (apply elem_of_cons in H as [H | H]; [subst b |]);
      try (by apply elem_of_nil in H);
      first [ by left
            | right; split; [intros [? | ?]; discriminate | reflexivity] ].
  - intros [H | [Ht ->]].
    + destruct a; cbn in H; try discriminate;
        injection H as <-; cbn; apply elem_of_cons; by left.
    + destruct a; cbn;
        try (exfalso; apply Ht; by (left + right));
        apply elem_of_cons; right; apply elem_of_cons; by left.
Qed.

(** No request to the status route changes the store, and each is answered
    with 401, 403 or 404. *)
Lemma status_route_stops (c : Credential) (order_id : Id) (b : StatusBody)
    (now : Z) (db : DB) :
  snd (route_update_order_status c order_id b now db) = db
  /\ status_code (fst (route_update_order_status c order_id b now db))
     ∈ [401; 403; 404]%Z.
Proof.
  unfold route_update_order_status.
  destruct (authenticateToken c) as [r | u] eqn:Ec; cbn.
  - split; [done |]. rewrite (authenticate_code c r Ec). in_list.
  - destruct (requireSupplierOrAdmin u) as [r | u'] eqn:Er; cbn.
    + split; [done |]. rewrite (requireRole_code _ u r Er). in_list.
    + rewrite canAccessOrder_id_params. cbn. split; [done | in_list].
Qed.

Lemma details_route_stops (c : Credential) (order_id : Id)
    (b : DetailsBody) (db : DB) :
  snd (route_update_order_details c order_id b db) = db
  /\ status_code (fst (route_update_order_details c order_id b db))
     ∈ [401; 403; 404]%Z.
Proof.
  unfold route_update_order_details.
  destruct (authenticateToken c) as [r | u] eqn:Ec; cbn.
  - split; [done |]. rewrite (authenticate_code c r Ec). in_list.
  - destruct (requireDentistOrAdmin u) as [r | u'] eqn:Er; cbn.
    + split; [done |]. rewrite (requireRole_code _ u r Er). in_list.
    + rewrite canAccessOrder_id_params. cbn. split; [done | in_list].
Qed.

(** C2, on the code: the table of the status route is the graph of the
    specification, but no request reaches it. Every request to the route
    leaves the store as it was and is answered with 401, 403 or 404. The
    request of scenario C, a delivered order sent back to shipping by its
    supplier or by an administrator, is answered with 404 "Order not found"
    and not with the error that names the two statuses; and the supplier
    who moves a validated order to production, along an edge of the graph,
    is answered with the same 404 and the order stays validated. *)
Theorem status_requests_never_reach_the_table :
  (forall a b, b ∈ validTransitions a <-> graph_edge a b)
  /\ (forall c order_id b now db,
        snd (route_update_order_status c order_id b now db) = db
        /\ status_code (fst (route_update_order_status c order_id b now db))
           ∈ [401; 403; 404]%Z)
  /\ orders (store_with (order_in delivered)) !! 10
     = Some (order_in delivered)
  /\ route_update_order_status (TokenOf (Some supplierUser)) 10
       (to_status in_shipping) 5000 (store_with (order_in delivered))
     = (mkResponse 404 "Order not found", store_with (order_in delivered))
  /\ route_update_order_status (TokenOf (Some adminUser)) 10
       (to_status in_shipping) 5000 (store_with (order_in delivered))
     = (mkResponse 404 "Order not found", store_with (order_in delivered))
  /\ in_production
     ∈ validTransitions (Order.status (order_in quote_validated))
  /\ route_update_order_status (TokenOf (Some supplierUser)) 10
       (to_status in_production) 5000 (store_with (order_in quote_validated))
     = (mkResponse 404 "Order not found",
        store_with (order_in quote_validated)).
Proof.
  split; [exact validTransitions_graph |].
  split; [exact status_route_stops |].
  repeat split; try reflexivity. cbn. set_solver.
Qed.

(** ** The production lock *)

(** C6, on the code: no request to the details route reaches the test of
    the status. Every request leaves the store as it was and is answered
    with 401, 403 or 404. The request of scenario D, the dentist of an order
    in production who edits its title, is answered with 404 "Order not
    found" and not with the refusal of the lock; the same edit of an order
    that is still in [quote_asked] is answered with the same 404 and the
    title stays as it was. *)
Theorem details_edits_never_reach_the_lock :
  (forall c order_id b db,
     snd (route_update_order_details c order_id b db) = db
     /\ status_code (fst (route_update_order_details c order_id b db))
        ∈ [401; 403; 404]%Z)
  /\ orders (store_with (order_in in_production)) !! 10
     = Some (order_in in_production)
  /\ Order.dentistId (order_in in_production) = User.id dentistUser
  /\ route_update_order_details (TokenOf (Some dentistUser)) 10
       (title_edit "New title") (store_with (order_in in_production))
     = (mkResponse 404 "Order not found",
        store_with (order_in in_production))
  /\ route_update_order_details (TokenOf (Some dentistUser)) 10
       (title_edit "New title") scenario_db
     = (mkResponse 404 "Order not found", scenario_db)
  /\ Order.status <$> orders scenario_db !! 10 = Some quote_asked
  /\ Order.title <$> orders scenario_db !! 10
     = Some "Ceramic crown, central incisor".
Proof.
  split; [exact details_route_stops |].
  repeat split; reflexivity.
Qed.

(** ** Who may touch an order *)

Lemma canAccessOrder_target (u : User.t) (tg : Target) :
  canAccessOrder (orderId_params (Order.id (tg_order tg))) u (store_of tg)
  = order_access u (tg_order tg).
Proof.
  apply canAccessOrder_found. unfold store_of. cbn.
  by rewrite lookup_singleton_eq.
Qed.

(** C7, counterexample: the tokenised download and the translation
    endpoint let a laboratory through that is not assigned to the order, and
    the administrator is refused the deletion of a message of the dentist. *)
Lemma unchecked_operations :
  User.role otherSupplier = supplier
  /\ Order.supplierId (tg_order sampleTarget) <> User.id otherSupplier
  /\ access FileTokenDownload otherSupplier sampleTarget = next tt
  /\ access ChatTranslate otherSupplier sampleTarget = next tt
  /\ User.role adminUser = admin
  /\ access ChatDelete adminUser sampleTarget
     = respond 403 "Can only delete your own messages".
Proof. repeat split; try reflexivity. cbn. lia. Qed.

(** C7, as amended: on every operation whose gate is [canAccessOrder] over
    an [:orderId] route or an ownership test written in the route (quotes:
    create, list, read, revise, accept, reject; files: upload, list,
    download, read, delete, new token; messages: list, post, mark read), a
    supplier who is not the supplier of the order (nor, for a revision, of
    the quote) is answered 403 and an administrator passes; on those open to
    the three parties the gate passes exactly the administrator, the dentist
    of the order and its supplier, and answers 403 to everybody else. *)
Theorem gated_operations_access (op : Operation) (u : User.t) (tg : Target) :
  order_gated op = true ->
  (User.role u = supplier ->
   Order.supplierId (tg_order tg) <> User.id u ->
   tg_quoteSupplierId tg = Order.supplierId (tg_order tg) ->
   forbidden (access op u tg))
  /\ (User.role u = admin -> access op u tg = next tt)
  /\ (three_party op = true ->
      (party u (tg_order tg) -> access op u tg = next tt)
      /\ (~ party u (tg_order tg) -> forbidden (access op u tg))).
Proof.
  intros Hg. unfold forbidden, party.
  destruct op; try discriminate Hg; unfold access;
    rewrite ?canAccessOrder_target;
    unfold order_access, owner_checks, dentist_owner_check,
      supplier_owner_check, dentist_or_admin_only, requireSupplierOrAdmin,
      requireRole, pass;
    destruct u as [i r act lang]; destruct tg as [o qs ma]; cbn;
    (split;
     [intros -> Hne Hq; subst
     | split;
       [intros ->
       | intros Ht; try discriminate Ht; split; intros Hp; destruct r]]);
    cbn; repeat case_bool_decide; cbn;
    try reflexivity; try (eexists; reflexivity); try congruence;
    try (exfalso; naive_solver); try (exfalso; set_solver).
Qed.

(** The second laboratory asks to mark the messages of the order as read;
    the administrator does the same. *)
Lemma gated_operations_access_witness :
  forbidden (access ChatMarkRead otherSupplier sampleTarget)
  /\ access ChatMarkRead adminUser sampleTarget = next tt.
Proof.
  split.
  - destruct (gated_operations_access ChatMarkRead otherSupplier sampleTarget
                eq_refl) as (Hsupplier & _ & _).
    apply Hsupplier; [reflexivity | cbn; lia | reflexivity].
  - destruct (gated_operations_access ChatMarkRead adminUser sampleTarget
                eq_refl) as (_ & Hadmin & _).
    apply Hadmin. reflexivity.
Defined.

(** ** Read marks *)

Lemma mark_is_read (order_id reader : Id) (now : Z) (m : ChatMessage.t) :
  ChatMessage.unread_from_others order_id reader (ChatMessage.mark now m)
  = false.
Proof.
  unfold ChatMessage.unread_from_others. cbn. by rewrite andb_false_r.
Qed.

Lemma markRead_twice (order_id reader : Id) (t1 t2 : Z)
    (ms : list ChatMessage.t) :
  ChatMessage.markRead order_id reader t2
    (ChatMessage.markRead order_id reader t1 ms)
  = ChatMessage.markRead order_id reader t1 ms.
Proof.
  unfold ChatMessage.markRead. rewrite <- list_fmap_compose.
  apply list_fmap_ext. intros _ m _. cbn.
  destruct (ChatMessage.unread_from_others order_id reader m) eqn:E.
  - by rewrite mark_is_read.
  - by rewrite E.
Qed.

(** The answer and the store of a request that passes the gates. *)
Lemma mark_read_passes (c : Credential) (order_id : Id) (now : Z) (db : DB)
    (u : User.t) (o : Order.t) :
  authenticateToken c = next u ->
  orders db !! order_id = Some o -> party u o ->
  route_mark_read c order_id now db
  = (mkResponse 200 "Messages marked as read",
     set_messages
       (ChatMessage.markRead order_id (User.id u) now (chat_messages db))
       db).
Proof.
  intros Hc Ho Hp. unfold route_mark_read. rewrite Hc. cbn.
  rewrite (canAccessOrder_found _ _ _ _ Ho).
  by rewrite (proj1 (order_access_party u o) Hp).
Qed.

(** C8: a [markRead] request of a party of the order is answered with 200;
    in the store it returns, the orders, quotes and pricing factors are the
    old ones and the conversation has the same length; row by row, a message
    of the order that somebody else wrote and that was unread is the same
    message with [isRead] set and the time of the request as [readAt] (and
    as [updatedAt]), and every other row, the rows that were already read
    among them, is exactly the row it was; a second request, right after
    the first and at any time, is answered with 200 again and returns the
    store the first one returned. *)
Theorem markRead_exact_and_idempotent (c : Credential) (order_id : Id)
    (t1 t2 : Z) (db : DB) (u : User.t) (o : Order.t) :
  authenticateToken c = next u ->
  orders db !! order_id = Some o ->
  party u o ->
  fst (route_mark_read c order_id t1 db)
  = mkResponse 200 "Messages marked as read"
  /\ orders (snd (route_mark_read c order_id t1 db)) = orders db
  /\ quotes (snd (route_mark_read c order_id t1 db)) = quotes db
  /\ pricing_factors (snd (route_mark_read c order_id t1 db))
     = pricing_factors db
  /\ length (chat_messages (snd (route_mark_read c order_id t1 db)))
     = length (chat_messages db)
  /\ (forall i m,
        chat_messages db !! i = Some m ->
        ChatMessage.orderId m = order_id ->
        ChatMessage.userId m <> User.id u ->
        ChatMessage.isRead m = false ->
        chat_messages (snd (route_mark_read c order_id t1 db)) !! i
        = Some (ChatMessage.mk (ChatMessage.orderId m) (ChatMessage.userId m)
                  (ChatMessage.message m) (ChatMessage.originalLanguage m)
                  (ChatMessage.messageType m) (ChatMessage.systemAction m)
                  (ChatMessage.isSystemMessage m) true (Some t1) t1))
  /\ (forall i m,
        chat_messages db !! i = Some m ->
        ChatMessage.orderId m <> order_id
        \/ ChatMessage.userId m = User.id u
        \/ ChatMessage.isRead m = true ->
        chat_messages (snd (route_mark_read c order_id t1 db)) !! i
        = Some m)
  /\ route_mark_read c order_id t2 (snd (route_mark_read c order_id t1 db))
     = (mkResponse 200 "Messages marked as read",
        snd (route_mark_read c order_id t1 db)).
Proof.
  intros Hc Ho Hp.
  rewrite (mark_read_passes c order_id t1 db u o Hc Ho Hp).
  cbn [fst snd set_messages orders quotes pricing_factors chat_messages].
  split; [done |]. split; [done |]. split; [done |]. split; [done |].
  split; [unfold ChatMessage.markRead; by rewrite length_fmap |].
  split; [| split].
  - intros i m Hm Hord Husr Hread. unfold ChatMessage.markRead.
    rewrite list_lookup_fmap, Hm. cbn.
    unfold ChatMessage.unread_from_others.
    rewrite (bool_decide_eq_true_2 _ Hord), (bool_decide_eq_false_2 _ Husr),
      Hread.
    reflexivity.
  - intros i m Hm Hcase. unfold ChatMessage.markRead.
    rewrite list_lookup_fmap, Hm. cbn.
    unfold ChatMessage.unread_from_others.
    destruct Hcase as [Hord | [Husr | Hread]].
    + by rewrite (bool_decide_eq_false_2 _ Hord).
    + rewrite (bool_decide_eq_true_2 _ Husr). cbn.
      by rewrite andb_false_r.
    + rewrite Hread. cbn. by rewrite andb_false_r.
  - erewrite mark_read_passes; [| exact Hc | exact Ho | exact Hp].
    unfold set_messages.
    cbn [orders quotes pricing_factors chat_messages].
    by rewrite markRead_twice.
Qed.

(** The dentist of the scenario reads the two messages of the supplier at
    time 5000, and asks again at time 6000. *)
Lemma markRead_exact_and_idempotent_witness :
  fst (route_mark_read (TokenOf (Some dentistUser)) 10 5000 chatting_db)
  = mkResponse 200 "Messages marked as read"
  /\ chat_messages
       (snd (route_mark_read (TokenOf (Some dentistUser)) 10 5000
               chatting_db)) !! 1%nat
     = Some (ChatMessage.mk 10 3 "Which shade?" fr "text" None false true
               (Some 5000%Z) 5000)
  /\ route_mark_read (TokenOf (Some dentistUser)) 10 6000
       (snd (route_mark_read (TokenOf (Some dentistUser)) 10 5000
               chatting_db))
     = (mkResponse 200 "Messages marked as read",
        snd (route_mark_read (TokenOf (Some dentistUser)) 10 5000
               chatting_db)).
Proof.
  destruct (markRead_exact_and_idempotent (TokenOf (Some dentistUser)) 10
              5000 6000 chatting_db dentistUser (order_in quote_sent))
    as (Hanswer & _ & _ & _ & _ & Hmarked & _ & Hagain).
  - reflexivity.
  - vm_compute. reflexivity.
  - right; left; split; reflexivity.
  - split; [exact Hanswer |]. split; [| exact Hagain].
    apply (Hmarked 1%nat
             (ChatMessage.mk 10 3 "Which shade?" fr "text" None false false
                None 1200)); [reflexivity | reflexivity | cbn; lia |
                              reflexivity].
Defined.

(** ** The quote routes, gate by gate *)

Lemma supplier_gate_code (c : Credential) (r : Response) :
  (do u <- authenticateToken c; requireSupplierOrAdmin u) = inl r ->
  status_code r = 401%Z \/ status_code r = 403%Z.
Proof.
  destruct (authenticateToken c) as [r' | u] eqn:E; cbn.
  - intros [= <-]. left. by apply (authenticate_code c).
  - intros H. right. exact (requireRole_code _ u r H).
Qed.

Lemma supplier_owner_code (msg : string) (u : User.t) (owner : Id)
    (r : Response) :
  supplier_owner_check msg u owner = inl r -> status_code r = 403%Z.
Proof.
  unfold supplier_owner_check. destruct (_ && _); [| discriminate].
  by intros [= <-].
Qed.

Lemma dentist_owner_code (msg : string) (u : User.t) (o : Order.t)
    (r : Response) :
  dentist_owner_check msg u o = inl r -> status_code r = 403%Z.
Proof.
  unfold dentist_owner_check. destruct (_ && _); [| discriminate].
  by intros [= <-].
Qed.

Lemma supplier_gate_passes (u : User.t) :
  User.isActive u = true ->
  User.role u = admin \/ User.role u = supplier ->
  (do u' <- authenticateToken (TokenOf (Some u)); requireSupplierOrAdmin u')
  = next u.
Proof.
  intros Hact Hrole. cbn [authenticateToken]. rewrite Hact. cbn [mw_bind next].
  unfold requireSupplierOrAdmin, requireRole.
  rewrite bool_decide_eq_true_2; [reflexivity |].
  destruct Hrole as [-> | ->]; set_solver.
Qed.

Lemma reviser_passes (u : User.t) (q : Quote.t) (msg : string) :
  may_revise u q ->
  (do u' <- authenticateToken (TokenOf (Some u)); requireSupplierOrAdmin u')
  = next u
  /\ supplier_owner_check msg u (Quote.supplierId q) = next tt.
Proof.
  intros [Hact Hwho]. split.
  - apply supplier_gate_passes; [done | naive_solver].
  - unfold supplier_owner_check.
    destruct Hwho as [Hr | [Hr Hs]]; rewrite Hr; cbn; [done |].
    by rewrite (bool_decide_eq_true_2 _ Hs).
Qed.

Lemma decider_passes (u : User.t) (o : Order.t) (msg msg' : string) :
  may_decide u o ->
  (do u' <- authenticateToken (TokenOf (Some u));
   do _ <- dentist_or_admin_only msg u'; next u') = next u
  /\ dentist_owner_check msg' u o = next tt.
Proof.
  intros [Hact Hwho]. cbn [authenticateToken]. rewrite Hact.
  cbn [mw_bind next]. unfold dentist_or_admin_only, dentist_owner_check.
  destruct Hwho as [Hr | [Hr Hd]]; rewrite Hr; cbn; [done |].
  by rewrite (bool_decide_eq_true_2 _ Hd).
Qed.

(** *** Creation *)

(** No request to the create route changes the store or is answered with
    201. *)
Lemma create_quote_stops (c : Credential) (b : CreateQuoteBody)
    (new_id : Id) (now : Z) (db : DB) :
  snd (route_create_quote c b new_id now db) = db
  /\ status_code (fst (route_create_quote c b new_id now db))
     ∈ [400; 401; 403; 404; 500]%Z.
Proof.
  unfold route_create_quote.
  destruct (do u <- authenticateToken c; requireSupplierOrAdmin u)
    as [r | u] eqn:E.
  - split; [done |]. cbn.
    destruct (supplier_gate_code c r E) as [-> | ->]; in_list.
  - destruct (findByPk _ (orders db)) as [o |]; [| split; [done | in_list]].
    destruct (supplier_owner_check _ u (Order.supplierId o)) as [r | []]
      eqn:E'.
    + split; [done |]. cbn. rewrite (supplier_owner_code _ _ _ _ E').
      in_list.
    + destruct (negb _); [split; [done | in_list] |].
      destruct (PricingFactor.getApplicableFactor _ _ _);
        [split; [done | in_list] |].
      rewrite create_refused. split; [done | in_list].
Qed.

(** *** Revision *)

(** A patch without a price leaves the row as [set] made it. *)
Lemma persist_without_price (p : Quote.patch) (q : Quote.t) :
  Quote.p_basePrice p = None -> Quote.p_materialCost p = None ->
  Quote.p_laborCost p = None -> Quote.p_shippingCost p = None ->
  Quote.p_taxAmount p = None ->
  Quote.persist p q = q.
Proof.
  intros H1 H2 H3 H4 H5. unfold Quote.persist.
  rewrite H1, H2, H3, H4, H5.
  destruct q as [i o s st bp mc lc sc ta]; cbn.
  by destruct mc, lc, sc, ta.
Qed.

(** What the revision of a quote writes, for somebody who may revise it. *)
Lemma update_quote_written (u : User.t) (quote_id : Id)
    (b : UpdateQuoteBody) (now : Z) (db : DB) (q : Quote.t) :
  may_revise u q -> quotes db !! quote_id = Some q ->
  Quote.status q <> Quote.accepted ->
  route_update_quote (TokenOf (Some u)) quote_id b now db
  = (mkResponse 500 "Failed to update quote",
     match Quote.update (quote_updateData q b) q with
     | Some q' => save_quote q' db
     | None => db
     end).
Proof.
  intros Hu Hq Hs. unfold route_update_quote.
  destruct (reviser_passes u q "Access denied to this quote" Hu)
    as [-> Hown].
  cbn [findByPk next]. rewrite Hq, Hown. rewrite (bool_decide_eq_false_2 _ Hs).
  destruct (Quote.update _ q); [| done].
  by rewrite system_notice_refused.
Qed.

(** Every request to the revision route is answered with a refusal, and
    the store is the old one or the old one with the row rewritten. *)
Lemma update_quote_cases (c : Credential) (quote_id : Id)
    (b : UpdateQuoteBody) (now : Z) (db : DB) :
  status_code (fst (route_update_quote c quote_id b now db))
  ∈ [400; 401; 403; 404; 500]%Z
  /\ (snd (route_update_quote c quote_id b now db) = db
      \/ exists q q',
           quotes db !! quote_id = Some q
           /\ Quote.status q <> Quote.accepted
           /\ Quote.update (quote_updateData q b) q = Some q'
           /\ route_update_quote c quote_id b now db
              = (mkResponse 500 "Failed to update quote", save_quote q' db)).
Proof.
  unfold route_update_quote.
  destruct (do u <- authenticateToken c; requireSupplierOrAdmin u)
    as [r | u] eqn:E.
  - split; [| by left]. cbn.
    destruct (supplier_gate_code c r E) as [-> | ->]; in_list.
  - cbn [findByPk].
    destruct (quotes db !! quote_id) as [q |] eqn:Hq;
      [| split; [in_list | by left]].
    destruct (supplier_owner_check _ u (Quote.supplierId q)) as [r | []]
      eqn:E'.
    + split; [| by left]. cbn. rewrite (supplier_owner_code _ _ _ _ E').
      in_list.
    + destruct (bool_decide_reflect (Quote.status q = Quote.accepted))
        as [Hs | Hs]; [split; [in_list | by left] |].
      destruct (Quote.update _ q) as [q' |] eqn:Eu;
        [| split; [in_list | by left]].
      rewrite system_notice_refused. split; [in_list |].
      right. by exists q, q'.
Qed.

(** *** Decisions *)

Lemma accept_update (u : User.t) (now : Z) (q : Quote.t) :
  Quote.update (accept_patch u now) q
  = Some (Quote.dataValues (Quote.set (accept_patch u now) (Quote.loaded q))).
Proof.
  unfold Quote.update. rewrite accept_patch_fits, save_set.
  by rewrite persist_without_price.
Qed.

Lemma reject_update (reason : option string) (q : Quote.t) :
  Quote.update (reject_patch reason) q
  = Some (Quote.dataValues (Quote.set (reject_patch reason) (Quote.loaded q))).
Proof.
  unfold Quote.update. rewrite reject_patch_fits, save_set.
  by rewrite persist_without_price.
Qed.


Lemma reject_by_decider (u : User.t) (quote_id : Id) (now : Z)
    (reason : option string) (db : DB) (q : Quote.t) (o : Order.t) :
  may_decide u o -> quotes db !! quote_id = Some q ->
  orders db !! Quote.orderId q = Some o ->
  route_reject_quote (TokenOf (Some u)) quote_id reason now db
  = if not_sent_nor_modified (Quote.status q)
    then (mkResponse 400 "Only sent or modified quotes can be rejected", db)
    else
      let q' :=
        Quote.dataValues (Quote.set (reject_patch reason) (Quote.loaded q)) in
      (mkResponse 500 "Failed to reject quote",
       save_order (Order.update (status_only quote_asked) o)
         (save_quote q' db)).
Proof.
  intros Hd Hq Ho. unfold route_reject_quote.
  destruct (decider_passes u o "Only dentists can reject quotes"
              "Access denied to this quote" Hd) as [-> Hown].
  cbn [findByPk next]. rewrite Hq, Ho, Hown.
  destruct (not_sent_nor_modified _); [done |].
  rewrite reject_update. by rewrite system_notice_refused.
Qed.

(** Every request to the two routes is answered with a refusal, and the
    store is the old one or the old one with the quote and its order
    rewritten. *)
Lemma accept_quote_cases (c : Credential) (quote_id : Id) (now : Z)
    (db : DB) :
  status_code (fst (route_accept_quote c quote_id now db))
  ∈ [400; 401; 403; 404; 500]%Z
  /\ (snd (route_accept_quote c quote_id now db) = db
      \/ exists u q o,
           authenticateToken c = inr u
           /\ quotes db !! quote_id = Some q
           /\ orders db !! Quote.orderId q = Some o
           /\ not_sent_nor_modified (Quote.status q) = false
           /\ route_accept_quote c quote_id now db
              = (mkResponse 500 "Failed to accept quote",
                 let q' :=
                   Quote.dataValues
                     (Quote.set (accept_patch u now) (Quote.loaded q)) in
                 save_order (Order.update (validated_by q') o)
                   (save_quote q' db))).
Proof.
  unfold route_accept_quote.
  destruct (authenticateToken c) as [r | u] eqn:Ec; cbn [mw_bind].
  - split; [| by left]. cbn. rewrite (authenticate_code c r Ec). in_list.
  - destruct (dentist_or_admin_only _ u) as [r | []] eqn:Eg; cbn [mw_bind].
    + split; [| by left]. unfold dentist_or_admin_only in Eg.
      destruct (_ && _); [| discriminate]. injection Eg as <-. in_list.
    + cbn [next findByPk].
      destruct (quotes db !! quote_id) as [q |] eqn:Hq;
        [| split; [in_list | by left]].
      destruct (orders db !! Quote.orderId q) as [o |] eqn:Ho;
        [| split; [in_list | by left]].
      destruct (dentist_owner_check _ u o) as [r | []] eqn:E'.
      * split; [| by left]. cbn. rewrite (dentist_owner_code _ _ _ _ E').
        in_list.
      * destruct (not_sent_nor_modified _) eqn:Hs;
          [split; [in_list | by left] |].
        rewrite accept_update, system_notice_refused.
        split; [in_list |]. right. by exists u, q, o.
Qed.

Lemma reject_quote_cases (c : Credential) (quote_id : Id)
    (reason : option string) (now : Z) (db : DB) :
  status_code (fst (route_reject_quote c quote_id reason now db))
  ∈ [400; 401; 403; 404; 500]%Z
  /\ (snd (route_reject_quote c quote_id reason now db) = db
      \/ exists q o,
           quotes db !! quote_id = Some q
           /\ orders db !! Quote.orderId q = Some o
           /\ not_sent_nor_modified (Quote.status q) = false
           /\ route_reject_quote c quote_id reason now db
              = (mkResponse 500 "Failed to reject quote",
                 let q' :=
                   Quote.dataValues
                     (Quote.set (reject_patch reason) (Quote.loaded q)) in
                 save_order (Order.update (status_only quote_asked) o)
                   (save_quote q' db))).
Proof.
  unfold route_reject_quote.
  destruct (authenticateToken c) as [r | u] eqn:Ec; cbn [mw_bind].
  - split; [| by left]. cbn. rewrite (authenticate_code c r Ec). in_list.
  - destruct (dentist_or_admin_only _ u) as [r | []] eqn:Eg; cbn [mw_bind].
    + split; [| by left]. unfold dentist_or_admin_only in Eg.
      destruct (_ && _); [| discriminate]. injection Eg as <-. in_list.
    + cbn [next findByPk].
      destruct (quotes db !! quote_id) as [q |] eqn:Hq;
        [| split; [in_list | by left]].
      destruct (orders db !! Quote.orderId q) as [o |] eqn:Ho;
        [| split; [in_list | by left]].
      destruct (dentist_owner_check _ u o) as [r | []] eqn:E'.
      * split; [| by left]. cbn. rewrite (dentist_owner_code _ _ _ _ E').
        in_list.
      * destruct (not_sent_nor_modified _) eqn:Hs;
          [split; [in_list | by left] |].
        rewrite reject_update, system_notice_refused.
        split; [in_list |]. right. by exists q, o.
Qed.

(** ** The derived fields of a quote *)

(** C3, on the code: the derived prices are computed on neither path. On
    the create path a new quote is refused because it has no total, and the
    hooks, run on the new record, leave the total and the adjusted price
    empty. On the update path the total and the adjusted price of the row
    are the old ones, whatever the patch. The supplier of the scenario
    raises the base price of the quote (base price 100, total 100, factor
    1.5, adjusted price 150) to 120: the request is answered with 500
    "Failed to update quote", and the row stored has the base price 120 with
    the total 100 and the adjusted price 150, so the total is no longer the
    sum of the components. *)
Theorem quote_totals_are_never_recomputed :
  (forall new_id d,
     Quote.create new_id d = None
     /\ Quote.totalPrice (Quote.save (Quote.build new_id d)) = None
     /\ Quote.adjustedPrice (Quote.save (Quote.build new_id d)) = None)
  /\ (forall p q,
        Quote.totalPrice <$> Quote.update p q
        = (if Quote.fits p then Some (Quote.totalPrice q) else None)
        /\ Quote.adjustedPrice <$> Quote.update p q
           = (if Quote.fits p then Some (Quote.adjustedPrice q) else None))
  /\ quotes sent_db !! 20 = Some (quote_row Quote.sent)
  /\ derived_fields_ok (quote_row Quote.sent)
  /\ fst (route_update_quote (TokenOf (Some supplierUser)) 20
            (base_price_change 120) 2000 sent_db)
     = mkResponse 500 "Failed to update quote"
  /\ exists q',
       quotes (snd (route_update_quote (TokenOf (Some supplierUser)) 20
                      (base_price_change 120) 2000 sent_db)) !! 20
       = Some q'
       /\ (Quote.basePrice q' == 120)%Q
       /\ (plain_sum q' == 120)%Q
       /\ Quote.totalPrice q' = Some 100%Q
       /\ Quote.adjustedPrice q' = Some 150%Q
       /\ Quote.pricingFactor q' = Some 1.5%Q
       /\ ~ derived_fields_ok q'.
Proof.
  split; [| split].
  - intros new_id d. split; [apply create_refused |].
    unfold Quote.save. by rewrite (hooks_never_fire _ (build_flags new_id d)).
  - intros p q. unfold Quote.update.
    destruct (Quote.fits p); [| done]. cbn [fmap option_fmap option_map].
    by rewrite save_set.
  - split; [reflexivity |]. split.
    { exists 100%Q, 150%Q, 1.5%Q. repeat split; vm_compute; congruence. }
    split; [reflexivity |].
    eexists. split; [vm_compute; reflexivity |].
    split; [reflexivity |]. split; [reflexivity |].
    split; [reflexivity |]. split; [reflexivity |].
    split; [reflexivity |].
    intros (t & a & f & Ht & _ & _ & Hsum & _).
    injection Ht as <-. vm_compute in Hsum. discriminate.
Qed.

(** ** Creation of a quote *)

(** C5, on the code: in scenario A the resolver returns the default rule of
    factor 1.5 and the route builds the data of the quote (base price 100,
    the other costs 0, the factor 1.5, thirty days of validity) without a
    total; the quote is refused, the route answers 500 "Failed to create
    quote" and the store is the one before the request: no quote, and the
    order still in [quote_asked]. No request to the route, whoever sends
    it, changes the store or is answered with 201. For the order in another
    status the supplier is told "Cannot create quote for order in this
    status". *)
Theorem scenario_quote_is_not_created :
  pricing_factors scenario_db = [defaultPricingFactor]
  /\ PricingFactor.factor defaultPricingFactor = 1.5%Q
  /\ orders scenario_db !! 10 = Some sampleOrder
  /\ quotes scenario_db !! 20 = None
  /\ Order.status sampleOrder = quote_asked
  /\ Order.prosthesisType sampleOrder = pt_crown
  /\ Order.material sampleOrder = om_ceramic
  /\ Order.supplierId sampleOrder = User.id supplierUser
  /\ PricingFactor.getApplicableFactor
       (PricingFactor.mkOrderData 3 pt_crown om_ceramic ou_medium 100%Q)
       1000 (pricing_factors scenario_db)
     = Returned (Some defaultPricingFactor)
  /\ quoteData sampleOrder scenario_body (Some defaultPricingFactor) 1000
     = Quote.mkData 10 3 100%Q 0%Q 0%Q 0%Q 0%Q None None None "{}" 1.5%Q
         2592001000
  /\ Quote.create 20
       (quoteData sampleOrder scenario_body (Some defaultPricingFactor) 1000)
     = None
  /\ route_create_quote (TokenOf (Some supplierUser)) scenario_body 20 1000
       scenario_db
     = (mkResponse 500 "Failed to create quote", scenario_db)
  /\ (forall c b new_id now db,
        snd (route_create_quote c b new_id now db) = db
        /\ status_code (fst (route_create_quote c b new_id now db))
           ∈ [400; 401; 403; 404; 500]%Z)
  /\ route_create_quote (TokenOf (Some supplierUser)) scenario_body 20 1000
       (store_with (order_in quote_sent))
     = (mkResponse 400 "Cannot create quote for order in this status",
        store_with (order_in quote_sent)).
Proof.
  repeat split; try reflexivity; apply create_quote_stops.
Qed.

(** ** Decisions on a quote *)

(** C4, on the code: scenario B does not go as the specification says. The
    request of scenario A is answered with 500 and stores no quote, so the
    dentist who then accepts the quote is answered with 404 "Quote not
    found" and the order stays in [quote_asked]. Where the quote of the
    scenario is a row of the table in the state [sent], the acceptance of
    the dentist writes the quote (accepted, stamped with the time and the
    dentist) and the order (validated, with the total 100, the adjusted
    price 150 and the factor 1.5), adds no notice to the conversation and is
    answered with 500 "Failed to accept quote". *)
Theorem scenario_acceptance_fails :
  snd (route_create_quote (TokenOf (Some supplierUser)) scenario_body 20
         1000 scenario_db) = scenario_db
  /\ route_accept_quote (TokenOf (Some dentistUser)) 20 2000
       (snd (route_create_quote (TokenOf (Some supplierUser)) scenario_body
               20 1000 scenario_db))
     = (mkResponse 404 "Quote not found", scenario_db)
  /\ Order.status <$> orders scenario_db !! 10 = Some quote_asked
  /\ quotes sent_db !! 20 = Some (quote_row Quote.sent)
  /\ orders sent_db !! 10 = Some (order_in quote_sent)
  /\ chat_messages sent_db = []
  /\ fst (route_accept_quote (TokenOf (Some dentistUser)) 20 3000 sent_db)
     = mkResponse 500 "Failed to accept quote"
  /\ chat_messages
       (snd (route_accept_quote (TokenOf (Some dentistUser)) 20 3000
               sent_db)) = []
  /\ (exists q',
        quotes (snd (route_accept_quote (TokenOf (Some dentistUser)) 20 3000
                       sent_db)) !! 20 = Some q'
        /\ Quote.status q' = Quote.accepted
        /\ Quote.acceptedAt q' = Some 3000%Z
        /\ Quote.acceptedBy q' = Some 2)
  /\ (exists o',
        orders (snd (route_accept_quote (TokenOf (Some dentistUser)) 20 3000
                       sent_db)) !! 10 = Some o'
        /\ Order.status o' = quote_validated
        /\ Order.originalQuote o' = Some 100%Q
        /\ Order.adjustedQuote o' = Some 150%Q
        /\ Order.pricingFactor o' = Some 1.5%Q).
Proof.
  repeat split; try reflexivity.
  - eexists. split; [vm_compute; reflexivity |]. repeat split.
  - eexists. split; [vm_compute; reflexivity |]. repeat split.
Qed.




(** ** Resolution of the pricing factor *)

Lemma first_in_order_elem {A} (before : A -> A -> bool) (l : list A) (r : A) :
  PricingFactor.first_in_order before l = Some r -> r ∈ l.
Proof.
  revert r. induction l as [| x l IH]; intros r; cbn; [done |].
  destruct (PricingFactor.first_in_order before l) as [y |].
  - destruct (before y x); intros [= <-]; [right; by apply IH | by left].
  - intros [= <-]. by left.
Qed.

Lemma findOne_elem (w : PricingFactor.t -> bool) (rows : list PricingFactor.t)
    (r : PricingFactor.t) :
  PricingFactor.findOne w rows = Some r -> r ∈ rows /\ w r = true.
Proof.
  unfold PricingFactor.findOne. intros H.
  apply first_in_order_elem in H. by apply list_elem_of_filter in H as [? ?].
Qed.

Lemma desc_before_irrefl (k : list Z) : PricingFactor.desc_before k k = false.
Proof.
  induction k as [| x k IH]; cbn; [done |]. by rewrite Z.ltb_irrefl.
Qed.

Lemma desc_before_asym (a b : list Z) :
  PricingFactor.desc_before a b = true -> PricingFactor.desc_before b a = false.
Proof.
  revert b. induction a as [| x a IH]; intros [| y b]; cbn; try done.
  destruct (Z.ltb_spec y x), (Z.ltb_spec x y); try lia; try done.
  apply IH.
Qed.

Lemma desc_before_negtrans (a b c : list Z) :
  length a = length b -> length b = length c ->
  PricingFactor.desc_before a b = false ->
  PricingFactor.desc_before b c = false ->
  PricingFactor.desc_before a c = false.
Proof.
  revert b c. induction a as [| x a IH]; intros [| y b] [| z c]; cbn;
    try done.
  intros Hab Hbc.
  destruct (Z.ltb_spec y x), (Z.ltb_spec x y), (Z.ltb_spec z y),
    (Z.ltb_spec y z), (Z.ltb_spec z x), (Z.ltb_spec x z);
    try lia; try done.
  apply IH; lia.
Qed.

(** No row of the list sorts strictly before the one [first_in_order]
    returns. *)
Lemma first_in_order_first {A} (key : A -> list Z) (n : nat) (l : list A)
    (r : A) :
  (forall x, length (key x) = n) ->
  PricingFactor.first_in_order
    (fun a b => PricingFactor.desc_before (key a) (key b)) l = Some r ->
  forall x, x ∈ l -> PricingFactor.desc_before (key x) (key r) = false.
Proof.
  intros Hn. revert r. induction l as [| y l IH]; intros r; cbn; [done |].
  destruct (PricingFactor.first_in_order _ l) as [m |] eqn:E.
  - destruct (PricingFactor.desc_before (key m) (key y)) eqn:Hm;
      intros [= <-] x Hx; apply elem_of_cons in Hx as [-> | Hx].
    + by apply desc_before_asym.
    + by apply (IH m).
    + apply desc_before_irrefl.
    + apply (desc_before_negtrans _ (key m)); rewrite ?Hn; try done.
      by apply (IH m).
  - intros [= <-] x Hx. apply elem_of_cons in Hx as [-> | Hx].
    + apply desc_before_irrefl.
    + destruct l; [by apply elem_of_nil in Hx | cbn in E].
      destruct (PricingFactor.first_in_order _ l); [destruct (_ : bool) |];
        discriminate.
Qed.

(** What the ordering of the query does: as soon as a rule with the
    wildcard category matches, the rule returned has the wildcard
    category. *)
Lemma wildcard_category_first (w : PricingFactor.t -> bool)
    (rows : list PricingFactor.t) (r g : PricingFactor.t) :
  PricingFactor.findOne w rows = Some r ->
  g ∈ rows -> w g = true ->
  PricingFactor.category g = PricingFactor.general_category ->
  PricingFactor.category r = PricingFactor.general_category.
Proof.
  unfold PricingFactor.findOne. intros Hr Hg Hw Hc.
  assert (Hb : PricingFactor.desc_before (PricingFactor.sort_key g)
                 (PricingFactor.sort_key r) = false).
  { apply (first_in_order_first PricingFactor.sort_key 4
               (filter (fun x => w x = true) rows) r);
      [done | exact Hr |].
    apply list_elem_of_filter. by split. }
  unfold PricingFactor.sort_key in Hb. cbn in Hb. rewrite Hc in Hb.
  destruct (PricingFactor.category r); cbn in Hb; try discriminate.
  reflexivity.
Qed.

(** Without a matching rule of the supplier the search falls back on the
    default rules, and without any rule the quote gets the factor 1. *)
Lemma fallback_on_defaults (d : PricingFactor.orderData) (now : Z)
    (rows : list PricingFactor.t) :
  PricingFactor.comparable d = true ->
  (forall r, r ∈ rows -> PricingFactor.supplier_where d now r = false) ->
  PricingFactor.getApplicableFactor d now rows
  = Returned (PricingFactor.findOne (PricingFactor.default_where d now) rows).
Proof.
  intros Hc Hno. unfold PricingFactor.getApplicableFactor. rewrite Hc.
  f_equal. unfold PricingFactor.search.
  destruct (PricingFactor.findOne (PricingFactor.supplier_where d now) rows)
    as [r |] eqn:E; [| done].
  apply findOne_elem in E as [Hr Hw]. by rewrite (Hno r Hr) in Hw.
Qed.

Lemma no_rule_no_markup (o : Order.t) (b : CreateQuoteBody) (now : Z) :
  Quote.d_pricingFactor (quoteData o b None now) = 1%Q.
Proof. reflexivity. Qed.

(** A text collation would order the two labels of the example the same
    way as the ENUM declaration does: "crown" comes before "general". *)
Lemma crown_label_below_general :
  String.compare (PricingFactor.category_label PricingFactor.crown)
    (PricingFactor.category_label PricingFactor.general_category) = Lt
  /\ (PricingFactor.category_index PricingFactor.crown
      < PricingFactor.category_index PricingFactor.general_category)%Z.
Proof. split; reflexivity. Qed.

(** C1, on a crown order of the laboratory: a crown rule and a wildcard
    rule of that laboratory both match, and the resolver returns the
    wildcard rule, whichever of the two was created last and whichever
    comes first in the table. *)
Theorem wildcard_rule_beats_crown_rule :
  PricingFactor.supplier_where crownOrderData 50 (crownRule 10) = true
  /\ PricingFactor.supplier_where crownOrderData 50 (generalRule 20) = true
  /\ PricingFactor.getApplicableFactor crownOrderData 50
       [crownRule 10; generalRule 20] = Returned (Some (generalRule 20))
  /\ PricingFactor.getApplicableFactor crownOrderData 50
       [generalRule 20; crownRule 10] = Returned (Some (generalRule 20))
  /\ PricingFactor.getApplicableFactor crownOrderData 50
       [crownRule 30; generalRule 20] = Returned (Some (generalRule 20))
  /\ PricingFactor.factor (generalRule 20) = 1.2%Q
  /\ PricingFactor.factor (crownRule 10) = 1.6%Q.
Proof. repeat split; vm_compute; reflexivity. Qed.


(** * Further properties *)

(** ** The resolver, in general *)

Lemma resolved_where (d : PricingFactor.orderData) (now : Z)
    (rows : list PricingFactor.t) (r : PricingFactor.t) :
  PricingFactor.getApplicableFactor d now rows = Returned (Some r) ->
  r ∈ rows
  /\ PricingFactor.common_where d now r = true
  /\ (PricingFactor.supplierId r = Some (PricingFactor.od_supplierId d)
      \/ PricingFactor.isDefault r = true).
Proof.
  unfold PricingFactor.getApplicableFactor.
  destruct (PricingFactor.comparable d); [| discriminate].
  intros [= H]. unfold PricingFactor.search in H.
  destruct (PricingFactor.findOne (PricingFactor.supplier_where d now) rows)
    as [f |] eqn:E.
  - injection H as ->. apply findOne_elem in E as [Hin E].
    unfold PricingFactor.supplier_where in E.
    apply andb_true_iff in E as [E1 E2].
    apply bool_decide_eq_true in E1. by split; [| split; [| left]].
  - apply findOne_elem in H as [Hin H].
    unfold PricingFactor.default_where in H.
    apply andb_true_iff in H as [H1 H2]. by split; [| split; [| right]].
Qed.

(** X1: a rule that [getApplicableFactor] returns is a row of the table
    that is active, in force at the time of the query, scoped to the
    category, material and urgency of the order or to "general", with the
    order value inside its bounds, and it belongs to the supplier of the
    order or is a default rule. *)
Theorem resolved_rule_applies (d : PricingFactor.orderData) (now : Z)
    (rows : list PricingFactor.t) (r : PricingFactor.t) :
  PricingFactor.getApplicableFactor d now rows = Returned (Some r) ->
  r ∈ rows
  /\ PricingFactor.isActive r = true
  /\ (PricingFactor.validFrom r <= now)%Z
  /\ (forall u, PricingFactor.validUntil r = Some u -> (now <= u)%Z)
  /\ (PricingFactor.category_label (PricingFactor.category r)
      = prosthesis_label (PricingFactor.od_category d)
      \/ PricingFactor.category r = PricingFactor.general_category)
  /\ (PricingFactor.material_label (PricingFactor.material r)
      = order_material_label (PricingFactor.od_material d)
      \/ PricingFactor.material r = PricingFactor.general_material)
  /\ (PricingFactor.urgency_label (PricingFactor.urgency r)
      = order_urgency_label (PricingFactor.od_urgency d)
      \/ PricingFactor.urgency r = PricingFactor.general_urgency)
  /\ (forall m, PricingFactor.minOrderValue r = Some m ->
                (m <= PricingFactor.od_orderValue d)%Q)
  /\ (forall m, PricingFactor.maxOrderValue r = Some m ->
                (PricingFactor.od_orderValue d <= m)%Q)
  /\ (PricingFactor.supplierId r = Some (PricingFactor.od_supplierId d)
      \/ PricingFactor.isDefault r = true).
Proof.
  intros H. apply resolved_where in H as (Hin & Hw & Hscope).
  unfold PricingFactor.common_where in Hw.
  repeat (apply andb_true_iff in Hw as [Hw ?]).
  split; [exact Hin |]. split; [exact Hw |].
  split; [by apply Z.leb_le |].
  split.
  { intros u Hu. rewrite Hu in *. by apply Z.leb_le. }
  assert (Hlab : forall l v,
             PricingFactor.label_in l [v; "general"] = true ->
             l = v \/ l = "general").
  { intros l v Hl. unfold PricingFactor.label_in in Hl.
    apply bool_decide_eq_true in Hl. set_solver. }
  split.
  { match goal with
    | Hc : PricingFactor.label_in (PricingFactor.category_label _) _ = true
      |- _ => apply Hlab in Hc as [Hc | Hc]; [by left | right]
    end.
    destruct (PricingFactor.category r); cbn in *; congruence. }
  split.
  { match goal with
    | Hc : PricingFactor.label_in (PricingFactor.material_label _) _ = true
      |- _ => apply Hlab in Hc as [Hc | Hc]; [by left | right]
    end.
    destruct (PricingFactor.material r); cbn in *; congruence. }
  split.
  { match goal with
    | Hc : PricingFactor.label_in (PricingFactor.urgency_label _) _ = true
      |- _ => apply Hlab in Hc as [Hc | Hc]; [by left | right]
    end.
    destruct (PricingFactor.urgency r); cbn in *; congruence. }
  split.
  { intros m Hm. rewrite Hm in *. by apply Qle_bool_iff. }
  split; [| exact Hscope].
  intros m Hm. rewrite Hm in *. by apply Qle_bool_iff.
Qed.

(** The default rule of the script, resolved for the order of the
    scenario. *)
Lemma resolved_rule_applies_witness :
  PricingFactor.isActive defaultPricingFactor = true
  /\ (PricingFactor.validFrom defaultPricingFactor <= 1000)%Z.
Proof.
  destruct (resolved_rule_applies
              (PricingFactor.mkOrderData 3 pt_crown om_ceramic ou_medium 100%Q)
              1000 [defaultPricingFactor] defaultPricingFactor)
    as (_ & Ha & Hf & _); [vm_compute; reflexivity |].
  split; assumption.
Defined.

Lemma first_in_order_none {A} (before : A -> A -> bool) (l : list A) :
  PricingFactor.first_in_order before l = None <-> l = [].
Proof.
  destruct l as [| x l]; cbn; [done |]. split; [| done].
  destruct (PricingFactor.first_in_order before l);
    [destruct (before _ x) |]; discriminate.
Qed.

Lemma findOne_none (w : PricingFactor.t -> bool)
    (rows : list PricingFactor.t) :
  PricingFactor.findOne w rows = None <->
  forall r, r ∈ rows -> w r = false.
Proof.
  unfold PricingFactor.findOne. rewrite first_in_order_none. split.
  - intros He r Hr. destruct (w r) eqn:E; [| done].
    assert (Hf : r ∈ filter (fun x => w x = true) rows)
      by (by apply list_elem_of_filter).
    rewrite He in Hf. by apply elem_of_nil in Hf.
  - intros Hno. destruct (filter _ rows) as [| x l] eqn:E; [done |].
    assert (Hx : x ∈ filter (fun x => w x = true) rows)
      by (rewrite E; by left).
    apply list_elem_of_filter in Hx as [Hw Hx]. by rewrite (Hno x Hx) in Hw.
Qed.

(** X2: when the resolver finds no rule and when it fails. The call
    returns without a rule exactly when the store can compare the labels of
    the order with the scopes of the rules and no row of the table passes
    the search of the supplier or the search of the default rules; it throws
    exactly when the store cannot compare them, which is when the order is
    of the prosthesis type "other" or of the material "other". *)
Theorem no_rule_iff_nothing_matches (d : PricingFactor.orderData) (now : Z)
    (rows : list PricingFactor.t) :
  (PricingFactor.getApplicableFactor d now rows = Returned None <->
   PricingFactor.comparable d = true
   /\ forall r, r ∈ rows ->
                PricingFactor.supplier_where d now r = false
                /\ PricingFactor.default_where d now r = false)
  /\ (PricingFactor.getApplicableFactor d now rows = Thrown <->
      PricingFactor.comparable d = false)
  /\ (PricingFactor.comparable d = false <->
      PricingFactor.od_category d = pt_other
      \/ PricingFactor.od_material d = om_other).
Proof.
  unfold PricingFactor.getApplicableFactor. split; [| split].
  - destruct (PricingFactor.comparable d); [| split; [done | by intros []]].
    unfold PricingFactor.search. split.
    + intros [= H].
      destruct (PricingFactor.findOne (PricingFactor.supplier_where d now)
                  rows) eqn:E; [discriminate |].
      split; [done |]. intros r Hr. split.
      * by apply (proj1 (findOne_none _ rows) E).
      * by apply (proj1 (findOne_none _ rows) H).
    + intros [_ Hno].
      assert (E : PricingFactor.findOne (PricingFactor.supplier_where d now)
                    rows = None)
        by (apply findOne_none; intros r Hr; by apply Hno).
      rewrite E. f_equal. apply findOne_none. intros r Hr. by apply Hno.
  - by destruct (PricingFactor.comparable d).
  - destruct d as [sup c m u v]. unfold PricingFactor.comparable.
    cbn [PricingFactor.od_category PricingFactor.od_material
         PricingFactor.od_urgency].
    destruct c, m, u; vm_compute; split; intros H; try done;
      try (by left); try (by right); by destruct H.
Qed.

(** A table that holds one rule of the supplier 3 has nothing for an order of
    the supplier 4. *)
Lemma no_rule_iff_nothing_matches_witness :
  PricingFactor.getApplicableFactor
    (PricingFactor.mkOrderData 4 pt_crown om_ceramic ou_medium 100%Q) 50
    [crownRule 10] = Returned None.
Proof.
  apply (proj2 (proj1 (no_rule_iff_nothing_matches
                         (PricingFactor.mkOrderData 4 pt_crown om_ceramic
                            ou_medium 100%Q) 50 [crownRule 10]))).
  split; [reflexivity |].
  intros r Hr. apply list_elem_of_singleton in Hr as ->.
  split; vm_compute; reflexivity.
Defined.

(** X3: for an order whose labels the store can compare with the scopes
    of the rules, as soon as one rule of the supplier matches the order, the
    rule returned is a rule of that supplier that matches the order: a
    default rule is never preferred to it, however specific or recent. *)
Theorem supplier_rule_has_precedence (d : PricingFactor.orderData) (now : Z)
    (rows : list PricingFactor.t) (g : PricingFactor.t) :
  PricingFactor.comparable d = true ->
  g ∈ rows -> PricingFactor.supplier_where d now g = true ->
  exists r,
    PricingFactor.getApplicableFactor d now rows = Returned (Some r)
    /\ r ∈ rows
    /\ PricingFactor.supplier_where d now r = true
    /\ PricingFactor.supplierId r = Some (PricingFactor.od_supplierId d).
Proof.
  intros Hc Hg Hw. unfold PricingFactor.getApplicableFactor. rewrite Hc.
  unfold PricingFactor.search.
  destruct (PricingFactor.findOne (PricingFactor.supplier_where d now) rows)
    as [r |] eqn:E.
  - exists r. split; [reflexivity |].
    apply findOne_elem in E as [Hin E]. split; [exact Hin |].
    split; [exact E |].
    unfold PricingFactor.supplier_where in E.
    apply andb_true_iff in E as [E _]. by apply bool_decide_eq_true in E.
  - rewrite findOne_none in E. by rewrite (E g Hg) in Hw.
Qed.

(** A later and more specific default rule does not take over from the
    rule of the laboratory. *)
Lemma supplier_rule_has_precedence_witness :
  exists r,
    PricingFactor.getApplicableFactor crownOrderData 50
      [generalRule 10; defaultPricingFactor] = Returned (Some r)
    /\ r ∈ [generalRule 10; defaultPricingFactor]
    /\ PricingFactor.supplier_where crownOrderData 50 r = true
    /\ PricingFactor.supplierId r = Some 3.
Proof.
  apply (supplier_rule_has_precedence crownOrderData 50
           [generalRule 10; defaultPricingFactor] (generalRule 10)).
  - reflexivity.
  - by left.
  - vm_compute. reflexivity.
Defined.

Lemma desc_before_key4 (a1 a2 a3 a4 b1 b2 b3 b4 : Z) :
  PricingFactor.desc_before [a1; a2; a3; a4] [b1; b2; b3; b4] = false ->
  (a1 <= b1)%Z
  /\ (a1 = b1 -> a2 <= b2)%Z
  /\ (a1 = b1 -> a2 = b2 -> a3 <= b3)%Z
  /\ (a1 = b1 -> a2 = b2 -> a3 = b3 -> a4 <= b4)%Z.
Proof.
  cbn.
  destruct (Z.ltb_spec b1 a1), (Z.ltb_spec a1 b1); try discriminate;
    try (intros _; repeat split; lia).
  destruct (Z.ltb_spec b2 a2), (Z.ltb_spec a2 b2); try discriminate;
    try (intros _; repeat split; lia).
  destruct (Z.ltb_spec b3 a3), (Z.ltb_spec a3 b3); try discriminate;
    try (intros _; repeat split; lia).
  destruct (Z.ltb_spec b4 a4), (Z.ltb_spec a4 b4); try discriminate;
    intros _; repeat split; lia.
Qed.

(** X4: among the rows that pass a search, the one [findOne] returns is a
    first one in the order of the query: no other candidate has a later
    label of the category ENUM; among those with its category none has a
    later label of the material ENUM; then the same for the urgency; and
    among the candidates with the same three scopes it is a most recently
    created one. *)
Theorem findOne_takes_first_in_order (w : PricingFactor.t -> bool)
    (rows : list PricingFactor.t) (r g : PricingFactor.t) :
  PricingFactor.findOne w rows = Some r ->
  g ∈ rows -> w g = true ->
  (PricingFactor.category_index (PricingFactor.category g)
   <= PricingFactor.category_index (PricingFactor.category r))%Z
  /\ (PricingFactor.category g = PricingFactor.category r ->
      (PricingFactor.material_index (PricingFactor.material g)
       <= PricingFactor.material_index (PricingFactor.material r))%Z)
  /\ (PricingFactor.category g = PricingFactor.category r ->
      PricingFactor.material g = PricingFactor.material r ->
      (PricingFactor.urgency_index (PricingFactor.urgency g)
       <= PricingFactor.urgency_index (PricingFactor.urgency r))%Z)
  /\ (PricingFactor.category g = PricingFactor.category r ->
      PricingFactor.material g = PricingFactor.material r ->
      PricingFactor.urgency g = PricingFactor.urgency r ->
      (PricingFactor.createdAt g <= PricingFactor.createdAt r)%Z).
Proof.
  unfold PricingFactor.findOne. intros Hr Hg Hw.
  assert (Hb : PricingFactor.desc_before (PricingFactor.sort_key g)
                 (PricingFactor.sort_key r) = false).
  { apply (first_in_order_first PricingFactor.sort_key 4
             (filter (fun x => w x = true) rows) r);
      [done | exact Hr |].
    apply list_elem_of_filter. by split. }
  apply desc_before_key4 in Hb as (H1 & H2 & H3 & H4).
  split; [exact H1 |].
  split; [intros Ec; apply H2; by rewrite Ec |].
  split; [intros Ec Em; apply H3; by rewrite ?Ec, ?Em |].
  intros Ec Em Eu. apply H4; by rewrite ?Ec, ?Em, ?Eu.
Qed.

(** Of two wildcard rules of the laboratory, the later one is taken. *)
Lemma findOne_takes_first_in_order_witness :
  (PricingFactor.createdAt (generalRule 10)
   <= PricingFactor.createdAt (generalRule 20))%Z.
Proof.
  destruct (findOne_takes_first_in_order
              (PricingFactor.supplier_where crownOrderData 50)
              [generalRule 10; generalRule 20] (generalRule 20)
              (generalRule 10)) as (_ & _ & _ & Hrecent).
  - vm_compute. reflexivity.
  - by left.
  - vm_compute. reflexivity.
  - apply Hrecent; reflexivity.
Defined.

(** X5: a rule that names no supplier and is not flagged as default is
    never returned, for any order, at any time and in any table: neither
    search can select it. *)
Theorem unscoped_rule_is_never_applied (d : PricingFactor.orderData)
    (now : Z) (rows : list PricingFactor.t) (r : PricingFactor.t) :
  PricingFactor.supplierId r = None -> PricingFactor.isDefault r = false ->
  PricingFactor.getApplicableFactor d now rows <> Returned (Some r).
Proof.
  intros Hs Hd H. apply resolved_where in H as (_ & _ & [H | H]); congruence.
Qed.

(** The crown rule of the initialisation script has neither. *)
Lemma unscoped_rule_is_never_applied_witness :
  PricingFactor.getApplicableFactor crownOrderData 50
    [PricingFactor.mk 2 None false 1.6%Q "Crown Pricing Factor"
       (Some "Pricing factor for crown prostheses") 0 None
       PricingFactor.crown PricingFactor.general_material
       PricingFactor.general_urgency None None true 1 0;
     defaultPricingFactor]
  <> Returned
       (Some (PricingFactor.mk 2 None false 1.6%Q "Crown Pricing Factor"
                (Some "Pricing factor for crown prostheses") 0 None
                PricingFactor.crown PricingFactor.general_material
                PricingFactor.general_urgency None None true 1 0)).
Proof.
  apply unscoped_rule_is_never_applied; reflexivity.
Defined.

(** ** Who gets through *)

(** X6: a request whose credential [authenticateToken] turns away (no
    token, a bad or expired token, an unknown or deactivated user) is
    answered 401 by every route and leaves the store as it was. *)
Theorem unauthenticated_requests_change_nothing (a : Action) (now : Z)
    (db : DB) (r : Response) :
  authenticateToken (credential_of a) = inl r ->
  perform a now db = (r, db) /\ status_code r = 401%Z.
Proof.
  intros H. split.
  - destruct a; cbn in *;
      unfold route_update_order_status, route_update_order_details,
        route_create_quote, route_update_quote, route_accept_quote,
        route_reject_quote, route_mark_read;
      by rewrite H.
  - destruct (credential_of a) as [| | | [u |]]; cbn in H;
      try (by injection H as <-).
    destruct (User.isActive u); [discriminate |]. by injection H as <-.
Qed.

(** A supplier whose account was deactivated tries to send the quote of the
    scenario. *)
Lemma unauthenticated_requests_change_nothing_witness :
  perform (CreateQuote (TokenOf (Some (deactivate supplierUser)))
             scenario_body 20) 1000 scenario_db
  = (mkResponse 401 "Invalid or inactive user", scenario_db).
Proof.
  apply (unauthenticated_requests_change_nothing
           (CreateQuote (TokenOf (Some (deactivate supplierUser)))
              scenario_body 20)).
  reflexivity.
Defined.

(** X7: the two sides of a quote are kept apart by role: an active dentist
    is answered 403 on creating and on revising a quote, an active supplier
    is answered 403 on accepting and on rejecting one, whatever the quote
    and the store, and nothing is written. *)
Theorem quote_routes_separate_roles (u : User.t) (now : Z) (db : DB) :
  User.isActive u = true ->
  (User.role u = dentist ->
   (forall b new_id,
      route_create_quote (TokenOf (Some u)) b new_id now db
      = (mkResponse 403 "Access denied. Required role: supplier or admin",
         db))
   /\ (forall quote_id b,
         route_update_quote (TokenOf (Some u)) quote_id b now db
         = (mkResponse 403 "Access denied. Required role: supplier or admin",
            db)))
  /\ (User.role u = supplier ->
      (forall quote_id,
         route_accept_quote (TokenOf (Some u)) quote_id now db
         = (mkResponse 403 "Only dentists can accept quotes", db))
      /\ (forall quote_id reason,
            route_reject_quote (TokenOf (Some u)) quote_id reason now db
            = (mkResponse 403 "Only dentists can reject quotes", db))).
Proof.
  intros Hact.
  split; intros Hr; split; intros;
    unfold route_create_quote, route_update_quote, route_accept_quote,
      route_reject_quote, requireSupplierOrAdmin, requireRole,
      dentist_or_admin_only;
    cbn [authenticateToken]; rewrite Hact; cbn [mw_bind next];
    rewrite Hr; reflexivity.
Qed.

(** The dentist of the scenario tries to revise the quote; its supplier
    tries to accept it. *)
Lemma quote_routes_separate_roles_witness :
  route_update_quote (TokenOf (Some dentistUser)) 20 no_quote_change 2000
    quoted_db
  = (mkResponse 403 "Access denied. Required role: supplier or admin",
     quoted_db)
  /\ route_accept_quote (TokenOf (Some supplierUser)) 20 2000 quoted_db
     = (mkResponse 403 "Only dentists can accept quotes", quoted_db).
Proof.
  split.
  - apply (quote_routes_separate_roles dentistUser 2000 quoted_db);
      reflexivity.
  - apply (quote_routes_separate_roles supplierUser 2000 quoted_db);
      reflexivity.
Defined.

(** ** The life of a quote *)

Lemma refusal_not_success (r : Response) :
  status_code r ∈ [400; 401; 403; 404; 500]%Z -> ~ succeeded r.
Proof.
  intros Hin [H | H]; rewrite H in Hin; revert Hin;
    apply (bool_decide_eq_false_1 _); reflexivity.
Qed.

(** What a request of a user can write into the table of quotes: nothing,
    or a new version of a stored row under its own key. *)
Lemma perform_quote_writes (a : Action) (now : Z) (db : DB) :
  quotes (snd (perform a now db)) = quotes db
  \/ (exists i q0 p q',
        quotes db !! i = Some q0
        /\ Quote.update p q0 = Some q'
        /\ quotes (snd (perform a now db))
           = <[Quote.id q0 := q']> (quotes db)).
Proof.
  destruct a as [c i b | c i b | c b new_id | c i b | c i | c i reason | c i];
    cbn [perform].
  - left. by rewrite (proj1 (status_route_stops c i b now db)).
  - left. by rewrite (proj1 (details_route_stops c i b db)).
  - left. by rewrite (proj1 (create_quote_stops c b new_id now db)).
  - destruct (update_quote_cases c i b now db)
      as [_ [-> | (q & q' & Hq & _ & Hu & ->)]]; [by left |].
    right. exists i, q, (quote_updateData q b), q'.
    destruct (update_keeps_totals _ _ _ Hu) as (_ & _ & _ & Hid & _).
    cbn. by rewrite Hid.
  - destruct (accept_quote_cases c i now db)
      as [_ [-> | (u & q & o & _ & Hq & _ & _ & ->)]]; [by left |].
    right. exists i, q, (accept_patch u now). eexists.
    split; [exact Hq |]. split; [apply accept_update |]. reflexivity.
  - destruct (reject_quote_cases c i reason now db)
      as [_ [-> | (q & o & Hq & _ & _ & ->)]]; [by left |].
    right. exists i, q, (reject_patch reason). eexists.
    split; [exact Hq |]. split; [apply reject_update |]. reflexivity.
  - left. unfold route_mark_read. repeat case_match; reflexivity.
Qed.

Lemma perform_factors (a : Action) (now : Z) (db : DB) :
  pricing_factors (snd (perform a now db)) = pricing_factors db.
Proof.
  destruct a as [c i b | c i b | c b new_id | c i b | c i | c i reason | c i];
    cbn [perform].
  - by rewrite (proj1 (status_route_stops c i b now db)).
  - by rewrite (proj1 (details_route_stops c i b db)).
  - by rewrite (proj1 (create_quote_stops c b new_id now db)).
  - by destruct (update_quote_cases c i b now db)
      as [_ [-> | (q & q' & _ & _ & _ & ->)]].
  - by destruct (accept_quote_cases c i now db)
      as [_ [-> | (u & q & o & _ & _ & _ & _ & ->)]].
  - by destruct (reject_quote_cases c i reason now db)
      as [_ [-> | (q & o & _ & _ & _ & ->)]].
  - unfold route_mark_read. repeat case_match; reflexivity.
Qed.

Lemma quote_request_messages (a : Action) (now : Z) (db : DB) :
  quote_action a = true ->
  chat_messages (snd (perform a now db)) = chat_messages db.
Proof.
  intros Ha. destruct a as [| | c b i | c i b | c i | c i r |];
    try discriminate Ha; cbn [perform].
  - by rewrite (proj1 (create_quote_stops c b i now db)).
  - by destruct (update_quote_cases c i b now db)
      as [_ [-> | (q & q' & _ & _ & _ & ->)]].
  - by destruct (accept_quote_cases c i now db)
      as [_ [-> | (u & q & o & _ & _ & _ & _ & ->)]].
  - by destruct (reject_quote_cases c i r now db)
      as [_ [-> | (q & o & _ & _ & _ & ->)]].
Qed.

(** X9: no request that creates, revises, accepts or rejects a quote
    succeeds: each is answered with 400, 401, 403, 404 or 500, and none adds
    a message to the conversation or touches the pricing rules. A request
    to create a quote never changes the store. A request to revise, accept
    or reject one that is answered with anything but 500 leaves the whole
    store as it was. *)
Theorem quote_requests_never_succeed (a : Action) (now : Z) (db : DB) :
  quote_action a = true ->
  status_code (fst (perform a now db)) ∈ [400; 401; 403; 404; 500]%Z
  /\ ~ succeeded (fst (perform a now db))
  /\ chat_messages (snd (perform a now db)) = chat_messages db
  /\ pricing_factors (snd (perform a now db)) = pricing_factors db
  /\ (status_code (fst (perform a now db)) <> 500%Z ->
      snd (perform a now db) = db)
  /\ (forall c b new_id,
        a = CreateQuote c b new_id -> snd (perform a now db) = db).
Proof.
  intros Ha.
  assert (Hcode : status_code (fst (perform a now db))
                  ∈ [400; 401; 403; 404; 500]%Z).
  { destruct a as [| | c b i | c i b | c i | c i r |];
      try discriminate Ha; cbn [perform].
    - apply create_quote_stops.
    - apply update_quote_cases.
    - apply accept_quote_cases.
    - apply reject_quote_cases. }
  split; [exact Hcode |]. split; [by apply refusal_not_success |].
  split; [by apply quote_request_messages |].
  split; [apply perform_factors |]. split.
  - destruct a as [| | c b i | c i b | c i | c i r |];
      try discriminate Ha; cbn [perform].
    + intros _. apply create_quote_stops.
    + destruct (update_quote_cases c i b now db)
        as [_ [-> | (q & q' & _ & _ & _ & ->)]]; [done |].
      cbn. intros H. by destruct H.
    + destruct (accept_quote_cases c i now db)
        as [_ [-> | (u & q & o & _ & _ & _ & _ & ->)]]; [done |].
      cbn. intros H. by destruct H.
    + destruct (reject_quote_cases c i r now db)
        as [_ [-> | (q & o & _ & _ & _ & ->)]]; [done |].
      cbn. intros H. by destruct H.
  - intros c b new_id ->. cbn [perform]. apply create_quote_stops.
Qed.

(** The dentist of the scenario accepts the draft: 400, and nothing has
    changed. *)
Lemma quote_requests_never_succeed_witness :
  ~ succeeded
      (fst (route_accept_quote (TokenOf (Some dentistUser)) 20 1500
              quoted_db))
  /\ snd (route_accept_quote (TokenOf (Some dentistUser)) 20 1500 quoted_db)
     = quoted_db.
Proof.
  destruct (quote_requests_never_succeed
              (AcceptQuote (TokenOf (Some dentistUser)) 20) 1500 quoted_db
              eq_refl)
    as (_ & Hno & _ & _ & Hsame & _).
  split; [exact Hno |]. apply Hsame. vm_compute. discriminate.
Defined.

(** A quote that is neither sent nor modified: nobody gets it accepted or
    rejected. *)
Lemma undecidable_quote (c : Credential) (quote_id : Id) (now : Z)
    (reason : option string) (db : DB) (q : Quote.t) :
  quotes db !! quote_id = Some q ->
  not_sent_nor_modified (Quote.status q) = true ->
  snd (route_accept_quote c quote_id now db) = db
  /\ snd (route_reject_quote c quote_id reason now db) = db.
Proof.
  intros Hq Hs. split.
  - destruct (accept_quote_cases c quote_id now db)
      as [_ [H | (u & q' & o & _ & Hq' & _ & Hs' & _)]]; [done |].
    rewrite Hq in Hq'. injection Hq' as <-. by rewrite Hs in Hs'.
  - destruct (reject_quote_cases c quote_id reason now db)
      as [_ [H | (q' & o & Hq' & _ & Hs' & _)]]; [done |].
    rewrite Hq in Hq'. injection Hq' as <-. by rewrite Hs in Hs'.
Qed.

(** X10: an accepted quote is final: whoever asks, revising it, accepting
    it again or rejecting it does not succeed and changes nothing, and its
    supplier is told "Cannot update accepted quote". *)
Theorem accepted_quote_is_final (quote_id : Id) (now : Z) (db : DB)
    (q : Quote.t) :
  quotes db !! quote_id = Some q -> Quote.status q = Quote.accepted ->
  (forall c b,
     snd (route_update_quote c quote_id b now db) = db
     /\ ~ succeeded (fst (route_update_quote c quote_id b now db)))
  /\ (forall c,
        snd (route_accept_quote c quote_id now db) = db
        /\ ~ succeeded (fst (route_accept_quote c quote_id now db)))
  /\ (forall c reason,
        snd (route_reject_quote c quote_id reason now db) = db
        /\ ~ succeeded (fst (route_reject_quote c quote_id reason now db)))
  /\ (forall u b,
        User.isActive u = true -> User.role u = supplier ->
        Quote.supplierId q = User.id u ->
        route_update_quote (TokenOf (Some u)) quote_id b now db
        = (mkResponse 400 "Cannot update accepted quote", db)).
Proof.
  intros Hq Hs.
  assert (Hgate : not_sent_nor_modified (Quote.status q) = true)
    by (by rewrite Hs).
  split; [| split; [| split]].
  - intros c b.
    destruct (update_quote_cases c quote_id b now db)
      as [Hcode [H | (q' & q1 & Hq' & Hna & _)]].
    + split; [exact H | by apply refusal_not_success].
    + rewrite Hq in Hq'. injection Hq' as <-. by destruct Hna.
  - intros c. split.
    + apply (undecidable_quote c quote_id now None db q Hq Hgate).
    + apply refusal_not_success, accept_quote_cases.
  - intros c reason. split.
    + apply (undecidable_quote c quote_id now reason db q Hq Hgate).
    + apply refusal_not_success, reject_quote_cases.
  - intros u b Hact Hrole Hown. unfold route_update_quote.
    rewrite (supplier_gate_passes u Hact (or_intror Hrole)).
    cbn [findByPk next]. rewrite Hq. unfold supplier_owner_check.
    rewrite Hown, (bool_decide_eq_true_2 (User.id u = User.id u) eq_refl).
    rewrite andb_false_r, Hs. reflexivity.
Qed.

(** The quote of the scenario, once the acceptance has been written. *)
Lemma accepted_quote_is_final_witness :
  route_update_quote (TokenOf (Some supplierUser)) 20 no_quote_change 4000
    accepted_db
  = (mkResponse 400 "Cannot update accepted quote", accepted_db).
Proof.
  edestruct (accepted_quote_is_final 20 4000 accepted_db)
    as (_ & _ & _ & Hsupplier);
    [vm_compute; reflexivity | reflexivity |].
  apply Hsupplier; reflexivity.
Defined.

(** X11: a revision is written and then answered as a failure. When the
    supplier of a quote that is not accepted, or an administrator, revises
    it, the request is answered with 500 "Failed to update quote", whether
    or not the row was written. With numbers that fit their columns the row
    is written: its revision number is one more and it is [modified]; each
    price component that the body gives is stored rounded to two decimals
    and the others are the old ones; the total and the adjusted price are
    the old ones, as are the order, the supplier, the factor and the
    validity date of the quote; the other quotes, the orders, the
    conversation and the pricing rules stay as they were. With a number
    that does not fit, the store stays as it was. *)
Theorem revision_is_written_then_fails (u : User.t) (quote_id : Id)
    (b : UpdateQuoteBody) (now : Z) (db : DB) (q : Quote.t) :
  may_revise u q ->
  quotes db !! quote_id = Some q ->
  Quote.id q = quote_id ->
  Quote.status q <> Quote.accepted ->
  fst (route_update_quote (TokenOf (Some u)) quote_id b now db)
  = mkResponse 500 "Failed to update quote"
  /\ orders (snd (route_update_quote (TokenOf (Some u)) quote_id b now db))
     = orders db
  /\ chat_messages
       (snd (route_update_quote (TokenOf (Some u)) quote_id b now db))
     = chat_messages db
  /\ pricing_factors
       (snd (route_update_quote (TokenOf (Some u)) quote_id b now db))
     = pricing_factors db
  /\ (forall k, k <> quote_id ->
        quotes (snd (route_update_quote (TokenOf (Some u)) quote_id b now
                       db)) !! k
        = quotes db !! k)
  /\ (Quote.fits (quote_updateData q b) = false ->
      snd (route_update_quote (TokenOf (Some u)) quote_id b now db) = db)
  /\ (Quote.fits (quote_updateData q b) = true ->
      exists q',
        quotes (snd (route_update_quote (TokenOf (Some u)) quote_id b now
                       db)) !! quote_id = Some q'
        /\ Quote.revisionNumber q' = (Quote.revisionNumber q + 1)%Z
        /\ Quote.status q' = Quote.modified
        /\ Quote.basePrice q'
           = match uq_basePrice b with
             | Some v => round2 v
             | None => Quote.basePrice q
             end
        /\ Quote.materialCost q'
           = match uq_materialCost b with
             | Some v => Some (round2 v)
             | None => Quote.materialCost q
             end
        /\ Quote.laborCost q'
           = match uq_laborCost b with
             | Some v => Some (round2 v)
             | None => Quote.laborCost q
             end
        /\ Quote.shippingCost q'
           = match uq_shippingCost b with
             | Some v => Some (round2 v)
             | None => Quote.shippingCost q
             end
        /\ Quote.taxAmount q'
           = match uq_taxAmount b with
             | Some v => Some (round2 v)
             | None => Quote.taxAmount q
             end
        /\ Quote.totalPrice q' = Quote.totalPrice q
        /\ Quote.adjustedPrice q' = Quote.adjustedPrice q
        /\ Quote.orderId q' = Quote.orderId q
        /\ Quote.supplierId q' = Quote.supplierId q
        /\ Quote.pricingFactor q' = Quote.pricingFactor q
        /\ Quote.validUntil q' = Quote.validUntil q).
Proof.
  intros Hu Hq Hid Hna.
  rewrite (update_quote_written u quote_id b now db q Hu Hq Hna).
  cbn [fst snd]. split; [done |].
  unfold Quote.update. rewrite save_set.
  destruct (Quote.fits (quote_updateData q b)) eqn:Hfits; cbn [save_quote].
  - cbn [orders chat_messages pricing_factors quotes Quote.persist Quote.id].
    split; [done |]. split; [done |]. split; [done |].
    split.
    { intros k Hk. cbn. rewrite lookup_insert_ne; [done |]. congruence. }
    split; [discriminate |]. intros _. eexists. split.
    { cbn. rewrite Hid. apply lookup_insert_eq. }
    cbn. destruct b as [bp mc lc sc ta pt st nt sp]; cbn.
    destruct bp, mc, lc, sc, ta; cbn;
      destruct (Quote.materialCost q), (Quote.laborCost q),
        (Quote.shippingCost q), (Quote.taxAmount q); cbn; repeat split.
  - repeat (split; [done |]). discriminate.
Qed.

(** The supplier of the scenario raises the base price of the draft to
    100.005: the row holds 100.01, with the total 100 and the adjusted price
    150 it had. A base price of 100000000, or a production time of
    2147483648 days, fits no column: the store stays as it was. *)
Lemma revision_is_written_then_fails_witness :
  fst (route_update_quote (TokenOf (Some supplierUser)) 20
         (base_price_change 100.005) 2000 quoted_db)
  = mkResponse 500 "Failed to update quote"
  /\ (exists q',
        quotes (snd (route_update_quote (TokenOf (Some supplierUser)) 20
                       (base_price_change 100.005) 2000 quoted_db)) !! 20
        = Some q'
        /\ Quote.revisionNumber q' = 2%Z
        /\ Quote.status q' = Quote.modified
        /\ Quote.basePrice q' = (10001 # 100)%Q
        /\ Quote.totalPrice q' = Some 100%Q
        /\ Quote.adjustedPrice q' = Some 150%Q)
  /\ snd (route_update_quote (TokenOf (Some supplierUser)) 20
            (base_price_change 100000000) 2000 quoted_db)
     = quoted_db
  /\ snd (route_update_quote (TokenOf (Some supplierUser)) 20
            (mkUpdateQuoteBody None None None None None (Some 2147483648%Z)
               None None None) 2000 quoted_db)
     = quoted_db.
Proof.
  assert (Hs : may_revise supplierUser (quote_row Quote.draft))
    by (split; [reflexivity |]; right; split; reflexivity).
  split; [| split; [| split]].
  - by destruct (revision_is_written_then_fails supplierUser 20
                   (base_price_change 100.005) 2000 quoted_db
                   (quote_row Quote.draft) Hs eq_refl eq_refl)
      as [Hanswer _].
  - destruct (revision_is_written_then_fails supplierUser 20
                (base_price_change 100.005) 2000 quoted_db
                (quote_row Quote.draft) Hs eq_refl eq_refl)
      as (_ & _ & _ & _ & _ & _ & Hrow); [discriminate |].
    destruct (Hrow eq_refl)
      as (q' & Hq' & Hrev & Hst & Hbase & _ & _ & _ & _ & Htot & Hadj & _).
    exists q'. repeat split; assumption.
  - destruct (revision_is_written_then_fails supplierUser 20
                (base_price_change 100000000) 2000 quoted_db
                (quote_row Quote.draft) Hs eq_refl eq_refl)
      as (_ & _ & _ & _ & _ & Hrefused & _); [discriminate |].
    apply Hrefused. reflexivity.
  - destruct (revision_is_written_then_fails supplierUser 20
                (mkUpdateQuoteBody None None None None None
                   (Some 2147483648%Z) None None None) 2000 quoted_db
                (quote_row Quote.draft) Hs eq_refl eq_refl)
      as (_ & _ & _ & _ & _ & Hrefused & _); [discriminate |].
    apply Hrefused. reflexivity.
Defined.

(** X12: a rejection is written and then answered as a failure. When the
    dentist of the order, or an administrator, rejects a quote that is sent
    or modified, the request is answered with 500 "Failed to reject quote"
    and no notice is added to the conversation, but the quote is stored as
    [rejected] with the reason given (the old one when none is given) and
    with its prices, factor and revision number untouched, and the order is
    stored in [quote_asked], with the parties and the amounts it carried;
    no other quote and no other order is touched. *)
Theorem rejection_is_written_then_fails (u : User.t) (quote_id : Id)
    (reason : option string) (now : Z) (db : DB) (q : Quote.t)
    (o : Order.t) :
  may_decide u o ->
  quotes db !! quote_id = Some q ->
  Quote.id q = quote_id ->
  orders db !! Quote.orderId q = Some o ->
  Order.id o = Quote.orderId q ->
  Quote.status q = Quote.sent \/ Quote.status q = Quote.modified ->
  fst (route_reject_quote (TokenOf (Some u)) quote_id reason now db)
  = mkResponse 500 "Failed to reject quote"
  /\ chat_messages
       (snd (route_reject_quote (TokenOf (Some u)) quote_id reason now db))
     = chat_messages db
  /\ pricing_factors
       (snd (route_reject_quote (TokenOf (Some u)) quote_id reason now db))
     = pricing_factors db
  /\ (exists q',
        quotes (snd (route_reject_quote (TokenOf (Some u)) quote_id reason
                       now db)) !! quote_id = Some q'
        /\ Quote.status q' = Quote.rejected
        /\ Quote.rejectionReason q'
           = match reason with
             | Some r => Some r
             | None => Quote.rejectionReason q
             end
        /\ Quote.basePrice q' = Quote.basePrice q
        /\ Quote.totalPrice q' = Quote.totalPrice q
        /\ Quote.adjustedPrice q' = Quote.adjustedPrice q
        /\ Quote.pricingFactor q' = Quote.pricingFactor q
        /\ Quote.revisionNumber q' = Quote.revisionNumber q)
  /\ (exists o',
        orders (snd (route_reject_quote (TokenOf (Some u)) quote_id reason
                       now db)) !! Quote.orderId q = Some o'
        /\ Order.status o' = quote_asked
        /\ Order.supplierId o' = Order.supplierId o
        /\ Order.dentistId o' = Order.dentistId o
        /\ Order.originalQuote o' = Order.originalQuote o
        /\ Order.adjustedQuote o' = Order.adjustedQuote o
        /\ Order.pricingFactor o' = Order.pricingFactor o)
  /\ (forall k, k <> quote_id ->
        quotes (snd (route_reject_quote (TokenOf (Some u)) quote_id reason
                       now db)) !! k
        = quotes db !! k)
  /\ (forall k, k <> Quote.orderId q ->
        orders (snd (route_reject_quote (TokenOf (Some u)) quote_id reason
                       now db)) !! k
        = orders db !! k).
Proof.
  intros Hu Hq Hid Ho Hoid Hs.
  rewrite (reject_by_decider u quote_id now reason db q o Hu Hq Ho).
  assert (Hgate : not_sent_nor_modified (Quote.status q) = false)
    by (destruct Hs as [-> | ->]; reflexivity).
  rewrite Hgate. cbn zeta. cbn [fst snd].
  cbn [save_order save_quote orders quotes chat_messages pricing_factors
       Quote.set Quote.loaded Quote.dataValues Quote.id].
  split; [done |]. split; [done |]. split; [done |].
  split.
  { eexists. split; [rewrite Hid; apply lookup_insert_eq |].
    cbn. by destruct reason. }
  split.
  { eexists. split; [cbn; rewrite Hoid; apply lookup_insert_eq |].
    repeat split. }
  split; intros k Hk; cbn; rewrite lookup_insert_ne; congruence.
Qed.

(** The dentist of the scenario rejects the quote that was sent. *)
Lemma rejection_is_written_then_fails_witness :
  fst (route_reject_quote (TokenOf (Some dentistUser)) 20
         (Some "Too expensive") 3000 sent_db)
  = mkResponse 500 "Failed to reject quote"
  /\ (exists q',
        quotes (snd (route_reject_quote (TokenOf (Some dentistUser)) 20
                       (Some "Too expensive") 3000 sent_db)) !! 20
        = Some q'
        /\ Quote.status q' = Quote.rejected
        /\ Quote.rejectionReason q' = Some "Too expensive")
  /\ (exists o',
        orders (snd (route_reject_quote (TokenOf (Some dentistUser)) 20
                       (Some "Too expensive") 3000 sent_db)) !! 10
        = Some o'
        /\ Order.status o' = quote_asked).
Proof.
  destruct (rejection_is_written_then_fails dentistUser 20
              (Some "Too expensive") 3000 sent_db (quote_row Quote.sent)
              (order_in quote_sent))
    as (Hanswer & _ & _ & (q' & Hq' & Hst & Hrr & _)
        & (o' & Ho' & Hos & _) & _).
  - split; [reflexivity |]. right. split; reflexivity.
  - reflexivity.
  - reflexivity.
  - reflexivity.
  - reflexivity.
  - by left.
  - split; [exact Hanswer |]. split.
    + exists q'. repeat split; assumption.
    + exists o'. split; assumption.
Defined.

(** ** Administration of the pricing factors *)

Lemma factor_in_range_valid (f : Q) :
  factor_in_range f = true <-> (1 <= f /\ f <= 10)%Q.
Proof.
  unfold factor_in_range. rewrite andb_true_iff, !Qle_bool_iff. tauto.
Qed.

Lemma find_factor_elem (factor_id : Id) (rows : list PricingFactor.t)
    (r : PricingFactor.t) :
  find_factor factor_id rows = Some r ->
  r ∈ rows /\ PricingFactor.id r = factor_id.
Proof.
  unfold find_factor. intros H. apply find_some in H as [Hin Hid].
  split; [by apply list_elem_of_In | by apply bool_decide_eq_true in Hid].
Qed.

(** The administration writes the table of rules and nothing else. *)
Lemma administer_frame (a : FactorAction) (now : Z) (db : DB) :
  orders (snd (administer a now db)) = orders db
  /\ quotes (snd (administer a now db)) = quotes db
  /\ chat_messages (snd (administer a now db)) = chat_messages db.
Proof.
  destruct a; cbn;
    unfold route_create_pricing_factor, route_update_pricing_factor,
      route_delete_pricing_factor;
    repeat case_match; repeat split.
Qed.

Lemma administer_factors_valid (a : FactorAction) (now : Z) (db : DB) :
  factors_valid db -> factors_valid (snd (administer a now db)).
Proof.
  unfold factors_valid. intros Hf. destruct a as [c b i | c i p | c i]; cbn.
  - unfold route_create_pricing_factor.
    repeat case_match; try exact Hf. cbn.
    apply Forall_app. split; [exact Hf |]. constructor; [| constructor].
    match goal with H : factor_in_range _ = true |- _ =>
      by apply factor_in_range_valid in H end.
  - unfold route_update_pricing_factor.
    destruct (do u <- authenticateToken c; requireAdmin u); [exact Hf |].
    destruct (find_factor i (pricing_factors db)) as [r |] eqn:Hr;
      [| exact Hf].
    apply find_factor_elem in Hr as [Hin _].
    assert (Hv : PricingFactor.factor_valid r)
      by (rewrite Forall_forall in Hf; by apply Hf).
    destruct (pu_factor p) as [f |] eqn:Hp.
    + destruct (factor_in_range f) eqn:Hrange; [| exact Hf]. cbn.
      unfold write_factor. apply Forall_fmap.
      eapply Forall_impl; [exact Hf |]. intros r0 Hr0. cbn.
      destruct (bool_decide _); [| exact Hr0].
      unfold PricingFactor.factor_valid, update_factor. cbn. rewrite Hp. cbn.
      by apply factor_in_range_valid.
    + cbn. unfold write_factor. apply Forall_fmap.
      eapply Forall_impl; [exact Hf |]. intros r0 Hr0. cbn.
      destruct (bool_decide _); [| exact Hr0].
      unfold PricingFactor.factor_valid, update_factor. cbn. rewrite Hp.
      exact Hv.
  - unfold route_delete_pricing_factor.
    repeat case_match; try exact Hf. cbn.
    apply Forall_forall. intros r Hr. apply list_elem_of_filter in Hr as [_ Hr].
    rewrite Forall_forall in Hf. by apply Hf.
Qed.

(** One request keeps a stored quote in place, with the order, the
    supplier, the factor and the derived prices it had, and puts no quote
    under a key that had none. *)
Lemma step_keeps_quote (a : Action + FactorAction) (now : Z) (db : DB) :
  quotes_keyed db ->
  quotes_keyed (step a now db)
  /\ (forall i, quotes db !! i = None -> quotes (step a now db) !! i = None)
  /\ (forall i q,
        quotes db !! i = Some q ->
        exists q',
          quotes (step a now db) !! i = Some q'
          /\ Quote.orderId q' = Quote.orderId q
          /\ Quote.supplierId q' = Quote.supplierId q
          /\ Quote.pricingFactor q' = Quote.pricingFactor q
          /\ Quote.totalPrice q' = Quote.totalPrice q
          /\ Quote.adjustedPrice q' = Quote.adjustedPrice q).
Proof.
  intros Hk. destruct a as [a | a]; cbn [step].
  - unfold quotes_keyed in Hk |- *.
    destruct (perform_quote_writes a now db)
      as [-> | (j & q0 & p & q1 & Hq0 & Hu & ->)].
    + split; [exact Hk |]. split; [done |]. intros i q Hq. by exists q.
    + pose proof (Hk _ _ Hq0) as Hid.
      destruct (update_keeps_totals _ _ _ Hu)
        as (Htot & Hadj & Hpf & Hid' & Ho & Hs & _).
      split; [| split].
      * intros k q2 Hq2. apply lookup_insert_Some in Hq2
          as [[<- <-] | [_ Hq2]]; [exact Hid' | by apply Hk].
      * intros i Hi. rewrite lookup_insert_ne; [exact Hi |]. congruence.
      * intros i q Hq. destruct (decide (i = j)) as [-> | Hne].
        -- rewrite Hq in Hq0. injection Hq0 as <-. rewrite Hid.
           exists q1. by rewrite lookup_insert_eq.
        -- exists q. rewrite lookup_insert_ne by congruence. by split.
  - destruct (administer_frame a now db) as (_ & Hquotes & _).
    unfold quotes_keyed. rewrite Hquotes.
    split; [exact Hk |]. split; [done |]. intros i q Hq. by exists q.
Qed.

(** X14: through the requests of the users and those of the
    administration, interleaved in any order, every factor of the table of
    rules stays in the range from 1 to 10; no quote is added to the table;
    and every quote of the table stays in it with the total and the
    adjusted price it had, whatever was revised in between. *)
Theorem histories_keep_factors_and_totals
    (acts : list ((Action + FactorAction) * Z)) (db : DB) :
  factors_valid db -> quotes_keyed db ->
  factors_valid (history acts db)
  /\ (forall i, quotes db !! i = None -> quotes (history acts db) !! i = None)
  /\ (forall i q,
        quotes db !! i = Some q ->
        exists q',
          quotes (history acts db) !! i = Some q'
          /\ Quote.totalPrice q' = Quote.totalPrice q
          /\ Quote.adjustedPrice q' = Quote.adjustedPrice q).
Proof.
  revert db. induction acts as [| [a now] acts IH]; intros db Hf Hk.
  - split; [done |]. split; [done |]. intros i q Hq. by exists q.
  - cbn.
    assert (Hf' : factors_valid (step a now db)).
    { destruct a as [a | a]; cbn;
        [unfold factors_valid; by rewrite perform_factors
        | by apply administer_factors_valid]. }
    destruct (step_keeps_quote a now db Hk) as (Hk' & Hnone & Hsome).
    destruct (IH _ Hf' Hk') as (Hfin & Hnone' & Hsome').
    split; [exact Hfin |]. split.
    + intros i Hi. by apply Hnone', Hnone.
    + intros i q Hq.
      destruct (Hsome i q Hq) as (q1 & Hq1 & _ & _ & _ & Ht1 & Ha1).
      destruct (Hsome' i q1 Hq1) as (q' & Hq' & Ht' & Ha').
      exists q'. split; [exact Hq' |]. split; congruence.
Qed.

(** The history of the example: the base price of the quote goes up to 120
    and the quote is accepted, with the total 100 and the adjusted price
    150 all along. *)
Lemma histories_keep_factors_and_totals_witness :
  factors_valid (history mixed_history sent_db)
  /\ exists q',
       quotes (history mixed_history sent_db) !! 20 = Some q'
       /\ Quote.totalPrice q' = Some 100%Q
       /\ Quote.adjustedPrice q' = Some 150%Q.
Proof.
  destruct (histories_keep_factors_and_totals mixed_history sent_db)
    as (Hf & _ & Hq).
  - constructor; [| constructor].
    split; unfold Qle; cbn; lia.
  - intros k q Hq.
    apply (map_Forall_lookup_1 (fun k q => Quote.id q = k)
             (quotes sent_db) k q); [| exact Hq].
    apply (bool_decide_unpack _). vm_compute. exact I.
  - split; [exact Hf |].
    apply (Hq 20 (quote_row Quote.sent)). reflexivity.
Defined.

(** X15: the factor of a quote is fixed when the quote is created. Through
    any history of requests of users and of the administration that stores
    no new quote under its key, a stored quote stays in the table and keeps
    its order, its supplier and its pricing factor, whatever becomes of the
    rule the factor was taken from. *)
Theorem quote_factor_is_frozen
    (acts : list ((Action + FactorAction) * Z)) (db : DB) (i : Id)
    (q : Quote.t) :
  quotes_keyed db -> quotes db !! i = Some q -> never_inserts i acts ->
  exists q',
    quotes (history acts db) !! i = Some q'
    /\ Quote.orderId q' = Quote.orderId q
    /\ Quote.supplierId q' = Quote.supplierId q
    /\ Quote.pricingFactor q' = Quote.pricingFactor q.
Proof.
  revert db q. induction acts as [| [a now] acts IH]; intros db q Hk Hq Hno.
  - by exists q.
  - apply Forall_cons_1 in Hno as [Hno Hrest]. cbn.
    destruct (step_keeps_quote a now db Hk) as (Hk' & _ & Hsome).
    destruct (Hsome i q Hq) as (q1 & Hq1 & Ho & Hs & Hpf & _).
    destruct (IH _ _ Hk' Hq1 Hrest) as (q' & Hq' & Ho' & Hs' & Hpf').
    exists q'. split; [exact Hq' |].
    split; [by rewrite Ho' |]. split; [by rewrite Hs' | by rewrite Hpf'].
Qed.

(** The quote of the scenario keeps the factor 1.5 of the default rule
    after the supplier got a rule of its own. *)
Lemma quote_factor_is_frozen_witness :
  exists q',
    quotes (history later_history quoted_db) !! 20 = Some q'
    /\ Quote.pricingFactor q' = Some 1.5%Q.
Proof.
  destruct (quote_factor_is_frozen later_history quoted_db 20
              (quote_row Quote.draft))
    as (q' & Hq' & _ & _ & Hpf).
  - intros k q Hq.
    apply (map_Forall_lookup_1 (fun k q => Quote.id q = k)
             (quotes quoted_db) k q); [| exact Hq].
    apply (bool_decide_unpack _). vm_compute. exact I.
  - vm_compute; reflexivity.
  - repeat constructor; cbn; tauto.
  - exists q'. split; [exact Hq' | exact Hpf].
Defined.

(** ** Accounts *)

(** A credential that [authenticateToken] turns away is answered 401 and
    nothing is written. *)
Lemma turned_away (a : Action) (now : Z) (db : DB) (r : Response) :
  authenticateToken (credential_of a) = inl r ->
  perform a now db = (r, db) /\ status_code r = 401%Z.
Proof.
  intros H. split.
  - destruct a; cbn in *;
      unfold route_update_order_status, route_update_order_details,
        route_create_quote, route_update_quote, route_accept_quote,
        route_reject_quote, route_mark_read;
      by rewrite H.
  - destruct (credential_of a) as [| | | [u |]]; cbn in H;
      try (by injection H as <-).
    destruct (User.isActive u); [discriminate |]. by injection H as <-.
Qed.

Lemma admin_gate_code (c : Credential) (r : Response) :
  (do u <- authenticateToken c; requireAdmin u) = inl r ->
  status_code r = 401%Z \/ status_code r = 403%Z.
Proof.
  destruct c as [| | | [u |]]; cbn; try (intros [= <-]; by left).
  destruct (User.isActive u); cbn; [| intros [= <-]; by left].
  unfold requireAdmin, requireRole.
  destruct (bool_decide _); [discriminate |]. intros [= <-]. by right.
Qed.

Lemma admin_gate_passed (c : Credential) (u : User.t) :
  (do u' <- authenticateToken c; requireAdmin u') = inr u ->
  c = TokenOf (Some u) /\ User.isActive u = true /\ User.role u = admin.
Proof.
  destruct c as [| | | [u0 |]]; cbn; try discriminate.
  destruct (User.isActive u0) eqn:Hact; cbn; [| discriminate].
  unfold requireAdmin, requireRole.
  destruct (bool_decide_reflect (User.role u0 ∈ [admin])) as [Hr |];
    [| discriminate].
  intros [= <-]. repeat split; [exact Hact | set_solver].
Qed.

(** X16: deleting an account is a soft delete that locks the user out. When
    the route answers 200, the caller is an active administrator; the row of
    the deleted user stays in the table, with its role and inactive; the
    other rows are untouched; and from then on every request of the workflow
    that is sent with a token of that user is answered 401 "Invalid or
    inactive user" and writes nothing. *)
Theorem deleted_user_is_locked_out (b : Bearer) (user_id : Id)
    (users users' : gmap nat User.t) (msg : string) :
  users_keyed users ->
  route_delete_user b user_id users = (mkResponse 200 msg, users') ->
  (exists adm, credential b users = TokenOf (Some adm)
               /\ User.isActive adm = true /\ User.role adm = admin)
  /\ (exists u u', users !! user_id = Some u
                   /\ users' !! user_id = Some u'
                   /\ User.isActive u' = false
                   /\ User.role u' = User.role u
                   /\ User.id u' = user_id)
  /\ (forall k, k <> user_id -> users' !! k = users !! k)
  /\ (forall a now db,
        credential_of a = credential (SignedFor user_id) users' ->
        perform a now db
        = (mkResponse 401 "Invalid or inactive user", db)).
Proof.
  intros Hk. unfold route_delete_user.
  destruct (do u <- authenticateToken (credential b users); requireAdmin u)
    as [r | adm] eqn:Hgate.
  { intros [= -> _]. apply admin_gate_code in Hgate. cbn in Hgate. lia. }
  cbn [findByPk].
  destruct (users !! user_id) as [u |] eqn:Hu; [| discriminate].
  intros [= _ <-]. pose proof (Hk _ _ Hu) as Hid. rewrite Hid.
  split; [exists adm; by apply admin_gate_passed |].
  split.
  { exists u, (deactivate u). rewrite lookup_insert_eq. by repeat split. }
  split; [intros k Hne; by rewrite lookup_insert_ne |].
  intros a now db Hc.
  assert (Ha : authenticateToken (credential_of a)
               = inl (mkResponse 401 "Invalid or inactive user")).
  { rewrite Hc. cbn. by rewrite lookup_insert_eq. }
  by destruct (turned_away a now db _ Ha) as [-> _].
Qed.

(** The administrator deletes the account of the supplier of the scenario,
    who then tries to send the quote. *)
Lemma deleted_user_is_locked_out_witness :
  perform (CreateQuote (credential (SignedFor 3) users_without_supplier)
             scenario_body 20) 1000 scenario_db
  = (mkResponse 401 "Invalid or inactive user", scenario_db).
Proof.
  destruct (deleted_user_is_locked_out (SignedFor 1) 3 seeded_users
              users_without_supplier "User deactivated successfully")
    as (_ & _ & _ & Hlocked).
  - intros k u Hu.
    apply (map_Forall_lookup_1 (fun k u => User.id u = k) seeded_users k u);
      [| exact Hu].
    apply (bool_decide_unpack _). vm_compute. exact I.
  - vm_compute; reflexivity.
  - apply (Hlocked (CreateQuote _ scenario_body 20)). reflexivity.
Defined.

(** X17: a rule that was retired is never applied again. After a delete
    that is answered 200, or an update with [isActive: false] that is
    answered 200, no resolution over the new table, for any order and at
    any time, returns a rule with the key of the request. *)
Theorem retired_rule_is_never_applied (c : Credential) (factor_id : Id)
    (db db' : DB) (msg : string) (d : PricingFactor.orderData) (later : Z)
    (r : PricingFactor.t) :
  route_delete_pricing_factor c factor_id db = (mkResponse 200 msg, db')
  \/ (exists p, pu_isActive p = Some false
                /\ route_update_pricing_factor c factor_id p db
                   = (mkResponse 200 msg, db')) ->
  PricingFactor.getApplicableFactor d later (pricing_factors db')
  = Returned (Some r) ->
  PricingFactor.id r <> factor_id.
Proof.
  intros H Hr. apply resolved_where in Hr as (Hin & Hw & _).
  assert (Hact : PricingFactor.isActive r = true).
  { unfold PricingFactor.common_where in Hw.
    by repeat (apply andb_true_iff in Hw as [Hw _]). }
  destruct H as [H | (p & Hp & H)].
  - unfold route_delete_pricing_factor in H.
    destruct (do u <- authenticateToken c; requireAdmin u) as [r0 | u]
      eqn:Hgate.
    { injection H as -> _. apply admin_gate_code in Hgate. cbn in Hgate. lia. }
    destruct (find_factor factor_id (pricing_factors db)) as [r0 |] eqn:Hf;
      [| discriminate H].
    injection H as _ <-. cbn in Hin.
    apply list_elem_of_filter in Hin as [Hne _].
    apply find_factor_elem in Hf as [_ Hid]. by rewrite Hid in Hne.
  - unfold route_update_pricing_factor in H.
    destruct (do u <- authenticateToken c; requireAdmin u) as [r0 | u]
      eqn:Hgate.
    { injection H as -> _. apply admin_gate_code in Hgate. cbn in Hgate. lia. }
    destruct (find_factor factor_id (pricing_factors db)) as [r0 |] eqn:Hf;
      [| discriminate H].
    apply find_factor_elem in Hf as [_ Hid].
    destruct (match pu_factor p with
              | Some f => factor_in_range f
              | None => true
              end); [| discriminate H].
    injection H as _ <-. cbn in Hin. unfold write_factor in Hin.
    apply list_elem_of_fmap in Hin as (r1 & -> & _).
    change (PricingFactor.id (update_factor p r0)) with (PricingFactor.id r0)
      in *.
    rewrite Hid in *.
    destruct (bool_decide_reflect (PricingFactor.id r1 = factor_id))
      as [_ | Hne]; [| exact Hne].
    cbn in Hact. rewrite Hp in Hact. discriminate Hact.
Qed.

(** Once the rule of the supplier for crowns is deleted, the order of the
    scenario falls back on the default rule. *)
Lemma retired_rule_is_never_applied_witness :
  PricingFactor.getApplicableFactor crownOrderData 1000
    (pricing_factors db_without_crown_rule)
  = Returned (Some defaultPricingFactor)
  /\ PricingFactor.id defaultPricingFactor <> 2.
Proof.
  assert (Hr : PricingFactor.getApplicableFactor crownOrderData 1000
                 (pricing_factors db_without_crown_rule)
               = Returned (Some defaultPricingFactor))
    by (vm_compute; reflexivity).
  split; [exact Hr |].
  apply (retired_rule_is_never_applied (TokenOf (Some adminUser)) 2
           two_rule_db db_without_crown_rule
           "Pricing factor deleted successfully" crownOrderData 1000
           defaultPricingFactor); [| exact Hr].
  left. vm_compute. reflexivity.
Defined.

(** X18: the table of rules is in the hands of the administrators. A
    request to create, change or delete a rule that succeeds was sent by an
    active administrator; any other caller is answered 401 or 403 and the
    table stays as it was; and no such request, successful or not, writes an
    order, a quote or a message. *)
Theorem administration_is_reserved (a : FactorAction) (now : Z) (db : DB) :
  (succeeded (fst (administer a now db)) ->
   exists u, factor_credential a = TokenOf (Some u)
             /\ User.isActive u = true /\ User.role u = admin)
  /\ ((forall u, factor_credential a = TokenOf (Some u) ->
                 User.isActive u = true -> User.role u <> admin) ->
      (status_code (fst (administer a now db)) = 401%Z
       \/ status_code (fst (administer a now db)) = 403%Z)
      /\ snd (administer a now db) = db)
  /\ orders (snd (administer a now db)) = orders db
  /\ quotes (snd (administer a now db)) = quotes db
  /\ chat_messages (snd (administer a now db)) = chat_messages db.
Proof.
  split; [| split; [| apply administer_frame]].
  - destruct a as [c b i | c i p | c i]; cbn;
      unfold route_create_pricing_factor, route_update_pricing_factor,
        route_delete_pricing_factor;
      (destruct (do u <- authenticateToken c; requireAdmin u) as [r | u]
         eqn:Hgate;
       [apply admin_gate_code in Hgate; unfold succeeded; cbn; lia
       | intros _; exists u; by apply admin_gate_passed]).
  - intros Hno.
    assert (Hgate : exists r, (do u <- authenticateToken (factor_credential a);
                               requireAdmin u) = inl r).
    { destruct (do u <- authenticateToken (factor_credential a);
                requireAdmin u) as [r | u] eqn:Hg; [by exists r |].
      apply admin_gate_passed in Hg as (Hc & Hact & Hrole).
      by destruct (Hno u Hc Hact). }
    destruct Hgate as (r & Hgate).
    destruct a as [c b i | c i p | c i]; cbn in *;
      unfold route_create_pricing_factor, route_update_pricing_factor,
        route_delete_pricing_factor;
      rewrite Hgate; (split; [by apply admin_gate_code in Hgate | reflexivity]).
Qed.

(** The supplier of the scenario tries to enter a rule. *)
Lemma administration_is_reserved_witness :
  (status_code (fst (administer
                       (CreateFactor (TokenOf (Some supplierUser))
                          supplierRuleBody 2) 500 scenario_db)) = 401%Z
   \/ status_code (fst (administer
                          (CreateFactor (TokenOf (Some supplierUser))
                             supplierRuleBody 2) 500 scenario_db)) = 403%Z)
  /\ snd (administer
            (CreateFactor (TokenOf (Some supplierUser)) supplierRuleBody 2)
            500 scenario_db) = scenario_db.
Proof.
  destruct (administration_is_reserved
              (CreateFactor (TokenOf (Some supplierUser)) supplierRuleBody 2)
              500 scenario_db) as (_ & Hother & _).
  apply Hother. intros u [= <-] _. discriminate.
Defined.

(** ** Files *)

Lemma file_find_elem (file_id : Id) (files : list File.t) (f : File.t) :
  File.findByPk file_id files = Some f -> f ∈ files /\ File.id f = file_id.
Proof.
  unfold File.findByPk. intros H. apply find_some in H as [Hin Hid].
  split; [by apply list_elem_of_In | by apply bool_decide_eq_true in Hid].
Qed.

Lemma file_token_elem (token : string) (files : list File.t) (f : File.t) :
  File.findByToken token files = Some f ->
  f ∈ files /\ File.accessToken f = Some token.
Proof.
  unfold File.findByToken. intros H. apply find_some in H as [Hin Ht].
  split; [by apply list_elem_of_In | by apply bool_decide_eq_true in Ht].
Qed.

(** After a write, the key of the row finds the row that was written. *)
Lemma file_write_find (f' : File.t) (files : list File.t) (f : File.t) :
  File.findByPk (File.id f') files = Some f ->
  File.findByPk (File.id f') (File.write f' files) = Some f'.
Proof.
  unfold File.findByPk, File.write.
  induction files as [| g files IH]; cbn; [discriminate |].
  destruct (bool_decide_reflect (File.id g = File.id f')) as [E | E].
  - intros _. by rewrite bool_decide_eq_true_2.
  - intros H. rewrite (bool_decide_eq_false_2 _ E). by apply IH.
Qed.


Lemma file_write_other (f' : File.t) (files : list File.t) (k : nat)
    (g : File.t) :
  files !! k = Some g -> File.id g <> File.id f' ->
  File.write f' files !! k = Some g.
Proof.
  intros Hk Hne. unfold File.write. rewrite list_lookup_fmap, Hk. cbn.
  by rewrite bool_decide_eq_false_2.
Qed.

(** The gate of the authenticated routes, passed. *)
Lemma file_gate_passed (failure : string) (c : Credential) (file_id : Id)
    (db : DB) (files : list File.t) (f : File.t) :
  file_gate failure c file_id db files = inr f ->
  exists u,
    authenticateToken c = next u
    /\ File.findByPk file_id files = Some f
    /\ file_owner_checks failure u (orders db !! File.orderId f) = next tt.
Proof.
  unfold file_gate.
  destruct (authenticateToken c) as [r | u]; cbn [mw_bind]; [discriminate |].
  destruct (File.findByPk file_id files) as [f0 |]; [| discriminate].
  destruct (file_owner_checks failure u (orders db !! File.orderId f0))
    as [r | []] eqn:E; cbn [mw_bind next]; [discriminate |].
  intros [= <-]. by exists u.
Qed.






(** X21: downloads are counted. A download that is served, by the
    authenticated route or by a link, adds one to the download count of the
    file that is served, stamps it with the time of the request, and leaves
    its token, its expiry and every row of another key as they were; a
    request that is not served leaves the table as it was. *)
Theorem downloads_are_counted (now : Z) (db : DB) (files : list File.t) :
  (forall c file_id,
     let out := route_download_file c file_id now db files in
     match fst out with
     | Attachment path name =>
         exists f,
           File.findByPk file_id files = Some f
           /\ path = File.filePath f
           /\ File.findByPk file_id (snd out)
              = Some (File.incrementDownload now f)
     | _ => snd out = files
     end)
  /\ (forall token,
        let out := route_token_download token now files in
        match fst out with
        | Attachment path name =>
            exists f,
              File.findByToken token files = Some f
              /\ path = File.filePath f
              /\ File.findByPk (File.id f) (snd out)
                 = Some (File.incrementDownload now f)
        | _ => snd out = files
        end)
  /\ (forall f,
        File.downloadCount (File.incrementDownload now f)
        = (File.downloadCount f + 1)%Z
        /\ File.lastDownloadedAt (File.incrementDownload now f) = Some now
        /\ File.accessToken (File.incrementDownload now f)
           = File.accessToken f
        /\ File.expiresAt (File.incrementDownload now f) = File.expiresAt f)
  /\ (forall c file_id k g,
        files !! k = Some g -> File.id g <> file_id ->
        snd (route_download_file c file_id now db files) !! k = Some g)
  /\ (forall token k g,
        files !! k = Some g ->
        (forall f, File.findByToken token files = Some f ->
                   File.id g <> File.id f) ->
        snd (route_token_download token now files) !! k = Some g).
Proof.
  split; [| split; [| split; [| split]]].
  - intros c file_id. unfold route_download_file.
    destruct (file_gate _ c file_id db files) as [r | f] eqn:Hgate;
      [reflexivity |].
    apply file_gate_passed in Hgate as (_ & _ & Hf & _).
    destruct (File.isAccessible now f); [| reflexivity]. cbn.
    exists f. split; [exact Hf |]. split; [reflexivity |].
    pose proof (file_find_elem _ _ _ Hf) as [_ Hid]. rewrite <- Hid.
    apply (file_write_find (File.incrementDownload now f) files f).
    change (File.findByPk (File.id f) files = Some f). by rewrite Hid.
  - intros token. unfold route_token_download.
    destruct (File.findByToken token files) as [f |] eqn:Hf; [| reflexivity].
    destruct (File.isAccessible now f); [| reflexivity]. cbn.
    exists f. split; [reflexivity |]. split; [reflexivity |].
    apply file_token_elem in Hf as [Hin _].
    assert (Hsome : exists g, File.findByPk (File.id f) files = Some g).
    { unfold File.findByPk.
      destruct (find _ files) as [g |] eqn:Hg; [by exists g |].
      apply list_elem_of_In in Hin.
      pose proof (find_none _ _ Hg f Hin) as Hnone. cbv beta in Hnone.
      by rewrite bool_decide_eq_true_2 in Hnone. }
    destruct Hsome as (g & Hg).
    exact (file_write_find (File.incrementDownload now f) files g Hg).
  - intros f. repeat split.
  - intros c file_id k g Hk Hne. unfold route_download_file.
    destruct (file_gate _ c file_id db files) as [r | f] eqn:Hgate;
      [exact Hk |].
    apply file_gate_passed in Hgate as (_ & _ & Hf & _).
    apply file_find_elem in Hf as [_ Hid].
    destruct (File.isAccessible now f); [| exact Hk]. cbn.
    apply file_write_other; [exact Hk |]. cbn. congruence.
  - intros token k g Hk Hne. unfold route_token_download.
    destruct (File.findByToken token files) as [f |]; [| exact Hk].
    destruct (File.isAccessible now f); [| exact Hk]. cbn.
    apply file_write_other; [exact Hk |]. cbn. by apply Hne.
Qed.

(** The scan of the scenario, downloaded once by the dentist. *)
Lemma downloads_are_counted_witness :
  exists f,
    File.findByPk 30
      (snd (route_download_file (TokenOf (Some dentistUser)) 30 500
              scenario_db sampleFiles)) = Some f
    /\ File.downloadCount f = 1%Z
    /\ File.lastDownloadedAt f = Some 500%Z.
Proof.
  destruct (downloads_are_counted 500 scenario_db sampleFiles)
    as (Hroute & _).
  specialize (Hroute (TokenOf (Some dentistUser)) 30).
  assert (Hserved : fst (route_download_file (TokenOf (Some dentistUser)) 30
                           500 scenario_db sampleFiles)
                    = Attachment "uploads/7f3a.stl" "scan.stl")
    by (vm_compute; reflexivity).
  cbv zeta in Hroute. rewrite Hserved in Hroute.
  destruct Hroute as (f & Hf & _ & Hf').
  assert (Hs : File.findByPk 30 sampleFiles = Some sampleFile)
    by (vm_compute; reflexivity).
  rewrite Hs in Hf. injection Hf as <-.
  exists (File.incrementDownload 500 sampleFile).
  split; [exact Hf' | split; reflexivity].
Defined.

(** The codes the gate of the file routes refuses with. *)
Lemma file_gate_code (failure : string) (c : Credential) (file_id : Id)
    (db : DB) (files : list File.t) (r : Response) :
  file_gate failure c file_id db files = inl r ->
  status_code r = 401%Z \/ status_code r = 404%Z \/ status_code r = 403%Z
  \/ status_code r = 500%Z.
Proof.
  unfold file_gate.
  destruct (authenticateToken c) as [r0 | u] eqn:Ha; cbn [mw_bind].
  { intros [= <-]. left.
    destruct c as [| | | [u |]]; cbn in Ha; try (by injection Ha as <-).
    destruct (User.isActive u); [discriminate |]. by injection Ha as <-. }
  destruct (File.findByPk file_id files) as [f |];
    [| intros [= <-]; right; by left].
  destruct (orders db !! File.orderId f) as [o |]; cbn.
  - unfold owner_checks.
    destruct (dentist_owner_check _ u o) as [r0 | []] eqn:Hd; cbn [mw_bind].
    + intros [= <-]. apply dentist_owner_code in Hd. tauto.
    + destruct (supplier_owner_check _ u (Order.supplierId o)) as [r0 | []]
        eqn:Hs; cbn; [| discriminate].
      intros [= <-]. apply supplier_owner_code in Hs. tauto.
  - destruct (_ || _); cbn; [| discriminate]. intros [= <-]. tauto.
Qed.

(** X22: a deleted file is gone for every route. After a delete that is
    answered 200, the row of the file is out of the table and the rows of
    the other keys are all there, in their order; a download, a request for
    a link and a second delete of that file by any authenticated user are
    answered 404 "File not found"; and a link that is served afterwards
    serves another file. *)
Theorem deleted_file_is_gone (c : Credential) (file_id : Id) (db : DB)
    (files files' : list File.t) (msg : string) :
  route_delete_file c file_id db files
  = (Answer (mkResponse 200 msg), files') ->
  files' = filter (fun f => File.id f <> file_id) files
  /\ (forall u now,
        User.isActive u = true ->
        route_download_file (TokenOf (Some u)) file_id now db files'
        = (Answer (mkResponse 404 "File not found"), files')
        /\ (forall random,
              route_access_token (TokenOf (Some u)) file_id random now db
                files'
              = (Answer (mkResponse 404 "File not found"), files'))
        /\ route_delete_file (TokenOf (Some u)) file_id db files'
           = (Answer (mkResponse 404 "File not found"), files'))
  /\ (forall token now path name,
        fst (route_token_download token now files') = Attachment path name ->
        exists g, g ∈ files
                  /\ File.accessToken g = Some token
                  /\ File.id g <> file_id
                  /\ path = File.filePath g).
Proof.
  unfold route_delete_file.
  destruct (file_gate _ c file_id db files) as [r | f] eqn:Hgate.
  { intros [= -> _]. apply file_gate_code in Hgate. cbn in Hgate. lia. }
  intros [= _ <-].
  apply file_gate_passed in Hgate as (_ & _ & Hf & _).
  apply file_find_elem in Hf as [_ Hid].
  assert (Hfiles : File.destroy f files
                   = filter (fun g => File.id g <> file_id) files)
    by (unfold File.destroy; by rewrite Hid).
  rewrite Hfiles. clear Hfiles f Hid.
  assert (Hgone : File.findByPk file_id
                    (filter (fun g => File.id g <> file_id) files) = None).
  { unfold File.findByPk.
    destruct (find _ _) as [g |] eqn:Hg; [| reflexivity].
    apply find_some in Hg as [Hin Hg]. apply bool_decide_eq_true in Hg.
    apply list_elem_of_In, list_elem_of_filter in Hin as [Hne _]. done. }
  split; [reflexivity |]. split.
  - intros u now Hact.
    unfold route_download_file, route_access_token, route_delete_file,
      file_gate.
    cbn [authenticateToken]. rewrite Hact. cbn [mw_bind next].
    rewrite Hgone. by repeat split.
  - intros token now path name. unfold route_token_download.
    destruct (File.findByToken token (filter _ files)) as [g |] eqn:Hg;
      [| discriminate].
    destruct (File.isAccessible now g); [| discriminate].
    intros [= <- _].
    pose proof (file_token_elem _ _ _ Hg) as [Hin Htok].
    apply list_elem_of_filter in Hin as [Hne Hin].
    by exists g.
Qed.

(** The supplier deletes the scan of the scenario; the dentist asks for
    it. *)
Lemma deleted_file_is_gone_witness :
  route_download_file (TokenOf (Some dentistUser)) 30 2000 scenario_db []
  = (Answer (mkResponse 404 "File not found"), []).
Proof.
  destruct (deleted_file_is_gone (TokenOf (Some supplierUser)) 30 scenario_db
              sampleFiles [] "File deleted successfully")
    as (_ & Hgone & _); [vm_compute; reflexivity |].
  destruct (Hgone dentistUser 2000%Z eq_refl) as (Hdownload & _).
  exact Hdownload.
Defined.

(** ** Unread messages *)

Lemma filter_fmap_length {A} (P Q : A -> Prop) `{!forall x, Decision (P x)}
    `{!forall x, Decision (Q x)} (f : A -> A) (l : list A) :
  (forall x, x ∈ l -> P (f x) <-> Q x) ->
  length (filter P (f <$> l)) = length (filter Q l).
Proof.
  induction l as [| x l IH]; intros Hpq; [reflexivity |].
  rewrite fmap_cons, !filter_cons.
  assert (Hx : P (f x) <-> Q x) by (apply Hpq; by left).
  assert (IH' : length (filter P (f <$> l)) = length (filter Q l))
    by (apply IH; intros y Hy; apply Hpq; by right).
  destruct (decide (P (f x))), (decide (Q x)); cbn; try tauto; by rewrite IH'.
Qed.

Lemma filter_length_le {A} (P Q : A -> Prop) `{!forall x, Decision (P x)}
    `{!forall x, Decision (Q x)} (l : list A) :
  (forall x, P x -> Q x) ->
  length (filter P l) <= length (filter Q l).
Proof.
  intros Hpq. induction l as [| x l IH]; [reflexivity |].
  rewrite !filter_cons.
  destruct (decide (P x)) as [Hp | Hp], (decide (Q x)) as [Hq | Hq]; cbn;
    try lia.
  by destruct (Hq (Hpq x Hp)).
Qed.

(** X23: reading an order takes its messages out of the unread count. When
    a mark-read request is answered 200, the unread count of the caller
    becomes the number of messages that were counted before and belong to
    another order; it never grows; and no message of the order that was
    read is counted for that caller any more. *)
Theorem reading_clears_the_unread_count (c : Credential) (order_id : Id)
    (now : Z) (db db' : DB) (msg : string) :
  route_mark_read c order_id now db = (mkResponse 200 msg, db') ->
  exists u,
    authenticateToken c = next u
    /\ route_unread_count c db = inr (unreadCount u db)
    /\ route_unread_count c db'
       = inr (length
                (filter (fun m => unread_where u db m = true
                                  /\ ChatMessage.orderId m <> order_id)
                        (chat_messages db)))
    /\ unreadCount u db' <= unreadCount u db
    /\ (forall m, m ∈ chat_messages db' ->
                  ChatMessage.orderId m = order_id ->
                  unread_where u db' m = false).
Proof.
  unfold route_mark_read.
  destruct (authenticateToken c) as [r | u] eqn:Ha; cbn [mw_bind].
  { intros [= E _]. exfalso.
    destruct c as [| | | [u |]]; cbn in Ha;
      try (injection Ha as <-; discriminate E).
    destruct (User.isActive u); [discriminate Ha |].
    injection Ha as <-; discriminate E. }
  destruct (canAccessOrder (orderId_params order_id) u db) as [r | o] eqn:Hc;
    cbn [mw_bind next].
  { intros [= E _]. exfalso. unfold canAccessOrder in Hc.
    destruct (findByPk _ _); [| injection Hc as <-; discriminate E].
    unfold order_access in Hc. repeat case_match; try discriminate Hc.
    injection Hc as <-. discriminate E. }
  intros [= _ <-]. exists u.
  assert (Hstep : forall m,
            unread_where u db
              (if ChatMessage.unread_from_others order_id (User.id u) m
               then ChatMessage.mark now m else m) = true
            <-> unread_where u db m = true
                /\ ChatMessage.orderId m <> order_id).
  { intros m. unfold ChatMessage.unread_from_others.
    destruct (bool_decide_reflect (ChatMessage.orderId m = order_id))
      as [Ho | Ho];
      destruct (bool_decide_reflect (ChatMessage.userId m = User.id u))
        as [Hu | Hu];
      destruct (ChatMessage.isRead m) eqn:Hr; cbn [andb negb];
      unfold unread_where; cbn [ChatMessage.isRead ChatMessage.mark];
      rewrite ?Hr; cbn [negb andb];
      try rewrite (bool_decide_eq_true_2 _ Hu);
      rewrite ?andb_false_r; cbn [negb andb];
      split; try discriminate; try tauto; intros [? ?]; try discriminate;
      try tauto. }
  assert (Hcount : unreadCount u
                     (set_messages
                        (ChatMessage.markRead order_id (User.id u) now
                           (chat_messages db)) db)
                   = length
                       (filter (fun m => unread_where u db m = true
                                         /\ ChatMessage.orderId m <> order_id)
                               (chat_messages db))).
  { unfold unreadCount, ChatMessage.markRead. cbn [chat_messages set_messages].
    apply (filter_fmap_length
             (fun m => unread_where u
                         (set_messages
                            ((fun m0 =>
                                if ChatMessage.unread_from_others order_id
                                     (User.id u) m0
                                then ChatMessage.mark now m0 else m0)
                               <$> chat_messages db) db) m = true)).
    intros m _. exact (Hstep m). }
  split; [reflexivity |].
  split; [unfold route_unread_count; by rewrite Ha |].
  split; [unfold route_unread_count; rewrite Ha; by rewrite Hcount |].
  split.
  - rewrite Hcount. unfold unreadCount. apply filter_length_le. tauto.
  - intros m Hm Ho. cbn [chat_messages set_messages] in Hm.
    unfold ChatMessage.markRead in Hm.
    apply list_elem_of_fmap in Hm as (m0 & -> & _).
    destruct (unread_where u _ _) eqn:E; [| reflexivity].
    change (unread_where u db
              (if ChatMessage.unread_from_others order_id (User.id u) m0
               then ChatMessage.mark now m0 else m0) = true) in E.
    apply Hstep in E as [_ E]. exfalso. apply E.
    destruct (ChatMessage.unread_from_others order_id (User.id u) m0);
      exact Ho.
Qed.

(** The dentist of the scenario has two unread messages, the notice of the
    upload and the question of the supplier, and none after reading the
    order. *)
Lemma reading_clears_the_unread_count_witness :
  route_unread_count (TokenOf (Some dentistUser)) chatting_db = inr 2
  /\ route_unread_count (TokenOf (Some dentistUser))
       (snd (route_mark_read (TokenOf (Some dentistUser)) 10 1300
               chatting_db)) = inr 0.
Proof.
  destruct (reading_clears_the_unread_count (TokenOf (Some dentistUser)) 10
              1300 chatting_db
              (snd (route_mark_read (TokenOf (Some dentistUser)) 10 1300
                      chatting_db)) "Messages marked as read")
    as (u & Hu & Hbefore & Hafter & _); [vm_compute; reflexivity |].
  injection Hu as <-. split.
  - rewrite Hbefore. vm_compute. reflexivity.
  - rewrite Hafter. vm_compute. reflexivity.
Defined.

(** ** Placing an order *)

Lemma dentist_gate_code (c : Credential) (r : Response) :
  (do u <- authenticateToken c; requireDentistOrAdmin u) = inl r ->
  status_code r = 401%Z \/ status_code r = 403%Z.
Proof.
  destruct c as [| | | [u |]]; cbn; try (intros [= <-]; by left).
  destruct (User.isActive u); cbn; [| intros [= <-]; by left].
  unfold requireDentistOrAdmin, requireRole.
  destruct (bool_decide _); [discriminate |]. intros [= <-]. by right.
Qed.



(** X25: a deleted supplier gets no new orders. Once the account of a user
    has been deleted, every request to place an order with that user as
    supplier is refused, with 401 or 403 at the gates and with 400
    "Invalid supplier selected" after them, whoever sends it, and the store
    stays as it was. *)
Theorem deleted_supplier_gets_no_orders (admin_bearer : Bearer)
    (supplier_id : Id) (users users' : gmap nat User.t) (msg : string)
    (bearer : Bearer) (b : CreateOrderBody) (new_id : Id) (now : Z)
    (db : DB) :
  users_keyed users ->
  route_delete_user admin_bearer supplier_id users
  = (mkResponse 200 msg, users') ->
  co_supplierId b = supplier_id ->
  snd (route_create_order bearer b new_id now users' db) = db
  /\ (fst (route_create_order bearer b new_id now users' db)
      = mkResponse 400 "Invalid supplier selected"
      \/ status_code (fst (route_create_order bearer b new_id now users' db))
         = 401%Z
      \/ status_code (fst (route_create_order bearer b new_id now users' db))
         = 403%Z).
Proof.
  intros Hk Hdel Hb. unfold route_delete_user in Hdel.
  destruct (do u <- authenticateToken (credential admin_bearer users);
            requireAdmin u) as [r | adm] eqn:Hgate.
  { injection Hdel as -> _. apply admin_gate_code in Hgate.
    cbn in Hgate. lia. }
  cbn [findByPk] in Hdel.
  destruct (users !! supplier_id) as [s |] eqn:Hs; [| discriminate Hdel].
  injection Hdel as _ <-. pose proof (Hk _ _ Hs) as Hid.
  unfold route_create_order.
  destruct (do u <- authenticateToken _; requireDentistOrAdmin u)
    as [r | u] eqn:Hg.
  { split; [reflexivity |]. right. by apply dentist_gate_code in Hg. }
  cbn [findByPk]. rewrite Hb, Hid, lookup_insert_eq. cbn.
  rewrite andb_false_r. split; [reflexivity | by left].
Qed.

(** The supplier of the scenario is deleted; the dentist tries to place the
    bridge with that account. *)
Lemma deleted_supplier_gets_no_orders_witness :
  snd (route_create_order (SignedFor 2) bridge_body 11 5000
         users_without_supplier scenario_db) = scenario_db.
Proof.
  destruct (deleted_supplier_gets_no_orders (SignedFor 1) 3 seeded_users
              users_without_supplier "User deactivated successfully"
              (SignedFor 2) bridge_body 11 5000 scenario_db)
    as (Hdb & _).
  - intros k u Hu.
    apply (map_Forall_lookup_1 (fun k u => User.id u = k) seeded_users k u);
      [| exact Hu].
    apply (bool_decide_unpack _). vm_compute. exact I.
  - vm_compute; reflexivity.
  - reflexivity.
  - exact Hdb.
Defined.

(** ** Deleting a message *)




(** ** The token a file is created with *)

Lemma find_token_last (token : string) (files : list File.t) (f : File.t) :
  (forall g, g ∈ files -> File.accessToken g <> Some token) ->
  File.accessToken f = Some token ->
  File.findByToken token (files ++ [f]) = Some f.
Proof.
  unfold File.findByToken. intros Hfresh Hf.
  induction files as [| g files IH]; cbn.
  - by rewrite bool_decide_eq_true_2.
  - rewrite bool_decide_eq_false_2 by (apply Hfresh; by left).
    apply IH. intros g0 Hg0. apply Hfresh. by right.
Qed.

(** X27: the link of a new file never runs out. A file that is created
    private, without a token and without an expiry, gets the token drawn by
    the hook; once its row is in the table, and as long as no request for a
    link has replaced the token, the link with that token serves the file
    at every time, to anybody, provided no earlier row carries the same
    token. *)
Theorem creation_link_never_expires (random : string) (data : File.t)
    (files : list File.t) (t : Z) :
  File.isPublic data = false ->
  truthy (File.accessToken data) = None ->
  File.expiresAt data = None ->
  (forall g, g ∈ files -> File.accessToken g <> Some random) ->
  File.accessToken (File.beforeCreate random data) = Some random
  /\ fst (route_token_download random t
            (files ++ [File.beforeCreate random data]))
     = Attachment (File.filePath data) (File.originalName data).
Proof.
  intros Hpriv Htok Hexp Hfresh.
  assert (Hf : File.beforeCreate random data
               = File.mk (File.id data) (File.orderId data)
                   (File.uploadedBy data) (File.originalName data)
                   (File.filePath data) (File.isPublic data) (Some random)
                   (File.expiresAt data) (File.downloadCount data)
                   (File.lastDownloadedAt data)).
  { unfold File.beforeCreate. rewrite Hpriv, Htok. cbn [negb andb].
    rewrite bool_decide_eq_false_2; [reflexivity |].
    intros [x Hx]. discriminate Hx. }
  rewrite Hf. split; [reflexivity |].
  unfold route_token_download. rewrite find_token_last by done.
  unfold File.isAccessible. cbn. by rewrite Hpriv, Hexp.
Qed.

(** The scan of the scenario, a year after its upload. *)
Lemma creation_link_never_expires_witness :
  fst (route_token_download "c0ffee" 31536000000 sampleFiles)
  = Attachment "uploads/7f3a.stl" "scan.stl".
Proof.
  destruct (creation_link_never_expires "c0ffee"
              (File.mk 30 10 2 "scan.stl" "uploads/7f3a.stl" false None None
                 0 None) [] 31536000000) as (_ & Hserved);
    [reflexivity | reflexivity | reflexivity | | exact Hserved].
  intros g Hg. by apply elem_of_nil in Hg.
Defined.
